(** * inspector: the encoding detection and fallback decoding engine, and
    the views that use it

    A shallow embedding of [src/inspector/main.py]: the engine of lines
    19-142 ([_is_likely_text], [_is_likely_misencoded_asian_text],
    [_is_likely_misencoded_cross_asian] and [decode_with_fallback]), the
    sampler [traces_sampler] and the views [index], [versions],
    [distribution] and [file].

    - a Python [str] is a list of code points ([N]), a [bytes] object a list
      of [byte];
    - Python exceptions are threaded through a small error monad [result];
    - Python floats are IEEE binary64 numbers, taken from [SpecFloat];
    - [bytes.decode] belongs to the language runtime, not to the repository:
      the engine is parameterised by it;
    - a view is a function from its arguments, and from the code it calls
      outside [main.py], to the response it returns. *)

From Stdlib Require Import ZArith NArith List String Ascii Bool Lia.
From Stdlib Require Import Permutation Sorted.
From Stdlib Require Import Floats.SpecFloat.
From Stdlib Require Strings.Byte.
Import ListNotations.

Local Open Scope string_scope.
Local Open Scope Z_scope.

(** ** Exceptions and the error monad *)

Inductive exn : Type :=
| UnicodeDecodeError
| LookupError
| AttributeError
| ZeroDivisionError.

Inductive result (A : Type) : Type :=
| Ok (a : A)
| Raise (e : exn).

Arguments Ok {A} a.
Arguments Raise {A} e.

Definition bind {A B : Type} (m : result A) (k : A -> result B) : result B :=
  match m with
  | Ok a => k a
  | Raise e => Raise e
  end.

Notation "x <- m ;; k" := (bind m (fun x => k))
  (at level 61, m at next level, right associativity).

(** [try: body except handled: handler]. *)
Definition try_except {A : Type} (body : result A) (handled : exn -> bool)
    (handler : result A) : result A :=
  match body with
  | Ok a => Ok a
  | Raise e => if handled e then handler else Raise e
  end.

(** ** Python numbers *)

Module PyFloat.

Definition prec : Z := 53.
Definition emax : Z := 1024.

Definition float : Type := spec_float.

Definition div (x y : float) : float := SFdiv prec emax x y.
Definition mul (x y : float) : float := SFmul prec emax x y.

(** [float(i)]: exact whenever [|i| < 2^53]. *)
Definition of_int (i : Z) : float := binary_normalize prec emax i 0 false.

(** A decimal literal [p/q] denotes the double nearest to it. *)
Definition literal (p q : Z) : float := div (of_int p) (of_int q).

Definition lit_0_3 : float := literal 3 10.
Definition lit_0_5 : float := literal 5 10.
Definition lit_0_1 : float := literal 1 10.

(** [a / b] on ints.  CPython divides the two converted doubles when both
    operands fit in 53 bits, which is the only case the engine meets. *)
Definition truediv (a b : Z) : result float :=
  if b =? 0 then Raise ZeroDivisionError
  else Ok (div (of_int a) (of_int b)).

(** [i * x] with [i] an int and [x] a float. *)
Definition int_mul (i : Z) (x : float) : float := mul (of_int i) x.

Definition leb (x y : float) : bool := SFleb x y.
Definition ltb (x y : float) : bool := SFltb x y.

(** [i < x] with [i] an int: CPython converts [i] when it has at most 48
    bits and compares doubles. *)
Definition int_ltb (i : Z) (x : float) : bool := SFltb (of_int i) x.

(** *** Vocabulary of the rounding proofs *)

(** The shift record [mrs] is the quotient [N / D] with its round and
    sticky bits. *)
Definition represents (N D : Z) (mrs : shr_record) : Prop :=
  0 < D /\ 0 <= N /\
  shr_m mrs = N / D /\
  shr_r mrs = (D <=? 2 * (N mod D)) /\
  shr_s mrs = negb ((N mod D =? 0) || (2 * (N mod D) =? D)).

(** The float made of a rounded mantissa, renormalised after a carry. *)
Definition rounded (m_r e : Z) : float :=
  if m_r <? 2 ^ 53 then S754_finite false (Z.to_pos m_r) e
  else S754_finite false (Z.to_pos (2 ^ 52)) (e + 1).

Definition normal (m : positive) : Prop := 2 ^ 52 <= Zpos m < 2 ^ 53.

End PyFloat.

(** ** Strings and bytes *)

Definition codepoint : Type := N.
Definition str : Type := list codepoint.
Definition bytes : Type := list Byte.byte.

Definition ord (c : codepoint) : N := c.

Definition len {A : Type} (s : list A) : Z := Z.of_nat (List.length s).

(** The float comparisons of the heuristics are shown exact for strings of
    fewer than [2^48] code points. *)
Definition max_len : Z := 2 ^ 48.

(** [sum(1 for c in s if p(c))]. *)
Fixpoint count_if (p : codepoint -> bool) (s : str) : Z :=
  match s with
  | [] => 0
  | c :: s' => (if p c then 1 else 0) + count_if p s'
  end.

(** [c.isalpha() and ord(c) < 128]: below 128 the alphabetic code points are
    the letters A-Z and a-z. *)
Definition is_ascii_alpha (c : codepoint) : bool :=
  ((65 <=? ord c) && (ord c <=? 90) || (97 <=? ord c) && (ord c <=? 122))%N.

Definition isalpha_and_ascii (c : codepoint) : bool :=
  is_ascii_alpha c && (ord c <? 128)%N.

(** [ord(c) < 32 and c not in "\t\n\r"]. *)
Definition is_control (c : codepoint) : bool :=
  (ord c <? 32)%N && negb ((c =? 9)%N || (c =? 10)%N || (c =? 13)%N).

Definition in_range (lo hi : N) (c : codepoint) : bool :=
  ((lo <=? ord c) && (ord c <=? hi))%N.

(** [encoding in (...)] on encoding names. *)
Fixpoint name_in (encoding : string) (names : list string) : bool :=
  match names with
  | [] => false
  | n :: names' => String.eqb encoding n || name_in encoding names'
  end.

(** ** The three heuristics *)

Definition _is_likely_text (decoded_str : str) : result bool :=
  match decoded_str with
  | [] => Ok true
  | _ =>
      let control_chars := count_if is_control decoded_str in
      ratio <- PyFloat.truediv control_chars (len decoded_str) ;;
      Ok (PyFloat.leb ratio PyFloat.lit_0_3)
  end.

Definition _is_likely_misencoded_asian_text (decoded_str : str)
    (encoding : string) : result bool :=
  if negb (name_in encoding ["cp1252"; "latin-1"]) || (len decoded_str <=? 3)
  then Ok false
  else
    let high_latin := count_if (in_range 0x0080 0x024F) decoded_str in
    let spaces := count_if (N.eqb 32) decoded_str in
    ratio <- PyFloat.truediv high_latin (len decoded_str) ;;
    if PyFloat.ltb PyFloat.lit_0_5 ratio
    then Ok (PyFloat.int_ltb spaces
               (PyFloat.int_mul (len decoded_str) PyFloat.lit_0_1))
    else Ok false.

(** The body of Pattern 2, entered when the encoding is an East Asian one. *)
Definition cross_asian_pattern2 (decoded_str : str) : result bool :=
  let ascii_chars := count_if (fun c => (ord c <? 128)%N) decoded_str in
  let cjk_chars := count_if (in_range 0x4E00 0x9FFF) decoded_str in
  if (0 <? ascii_chars) && (0 <? cjk_chars) then
    let ascii_letters := count_if isalpha_and_ascii decoded_str in
    if 2 <=? ascii_letters then
      ratio <- PyFloat.truediv cjk_chars (len decoded_str) ;;
      Ok (PyFloat.ltb ratio PyFloat.lit_0_5)
    else Ok false
  else Ok false.

Definition _is_likely_misencoded_cross_asian (decoded_str : str)
    (encoding : string) : result bool :=
  if len decoded_str <=? 3 then Ok false
  else
    flagged1 <-
      (if String.eqb encoding "shift_jis" then
         let half_width_katakana :=
           count_if (in_range 0xFF61 0xFF9F) decoded_str in
         ratio <- PyFloat.truediv half_width_katakana (len decoded_str) ;;
         Ok (PyFloat.ltb PyFloat.lit_0_3 ratio)
       else Ok false) ;;
    if (flagged1 : bool) then Ok true
    else if name_in encoding ["big5"; "gbk"; "gb2312"; "shift_jis"; "euc-kr"]
    then cross_asian_pattern2 decoded_str
    else Ok false.

(** ** The orchestrator *)

(** What [bytes.decode(encoding)] does on a [bytes] object: it returns the
    text, or raises [UnicodeDecodeError] (invalid byte sequence) or
    [LookupError] (unknown encoding name). *)
Inductive decode_outcome : Type :=
| Decoded (s : str)
| InvalidBytes
| UnknownEncoding.

Definition raise_outcome (o : decode_outcome) : result str :=
  match o with
  | Decoded s => Ok s
  | InvalidBytes => Raise UnicodeDecodeError
  | UnknownEncoding => Raise LookupError
  end.

(** One pass through a [try] body either returns from the function or goes
    on with what follows ([pass], [continue]). *)
Inductive flow : Type :=
| Return (decoded : str)
| Next.

Definition common_encodings : list string :=
  [ "shift_jis"; "euc-kr"; "big5"; "gbk"; "gb2312";
    "cp1251"; "iso-8859-2"; "cp1252"; "latin-1" ].

Definition is_UnicodeDecodeError_or_AttributeError (e : exn) : bool :=
  match e with
  | UnicodeDecodeError | AttributeError => true
  | _ => false
  end.

Definition is_UnicodeDecodeError_or_LookupError (e : exn) : bool :=
  match e with
  | UnicodeDecodeError | LookupError => true
  | _ => false
  end.

Section Engine.

(** [decode encoding content_bytes] is [content_bytes.decode(encoding)]. *)
Variable decode : string -> bytes -> decode_outcome.

(** Lines 97-103. *)
Definition try_utf8 (content_bytes : bytes) : result flow :=
  try_except
    (decoded <- raise_outcome (decode "utf-8" content_bytes) ;;
     likely <- _is_likely_text decoded ;;
     if (likely : bool) then Ok (Return decoded) else Ok Next)
    is_UnicodeDecodeError_or_AttributeError
    (Ok Next).

(** Lines 121-139: the body of the [for] loop. *)
Definition try_encoding (encoding : string) (content_bytes : bytes)
    : result flow :=
  try_except
    (decoded <- raise_outcome (decode encoding content_bytes) ;;
     likely <- _is_likely_text decoded ;;
     if negb likely then Ok Next
     else
       western <- _is_likely_misencoded_asian_text decoded encoding ;;
       if (western : bool) then Ok Next
       else
         cross <- _is_likely_misencoded_cross_asian decoded encoding ;;
         if (cross : bool) then Ok Next
         else Ok (Return decoded))
    is_UnicodeDecodeError_or_LookupError
    (Ok Next).

(** Lines 120-142: the loop and the final [return None]. *)
Fixpoint for_encodings (encodings : list string) (content_bytes : bytes)
    : result (option str) :=
  match encodings with
  | [] => Ok None
  | encoding :: rest =>
      f <- try_encoding encoding content_bytes ;;
      match f with
      | Return decoded => Ok (Some decoded)
      | Next => for_encodings rest content_bytes
      end
  end.

Definition decode_with_fallback (content_bytes : bytes)
    : result (option str) :=
  f <- try_utf8 content_bytes ;;
  match f with
  | Return decoded => Ok (Some decoded)
  | Next => for_encodings common_encodings content_bytes
  end.

End Engine.


(** ** The runtime's codecs

    [bytes.decode] is not repository code.  The codecs whose rules fit in a
    page are modelled here after CPython 3.11: UTF-8 (strict), Latin-1 and
    the three single-byte charmap codecs.  The five East Asian codecs rest
    on mapping tables of several thousand cells each; they stay a parameter
    [cjk], constrained where needed by recorded observations. *)

Definition byte_of_N (n : N) : Byte.byte :=
  match Byte.of_N n with
  | Some b => b
  | None => Byte.x00
  end.

Definition latin1_decode (content : bytes) : str := map Byte.to_N content.

Definition prepend (c : codepoint) (o : decode_outcome) : decode_outcome :=
  match o with
  | Decoded s => Decoded (c :: s)
  | InvalidBytes => InvalidBytes
  | UnknownEncoding => UnknownEncoding
  end.

(** A charmap codec: bytes below 0x80 are ASCII, the upper half is looked up
    in a table of 128 cells; an undefined cell is an error. *)
Definition charmap_lookup (table : list (option codepoint)) (b : Byte.byte)
    : option codepoint :=
  let n := Byte.to_N b in
  if (n <? 128)%N then Some n
  else nth (N.to_nat (n - 128)) table None.

Fixpoint charmap_decode (table : list (option codepoint)) (content : bytes)
    : decode_outcome :=
  match content with
  | [] => Decoded []
  | b :: rest =>
      match charmap_lookup table b with
      | Some c => prepend c (charmap_decode table rest)
      | None => InvalidBytes
      end
  end.

Definition is_continuation (n : N) : bool := ((0x80 <=? n) && (n <=? 0xBF))%N.

(** Strict UTF-8: shortest form only, no surrogates, nothing above
    U+10FFFF. *)
Fixpoint utf8_decode (content : bytes) : decode_outcome :=
  match content with
  | [] => Decoded []
  | b0 :: r0 =>
      let n0 := Byte.to_N b0 in
      if (n0 <? 0x80)%N then prepend n0 (utf8_decode r0)
      else if (n0 <? 0xC2)%N then InvalidBytes
      else if (n0 <? 0xE0)%N then
        match r0 with
        | b1 :: r1 =>
            let n1 := Byte.to_N b1 in
            if is_continuation n1
            then prepend ((n0 - 0xC0) * 64 + (n1 - 0x80))%N (utf8_decode r1)
            else InvalidBytes
        | _ => InvalidBytes
        end
      else if (n0 <? 0xF0)%N then
        match r0 with
        | b1 :: b2 :: r2 =>
            let n1 := Byte.to_N b1 in
            let n2 := Byte.to_N b2 in
            let lo := if (n0 =? 0xE0)%N then 0xA0%N else 0x80%N in
            let hi := if (n0 =? 0xED)%N then 0x9F%N else 0xBF%N in
            if ((lo <=? n1) && (n1 <=? hi))%N && is_continuation n2
            then prepend ((n0 - 0xE0) * 4096 + (n1 - 0x80) * 64
                          + (n2 - 0x80))%N (utf8_decode r2)
            else InvalidBytes
        | _ => InvalidBytes
        end
      else if (n0 <? 0xF5)%N then
        match r0 with
        | b1 :: b2 :: b3 :: r3 =>
            let n1 := Byte.to_N b1 in
            let n2 := Byte.to_N b2 in
            let n3 := Byte.to_N b3 in
            let lo := if (n0 =? 0xF0)%N then 0x90%N else 0x80%N in
            let hi := if (n0 =? 0xF4)%N then 0x8F%N else 0xBF%N in
            if ((lo <=? n1) && (n1 <=? hi))%N && is_continuation n2
               && is_continuation n3
            then prepend ((n0 - 0xF0) * 262144 + (n1 - 0x80) * 4096
                          + (n2 - 0x80) * 64 + (n3 - 0x80))%N (utf8_decode r3)
            else InvalidBytes
        | _ => InvalidBytes
        end
      else InvalidBytes
  end.

(** [str.encode("utf-8")]: [None] stands for [UnicodeEncodeError], raised on
    a surrogate. *)
Definition utf8_encode_char (c : codepoint) : option bytes :=
  if (c <? 0x80)%N then Some [byte_of_N c]
  else if (c <? 0x800)%N then
    Some [byte_of_N (0xC0 + c / 64); byte_of_N (0x80 + c mod 64)]%N
  else if (c <? 0x10000)%N then
    if ((0xD800 <=? c) && (c <=? 0xDFFF))%N then None
    else Some [byte_of_N (0xE0 + c / 4096);
               byte_of_N (0x80 + (c / 64) mod 64);
               byte_of_N (0x80 + c mod 64)]%N
  else if (c <? 0x110000)%N then
    Some [byte_of_N (0xF0 + c / 262144);
          byte_of_N (0x80 + (c / 4096) mod 64);
          byte_of_N (0x80 + (c / 64) mod 64);
          byte_of_N (0x80 + c mod 64)]%N
  else None.

Fixpoint utf8_encode (s : str) : option bytes :=
  match s with
  | [] => Some []
  | c :: s' =>
      match utf8_encode_char c, utf8_encode s' with
      | Some b, Some b' => Some (b ++ b')%list
      | _, _ => None
      end
  end.

Import Byte.

Definition cp1251_table : list (option codepoint) :=
  [
    Some 0x0402; Some 0x0403; Some 0x201A; Some 0x0453; Some 0x201E; Some 0x2026;
    Some 0x2020; Some 0x2021; Some 0x20AC; Some 0x2030; Some 0x0409; Some 0x2039;
    Some 0x040A; Some 0x040C; Some 0x040B; Some 0x040F; Some 0x0452; Some 0x2018;
    Some 0x2019; Some 0x201C; Some 0x201D; Some 0x2022; Some 0x2013; Some 0x2014;
    None; Some 0x2122; Some 0x0459; Some 0x203A; Some 0x045A; Some 0x045C;
    Some 0x045B; Some 0x045F; Some 0x00A0; Some 0x040E; Some 0x045E; Some 0x0408;
    Some 0x00A4; Some 0x0490; Some 0x00A6; Some 0x00A7; Some 0x0401; Some 0x00A9;
    Some 0x0404; Some 0x00AB; Some 0x00AC; Some 0x00AD; Some 0x00AE; Some 0x0407;
    Some 0x00B0; Some 0x00B1; Some 0x0406; Some 0x0456; Some 0x0491; Some 0x00B5;
    Some 0x00B6; Some 0x00B7; Some 0x0451; Some 0x2116; Some 0x0454; Some 0x00BB;
    Some 0x0458; Some 0x0405; Some 0x0455; Some 0x0457; Some 0x0410; Some 0x0411;
    Some 0x0412; Some 0x0413; Some 0x0414; Some 0x0415; Some 0x0416; Some 0x0417;
    Some 0x0418; Some 0x0419; Some 0x041A; Some 0x041B; Some 0x041C; Some 0x041D;
    Some 0x041E; Some 0x041F; Some 0x0420; Some 0x0421; Some 0x0422; Some 0x0423;
    Some 0x0424; Some 0x0425; Some 0x0426; Some 0x0427; Some 0x0428; Some 0x0429;
    Some 0x042A; Some 0x042B; Some 0x042C; Some 0x042D; Some 0x042E; Some 0x042F;
    Some 0x0430; Some 0x0431; Some 0x0432; Some 0x0433; Some 0x0434; Some 0x0435;
    Some 0x0436; Some 0x0437; Some 0x0438; Some 0x0439; Some 0x043A; Some 0x043B;
    Some 0x043C; Some 0x043D; Some 0x043E; Some 0x043F; Some 0x0440; Some 0x0441;
    Some 0x0442; Some 0x0443; Some 0x0444; Some 0x0445; Some 0x0446; Some 0x0447;
    Some 0x0448; Some 0x0449; Some 0x044A; Some 0x044B; Some 0x044C; Some 0x044D;
    Some 0x044E; Some 0x044F
  ]%N.

Definition iso8859_2_table : list (option codepoint) :=
  [
    Some 0x0080; Some 0x0081; Some 0x0082; Some 0x0083; Some 0x0084; Some 0x0085;
    Some 0x0086; Some 0x0087; Some 0x0088; Some 0x0089; Some 0x008A; Some 0x008B;
    Some 0x008C; Some 0x008D; Some 0x008E; Some 0x008F; Some 0x0090; Some 0x0091;
    Some 0x0092; Some 0x0093; Some 0x0094; Some 0x0095; Some 0x0096; Some 0x0097;
    Some 0x0098; Some 0x0099; Some 0x009A; Some 0x009B; Some 0x009C; Some 0x009D;
    Some 0x009E; Some 0x009F; Some 0x00A0; Some 0x0104; Some 0x02D8; Some 0x0141;
    Some 0x00A4; Some 0x013D; Some 0x015A; Some 0x00A7; Some 0x00A8; Some 0x0160;
    Some 0x015E; Some 0x0164; Some 0x0179; Some 0x00AD; Some 0x017D; Some 0x017B;
    Some 0x00B0; Some 0x0105; Some 0x02DB; Some 0x0142; Some 0x00B4; Some 0x013E;
    Some 0x015B; Some 0x02C7; Some 0x00B8; Some 0x0161; Some 0x015F; Some 0x0165;
    Some 0x017A; Some 0x02DD; Some 0x017E; Some 0x017C; Some 0x0154; Some 0x00C1;
    Some 0x00C2; Some 0x0102; Some 0x00C4; Some 0x0139; Some 0x0106; Some 0x00C7;
    Some 0x010C; Some 0x00C9; Some 0x0118; Some 0x00CB; Some 0x011A; Some 0x00CD;
    Some 0x00CE; Some 0x010E; Some 0x0110; Some 0x0143; Some 0x0147; Some 0x00D3;
    Some 0x00D4; Some 0x0150; Some 0x00D6; Some 0x00D7; Some 0x0158; Some 0x016E;
    Some 0x00DA; Some 0x0170; Some 0x00DC; Some 0x00DD; Some 0x0162; Some 0x00DF;
    Some 0x0155; Some 0x00E1; Some 0x00E2; Some 0x0103; Some 0x00E4; Some 0x013A;
    Some 0x0107; Some 0x00E7; Some 0x010D; Some 0x00E9; Some 0x0119; Some 0x00EB;
    Some 0x011B; Some 0x00ED; Some 0x00EE; Some 0x010F; Some 0x0111; Some 0x0144;
    Some 0x0148; Some 0x00F3; Some 0x00F4; Some 0x0151; Some 0x00F6; Some 0x00F7;
    Some 0x0159; Some 0x016F; Some 0x00FA; Some 0x0171; Some 0x00FC; Some 0x00FD;
    Some 0x0163; Some 0x02D9
  ]%N.

Definition cp1252_table : list (option codepoint) :=
  [
    Some 0x20AC; None; Some 0x201A; Some 0x0192; Some 0x201E; Some 0x2026;
    Some 0x2020; Some 0x2021; Some 0x02C6; Some 0x2030; Some 0x0160; Some 0x2039;
    Some 0x0152; None; Some 0x017D; None; None; Some 0x2018;
    Some 0x2019; Some 0x201C; Some 0x201D; Some 0x2022; Some 0x2013; Some 0x2014;
    Some 0x02DC; Some 0x2122; Some 0x0161; Some 0x203A; Some 0x0153; None;
    Some 0x017E; Some 0x0178; Some 0x00A0; Some 0x00A1; Some 0x00A2; Some 0x00A3;
    Some 0x00A4; Some 0x00A5; Some 0x00A6; Some 0x00A7; Some 0x00A8; Some 0x00A9;
    Some 0x00AA; Some 0x00AB; Some 0x00AC; Some 0x00AD; Some 0x00AE; Some 0x00AF;
    Some 0x00B0; Some 0x00B1; Some 0x00B2; Some 0x00B3; Some 0x00B4; Some 0x00B5;
    Some 0x00B6; Some 0x00B7; Some 0x00B8; Some 0x00B9; Some 0x00BA; Some 0x00BB;
    Some 0x00BC; Some 0x00BD; Some 0x00BE; Some 0x00BF; Some 0x00C0; Some 0x00C1;
    Some 0x00C2; Some 0x00C3; Some 0x00C4; Some 0x00C5; Some 0x00C6; Some 0x00C7;
    Some 0x00C8; Some 0x00C9; Some 0x00CA; Some 0x00CB; Some 0x00CC; Some 0x00CD;
    Some 0x00CE; Some 0x00CF; Some 0x00D0; Some 0x00D1; Some 0x00D2; Some 0x00D3;
    Some 0x00D4; Some 0x00D5; Some 0x00D6; Some 0x00D7; Some 0x00D8; Some 0x00D9;
    Some 0x00DA; Some 0x00DB; Some 0x00DC; Some 0x00DD; Some 0x00DE; Some 0x00DF;
    Some 0x00E0; Some 0x00E1; Some 0x00E2; Some 0x00E3; Some 0x00E4; Some 0x00E5;
    Some 0x00E6; Some 0x00E7; Some 0x00E8; Some 0x00E9; Some 0x00EA; Some 0x00EB;
    Some 0x00EC; Some 0x00ED; Some 0x00EE; Some 0x00EF; Some 0x00F0; Some 0x00F1;
    Some 0x00F2; Some 0x00F3; Some 0x00F4; Some 0x00F5; Some 0x00F6; Some 0x00F7;
    Some 0x00F8; Some 0x00F9; Some 0x00FA; Some 0x00FB; Some 0x00FC; Some 0x00FD;
    Some 0x00FE; Some 0x00FF
  ]%N.

(** The runtime seen by the engine: the modelled codecs by name, everything
    else handed to [cjk]. *)
Definition py_decode (cjk : string -> bytes -> decode_outcome)
    (encoding : string) (content : bytes) : decode_outcome :=
  if String.eqb encoding "utf-8" then utf8_decode content
  else if name_in encoding ["latin-1"; "iso-8859-1"]
  then Decoded (latin1_decode content)
  else if String.eqb encoding "cp1251" then charmap_decode cp1251_table content
  else if String.eqb encoding "iso-8859-2"
  then charmap_decode iso8859_2_table content
  else if String.eqb encoding "cp1252" then charmap_decode cp1252_table content
  else cjk encoding content.

(** ** Documented inputs ([src/tests/test_main.py]) *)

(** A plaintext, the encoding it was written in, and [text.encode(encoding)]
    as the runtime computes it. *)
Record sample : Type :=
  { text : str; encoding : string; encoded : bytes }.

Definition rt_utf8 : sample :=
  {| text :=
       [0x0048; 0x0065; 0x006C; 0x006C; 0x006F; 0x002C; 0x0020; 0x0057;
        0x006F; 0x0072; 0x006C; 0x0064; 0x0021]%N;
     encoding := "utf-8";
     encoded :=
       [x48; x65; x6c; x6c; x6f; x2c; x20; x57; x6f; x72; x6c; x64; x21] |}.

Definition rt_cp1252 : sample :=
  {| text :=
       [0x0057; 0x0069; 0x006E; 0x0064; 0x006F; 0x0077; 0x0073; 0x2122;
        0x0020; 0x0074; 0x0065; 0x0078; 0x0074]%N;
     encoding := "cp1252";
     encoded :=
       [x57; x69; x6e; x64; x6f; x77; x73; x99; x20; x74; x65; x78; x74] |}.

Definition rt_shift_jis : sample :=
  {| text :=
       [0x3053; 0x3093; 0x306B; 0x3061; 0x306F; 0x4E16; 0x754C]%N;
     encoding := "shift_jis";
     encoded :=
       [x82; xb1; x82; xf1; x82; xc9; x82; xbf; x82; xcd; x90; xa2; x8a; x45] |}.

Definition rt_euc_kr : sample :=
  {| text :=
       [0xC548; 0xB155; 0xD558; 0xC138; 0xC694]%N;
     encoding := "euc-kr";
     encoded :=
       [xbe; xc8; xb3; xe7; xc7; xcf; xbc; xbc; xbf; xe4] |}.

Definition rt_big5 : sample :=
  {| text :=
       [0x7E41; 0x9AD4; 0x4E2D; 0x6587]%N;
     encoding := "big5";
     encoded :=
       [xc1; x63; xc5; xe9; xa4; xa4; xa4; xe5] |}.

Definition rt_cp1251 : sample :=
  {| text :=
       [0x041F; 0x0440; 0x0438; 0x0432; 0x0435; 0x0442; 0x0020; 0x043C;
        0x0438; 0x0440]%N;
     encoding := "cp1251";
     encoded :=
       [xcf; xf0; xe8; xe2; xe5; xf2; x20; xec; xe8; xf0] |}.

Definition md_gbk : sample :=
  {| text :=
       [0x4F60; 0x597D; 0x4E16; 0x754C]%N;
     encoding := "gbk";
     encoded :=
       [xc4; xe3; xba; xc3; xca; xc0; xbd; xe7] |}.

Definition md_gb2312 : sample :=
  {| text :=
       [0x4E2D; 0x6587; 0x6D4B; 0x8BD5]%N;
     encoding := "gb2312";
     encoded :=
       [xd6; xd0; xce; xc4; xb2; xe2; xca; xd4] |}.

Definition md_latin1 : sample :=
  {| text :=
       [0x0048; 0x00E9; 0x006C; 0x006C; 0x006F; 0x0020; 0x0057; 0x00F6;
        0x0072; 0x006C; 0x0064]%N;
     encoding := "iso-8859-1";
     encoded :=
       [x48; xe9; x6c; x6c; x6f; x20; x57; xf6; x72; x6c; x64] |}.

Definition md_latin2 : sample :=
  {| text :=
       [0x0043; 0x007A; 0x0065; 0x015B; 0x0107; 0x0020; 0x015B; 0x0077;
        0x0069; 0x0061; 0x0074]%N;
     encoding := "iso-8859-2";
     encoded :=
       [x43; x7a; x65; xb6; xe6; x20; xb6; x77; x69; x61; x74] |}.

Definition cx_cp1251 : sample :=
  {| text :=
       [0x041F; 0x0440; 0x0438; 0x0432; 0x0435; 0x0442]%N;
     encoding := "cp1251";
     encoded :=
       [xcf; xf0; xe8; xe2; xe5; xf2] |}.

Definition bin_bom_nulls : bytes :=
  [xff; xfe; x00; x00; x01; x02; x03].

Definition bin_nulls : bytes :=
  [x00; x00; x00; x00; x00; x00; x00; x00; x00; x00].

Definition bin_low_controls : bytes :=
  [x01; x02; x03; x04; x05].

Definition bin_jpeg : bytes :=
  [xff; xd8; xff; xe0; x00; x10].

Definition bin_nul : bytes :=
  [x00].

Definition bytes_eqb (a b : bytes) : bool :=
  if list_eq_dec Byte.byte_eq_dec a b then true else false.

(** A codec function agrees with a list of observations. *)
Definition agrees (cjk : string -> bytes -> decode_outcome)
    (observations : list (string * bytes * decode_outcome)) : Prop :=
  Forall (fun o => cjk (fst (fst o)) (snd (fst o)) = snd o) observations.

(** The codec function that knows the observations and nothing else. *)
Fixpoint recorded (observations : list (string * bytes * decode_outcome))
    (encoding : string) (content : bytes) : decode_outcome :=
  match observations with
  | [] => UnknownEncoding
  | (e, b, o) :: rest =>
      if String.eqb encoding e && bytes_eqb content b then o
      else recorded rest encoding content
  end.

(** What CPython 3.11 answers when the five East Asian codecs decode the
    documented inputs. *)
Definition cjk_observations : list (string * bytes * decode_outcome) :=
  [
    ("shift_jis", encoded rt_utf8, Decoded [0x0048; 0x0065; 0x006C; 0x006C;
     0x006F; 0x002C; 0x0020; 0x0057; 0x006F; 0x0072; 0x006C; 0x0064;
     0x0021]%N);
    ("euc-kr", encoded rt_utf8, Decoded [0x0048; 0x0065; 0x006C; 0x006C;
     0x006F; 0x002C; 0x0020; 0x0057; 0x006F; 0x0072; 0x006C; 0x0064;
     0x0021]%N);
    ("big5", encoded rt_utf8, Decoded [0x0048; 0x0065; 0x006C; 0x006C; 0x006F;
     0x002C; 0x0020; 0x0057; 0x006F; 0x0072; 0x006C; 0x0064; 0x0021]%N);
    ("gbk", encoded rt_utf8, Decoded [0x0048; 0x0065; 0x006C; 0x006C; 0x006F;
     0x002C; 0x0020; 0x0057; 0x006F; 0x0072; 0x006C; 0x0064; 0x0021]%N);
    ("gb2312", encoded rt_utf8, Decoded [0x0048; 0x0065; 0x006C; 0x006C;
     0x006F; 0x002C; 0x0020; 0x0057; 0x006F; 0x0072; 0x006C; 0x0064;
     0x0021]%N);
    ("shift_jis", encoded rt_cp1252, InvalidBytes);
    ("euc-kr", encoded rt_cp1252, InvalidBytes);
    ("big5", encoded rt_cp1252, InvalidBytes);
    ("gbk", encoded rt_cp1252, InvalidBytes);
    ("gb2312", encoded rt_cp1252, InvalidBytes);
    ("shift_jis", encoded rt_shift_jis, Decoded [0x3053; 0x3093; 0x306B;
     0x3061; 0x306F; 0x4E16; 0x754C]%N);
    ("euc-kr", encoded rt_shift_jis, InvalidBytes);
    ("big5", encoded rt_shift_jis, InvalidBytes);
    ("gbk", encoded rt_shift_jis, Decoded [0x5059; 0x50AB; 0x5075; 0x506A;
     0x507C; 0x60BD; 0x5945]%N);
    ("gb2312", encoded rt_shift_jis, InvalidBytes);
    ("shift_jis", encoded rt_euc_kr, InvalidBytes);
    ("euc-kr", encoded rt_euc_kr, Decoded [0xC548; 0xB155; 0xD558; 0xC138;
     0xC694]%N);
    ("big5", encoded rt_euc_kr, Decoded [0x5BF0; 0x559F; 0x0436; 0x64AE;
     0x8E42]%N);
    ("gbk", encoded rt_euc_kr, Decoded [0x6551; 0x5D07; 0x7A8D; 0x6280;
     0x5938]%N);
    ("gb2312", encoded rt_euc_kr, Decoded [0x6551; 0x5D07; 0x7A8D; 0x6280;
     0x5938]%N);
    ("shift_jis", encoded rt_big5, InvalidBytes);
    ("euc-kr", encoded rt_big5, InvalidBytes);
    ("big5", encoded rt_big5, Decoded [0x7E41; 0x9AD4; 0x4E2D; 0x6587]%N);
    ("gbk", encoded rt_big5, Decoded [0x7F89; 0x7830; 0x3044; 0x3085]%N);
    ("gb2312", encoded rt_big5, InvalidBytes);
    ("shift_jis", encoded rt_cp1251, InvalidBytes);
    ("euc-kr", encoded rt_cp1251, InvalidBytes);
    ("big5", encoded rt_cp1251, InvalidBytes);
    ("gbk", encoded rt_cp1251, InvalidBytes);
    ("gb2312", encoded rt_cp1251, InvalidBytes);
    ("shift_jis", encoded md_gbk, InvalidBytes);
    ("euc-kr", encoded md_gbk, Decoded [0xCF71; 0xBD24; 0x5404; 0xC379]%N);
    ("big5", encoded md_gbk, Decoded [0x6595; 0x7591; 0x5C8D; 0x8CDC]%N);
    ("gbk", encoded md_gbk, Decoded [0x4F60; 0x597D; 0x4E16; 0x754C]%N);
    ("gb2312", encoded md_gbk, Decoded [0x4F60; 0x597D; 0x4E16; 0x754C]%N);
    ("shift_jis", encoded md_gb2312, Decoded [0xFF96; 0xFF90; 0xFF8E; 0xFF84;
     0xFF72; 0x7C17; 0xFF94]%N);
    ("euc-kr", encoded md_gb2312, Decoded [0x6AD3; 0x5321; 0xAFCE; 0x687F]%N);
    ("big5", encoded md_gb2312, Decoded [0x7B22; 0x6045; 0x8046; 0x5F78]%N);
    ("gbk", encoded md_gb2312, Decoded [0x4E2D; 0x6587; 0x6D4B; 0x8BD5]%N);
    ("gb2312", encoded md_gb2312, Decoded [0x4E2D; 0x6587; 0x6D4B; 0x8BD5]%N);
    ("shift_jis", encoded md_latin1, InvalidBytes);
    ("euc-kr", encoded md_latin1, InvalidBytes);
    ("big5", encoded md_latin1, Decoded [0x0048; 0x5E68; 0x006C; 0x006F;
     0x0020; 0x0057; 0x9864; 0x006C; 0x0064]%N);
    ("gbk", encoded md_latin1, Decoded [0x0048; 0x9598; 0x006C; 0x006F;
     0x0020; 0x0057; 0x9C0E; 0x006C; 0x0064]%N);
    ("gb2312", encoded md_latin1, InvalidBytes);
    ("shift_jis", encoded md_latin2, InvalidBytes);
    ("euc-kr", encoded md_latin2, InvalidBytes);
    ("big5", encoded md_latin2, Decoded [0x0043; 0x007A; 0x0065; 0x55C6;
     0x0020; 0x920D; 0x0069; 0x0061; 0x0074]%N);
    ("gbk", encoded md_latin2, Decoded [0x0043; 0x007A; 0x0065; 0x8235;
     0x0020; 0x79DD; 0x0069; 0x0061; 0x0074]%N);
    ("gb2312", encoded md_latin2, InvalidBytes);
    ("shift_jis", encoded cx_cp1251, InvalidBytes);
    ("euc-kr", encoded cx_cp1251, Decoded [0x53A5; 0x5916; 0x5944]%N);
    ("big5", encoded cx_cp1251, Decoded [0x780E; 0x9B64; 0x6BA3]%N);
    ("gbk", encoded cx_cp1251, Decoded [0x6A61; 0x6860; 0x5F2A]%N);
    ("gb2312", encoded cx_cp1251, Decoded [0x6A61; 0x6860; 0x5F2A]%N);
    ("shift_jis", bin_bom_nulls, InvalidBytes);
    ("euc-kr", bin_bom_nulls, InvalidBytes);
    ("big5", bin_bom_nulls, InvalidBytes);
    ("gbk", bin_bom_nulls, InvalidBytes);
    ("gb2312", bin_bom_nulls, InvalidBytes);
    ("shift_jis", bin_nulls, Decoded [0x0000; 0x0000; 0x0000; 0x0000; 0x0000;
     0x0000; 0x0000; 0x0000; 0x0000; 0x0000]%N);
    ("euc-kr", bin_nulls, Decoded [0x0000; 0x0000; 0x0000; 0x0000; 0x0000;
     0x0000; 0x0000; 0x0000; 0x0000; 0x0000]%N);
    ("big5", bin_nulls, Decoded [0x0000; 0x0000; 0x0000; 0x0000; 0x0000;
     0x0000; 0x0000; 0x0000; 0x0000; 0x0000]%N);
    ("gbk", bin_nulls, Decoded [0x0000; 0x0000; 0x0000; 0x0000; 0x0000;
     0x0000; 0x0000; 0x0000; 0x0000; 0x0000]%N);
    ("gb2312", bin_nulls, Decoded [0x0000; 0x0000; 0x0000; 0x0000; 0x0000;
     0x0000; 0x0000; 0x0000; 0x0000; 0x0000]%N);
    ("shift_jis", bin_low_controls, Decoded [0x0001; 0x0002; 0x0003; 0x0004;
     0x0005]%N);
    ("euc-kr", bin_low_controls, Decoded [0x0001; 0x0002; 0x0003; 0x0004;
     0x0005]%N);
    ("big5", bin_low_controls, Decoded [0x0001; 0x0002; 0x0003; 0x0004;
     0x0005]%N);
    ("gbk", bin_low_controls, Decoded [0x0001; 0x0002; 0x0003; 0x0004;
     0x0005]%N);
    ("gb2312", bin_low_controls, Decoded [0x0001; 0x0002; 0x0003; 0x0004;
     0x0005]%N);
    ("shift_jis", bin_jpeg, InvalidBytes);
    ("euc-kr", bin_jpeg, InvalidBytes);
    ("big5", bin_jpeg, InvalidBytes);
    ("gbk", bin_jpeg, InvalidBytes);
    ("gb2312", bin_jpeg, InvalidBytes);
    ("shift_jis", bin_nul, Decoded [0x0000]%N);
    ("euc-kr", bin_nul, Decoded [0x0000]%N);
    ("big5", bin_nul, Decoded [0x0000]%N);
    ("gbk", bin_nul, Decoded [0x0000]%N);
    ("gb2312", bin_nul, Decoded [0x0000]%N)
  ].

(** ** Vocabulary of the specification

    Section 4.4 of the specification speaks of candidates tried in order and
    of a candidate being accepted; these definitions follow its words. *)

(** UTF-8 first, then the ordered registry. *)
Definition candidates : list string := "utf-8" :: common_encodings.

(** A candidate is accepted with text [s]: the buffer decodes to [s] under
    it, [s] passes the plausibility filter and, unless the candidate is the
    UTF-8 fast path, neither mismatch heuristic flags it. *)
Definition accepted (decode : string -> bytes -> decode_outcome)
    (encoding : string) (content : bytes) (s : str) : Prop :=
  decode encoding content = Decoded s /\
  _is_likely_text s = Ok true /\
  (encoding <> "utf-8" ->
   _is_likely_misencoded_asian_text s encoding = Ok false /\
   _is_likely_misencoded_cross_asian s encoding = Ok false).

(** The runtime always knows its UTF-8 codec. *)
Definition utf8_known (decode : string -> bytes -> decode_outcome) : Prop :=
  forall content, decode "utf-8" content <> UnknownEncoding.

(** The three checks of the loop body all let [s] through. *)
Definition passes (decode : string -> bytes -> decode_outcome)
    (encoding : string) (content : bytes) (s : str) : Prop :=
  decode encoding content = Decoded s /\
  _is_likely_text s = Ok true /\
  _is_likely_misencoded_asian_text s encoding = Ok false /\
  _is_likely_misencoded_cross_asian s encoding = Ok false.

(** The observations say what [encoding] does on [content]. *)
Definition key_in (observations : list (string * bytes * decode_outcome))
    (encoding : string) (content : bytes) : bool :=
  existsb (fun o => String.eqb encoding (fst (fst o))
                    && bytes_eqb content (snd (fst o))) observations.

(** The names [py_decode] answers by itself. *)
Definition is_modelled (encoding : string) : bool :=
  String.eqb encoding "utf-8"
  || name_in encoding ["latin-1"; "iso-8859-1"]
  || String.eqb encoding "cp1251"
  || String.eqb encoding "iso-8859-2"
  || String.eqb encoding "cp1252".

(** Every candidate's answer on [content] is modelled or observed. *)
Definition covered (observations : list (string * bytes * decode_outcome))
    (content : bytes) : bool :=
  forallb (fun e => is_modelled e || key_in observations e content) candidates.

(** ** Vocabulary of the further results *)

(** The control bytes of a buffer: below 32, tab, newline and carriage
    return apart. *)
Definition control_bytes (content : bytes) : Z :=
  count_if is_control (latin1_decode content).

Definition east_asian : list string :=
  ["shift_jis"; "euc-kr"; "big5"; "gbk"; "gb2312"].

(** What the East Asian codecs do to control bytes: a control byte is
    always a character of its own, and no decoding is longer than the
    buffer (bytes below 0x40 occur in no multi-byte sequence). *)
Definition keeps_controls (cjk : string -> bytes -> decode_outcome) : Prop :=
  forall e content s,
    In e east_asian -> cjk e content = Decoded s ->
    count_if is_control s = control_bytes content /\ len s <= len content.

Definition is_ascii_byte (b : Byte.byte) : bool := (Byte.to_N b <? 128)%N.

(** ** The rest of [main.py]: the values the views handle

    [traces_sampler] and the views of lines 145-389 work on dynamically
    typed values: a dict is an association list in insertion order, whose
    keys are distinct. *)

#[warnings="-register-all"]
Inductive pyval : Type :=
| PyNone
| PyBool (b : bool)
| PyInt (z : Z)
| PyStr (s : str)
| PyBytes (b : bytes)
| PyList (l : list pyval)
| PyDict (d : list (str * pyval)).

(** A string literal of the source, all of whose characters are ASCII. *)
Definition str_of (s : string) : str :=
  map N_of_ascii (list_ascii_of_string s).

(** [a == b] on strings. *)
Fixpoint str_eqb (a b : str) : bool :=
  match a, b with
  | [], [] => true
  | c :: a', d :: b' => (c =? d)%N && str_eqb a' b'
  | _, _ => false
  end.

(** [s in names] for a list of strings. *)
Fixpoint str_in (s : str) (names : list str) : bool :=
  match names with
  | [] => false
  | n :: names' => str_eqb s n || str_in s names'
  end.

(** [d[key]], when the key is there. *)
Fixpoint dict_get {V : Type} (d : list (str * V)) (key : str) : option V :=
  match d with
  | [] => None
  | (k, v) :: d' => if str_eqb k key then Some v else dict_get d' key
  end.

(** [obj.get(key, default)]: only a dict has the method. *)
Definition get (obj : pyval) (key : str) (default : pyval) : result pyval :=
  match obj with
  | PyDict d =>
      match dict_get d key with
      | Some v => Ok v
      | None => Ok default
      end
  | _ => Raise AttributeError
  end.

(** The truth value of an object. *)
Definition truthy (v : pyval) : bool :=
  match v with
  | PyNone => false
  | PyBool b => b
  | PyInt z => negb (z =? 0)
  | PyStr s => negb (len s =? 0)
  | PyBytes b => negb (len b =? 0)
  | PyList l => negb (len l =? 0)
  | PyDict d => negb (len d =? 0)
  end.

(** [v == s] for a string [s]: an object of another type is not equal to
    it. *)
Definition eq_str (v : pyval) (s : str) : bool :=
  match v with
  | PyStr t => str_eqb t s
  | _ => false
  end.

(** ** The sampler of traces (lines 145-153) *)

Definition traces_sampler (sampling_context : pyval) : result Z :=
  wsgi_environ <- get sampling_context (str_of "wsgi_environ") (PyDict []) ;;
  path <- get wsgi_environ (str_of "PATH_INFO") PyNone ;;
  if truthy path && eq_str path (str_of "/_health/") then Ok 0 else Ok 1.

(** ** What a view answers *)

Inductive response : Type :=
| redirect (location : str) (code : Z)
| abort (code : Z)
| render_template (template_name : string) (context : list (string * pyval))
| body (text : str).

(** A keyword argument of [render_template]. *)
Fixpoint param (context : list (string * pyval)) (name : string)
    : option pyval :=
  match context with
  | [] => None
  | (k, v) :: context' =>
      if String.eqb k name then Some v else param context' name
  end.

(** ** The front page (lines 176-181) *)







(** ** The collaborators of the views

    The views call code that is not in [main.py]: the [packaging] library,
    Flask's [url_for], the PyPI JSON API behind [requests_session], and the
    modules [distribution], [legacy], [utilities], [deob] and
    [analysis.checks] of the repository.  A view takes them as a record.
    The two calls the views guard with [try] may raise; the others are
    taken to return. *)

Inductive raised : Type :=
| InspectorError
| FileNotFoundError
| Builtin (e : exn).

Inductive outcome (A : Type) : Type :=
| Returns (a : A)
| Raises (r : raised).

Arguments Returns {A} a.
Arguments Raises {A} r.

Record collaborators : Type := {
  Version : Type;
  Dist : Type;
  Detail : Type;
  canonicalize_name : str -> str;
  url_for : string -> list (string * str) -> str;
  (** [requests_session().get(url).status_code] *)
  status_code : str -> Z;
  (** [requests_session().get(url).json()["releases"]] *)
  releases_of : str -> list (str * pyval);
  parse : str -> Version;
  (** [a < b] on parsed versions *)
  version_lt : Version -> Version -> bool;
  (** [None] stands for a distribution that is not truthy *)
  _get_dist : str -> str -> str -> str -> outcome (option Dist);
  (** [dist.contents(filepath)] *)
  contents_of : Dist -> str -> outcome pyval;
  (** [dist.namelist()] *)
  namelist : Dist -> list str;
  (** [urllib.parse.quote] *)
  quote : str -> str;
  pypi_report_form : str -> str -> str -> str -> pyval;
  basic_details : Dist -> str -> list Detail;
  html : Detail -> pyval;
  disassemble : pyval -> pyval;
  decompile : pyval -> pyval;
  (** [bytes.decode] *)
  decode : string -> bytes -> decode_outcome
}.

(** ** The releases of a project (lines 184-213) *)

(** [sorted(keys, key=parse, reverse=True)]: the sort is stable, so that of
    two versions neither of which is below the other the one that came
    first stays first. *)
Fixpoint insert_reverse {K : Type} (lt : K -> K -> bool) (key : str -> K)
    (v : str) (l : list str) : list str :=
  match l with
  | [] => [v]
  | u :: l' =>
      if lt (key v) (key u) then u :: insert_reverse lt key v l'
      else v :: l
  end.

Definition sorted_reverse {K : Type} (lt : K -> K -> bool) (key : str -> K)
    (keys : list str) : list str :=
  fold_right (insert_reverse lt key) [] keys.

(** [releases[version]] for a key of [releases]. *)
Definition item (releases : list (str * pyval)) (version : str) : pyval :=
  match dict_get releases version with
  | Some v => v
  | None => PyNone
  end.

Definition versions (w : collaborators) (project_name : str) : response :=
  if negb (str_eqb project_name (canonicalize_name w project_name)) then
    redirect
      (url_for w "versions"
         [("project_name", canonicalize_name w project_name)]) 301
  else
    let url :=
      (str_of "https://pypi.org/pypi/" ++ project_name ++ str_of "/json")%list
    in
    let pypi_project_url :=
      (str_of "https://pypi.org/project/" ++ project_name)%list in
    if status_code w url =? 404 then render_template "404.html" []
    else if negb (status_code w url =? 200) then
      redirect pypi_project_url 307
    else
      let releases := releases_of w url in
      let sorted_releases :=
        map (fun version => (version, item releases version))
          (sorted_reverse (version_lt w) (parse w) (map fst releases)) in
      render_template "releases.html"
        [("releases", PyDict sorted_releases);
         ("h2", PyStr project_name);
         ("h2_link", PyStr (str_of "/project/" ++ project_name)%list);
         ("h2_paren", PyStr (str_of "View this project on PyPI"));
         ("h2_paren_link", PyStr pypi_project_url)].

(** ** The files of a distribution (lines 252-306) *)

(** The cross mark of the two notices is U+274C. *)
Definition project_gone : str :=
  (10060%N :: str_of " Project no longer on PyPI").

Definition release_gone : str :=
  (10060%N :: str_of " Release no longer on PyPI").

Definition not_supported : str := str_of "Distribution type not supported".


(** ** A file of a distribution (lines 309-389) *)

(** [s.split(sep)] for a separator of one character: never empty. *)
Fixpoint split (sep : codepoint) (s : str) : list str :=
  match s with
  | [] => [[]]
  | c :: s' =>
      if (c =? sep)%N then [] :: split sep s'
      else
        match split sep s' with
        | piece :: pieces => (c :: piece) :: pieces
        | [] => [[c]]
        end
  end.

(** [filepath.split(".")[-1]] *)
Definition file_extension (filepath : str) : str :=
  last (split 46%N filepath) [].

(** [file_extension in ["pyc", "pyo"]] *)
Definition is_bytecode (filepath : str) : bool :=
  str_in (file_extension filepath) [str_of "pyc"; str_of "pyo"].

Definition binary_notice : str := str_of "Binary files are not supported.".

Definition file (w : collaborators) (request_url : str)
    (project_name version first second rest distname filepath : str)
    : outcome response :=
  if negb (str_eqb project_name (canonicalize_name w project_name)) then
    Returns
      (redirect
         (url_for w "file"
            [("project_name", canonicalize_name w project_name);
             ("version", version); ("first", first); ("second", second);
             ("rest", rest); ("distname", distname);
             ("filepath", filepath)]) 301)
  else
    let h2_paren :=
      if status_code w
           (str_of "https://pypi.org/pypi/" ++ project_name
              ++ str_of "/json")%list =? 404
      then project_gone else str_of "View this project on PyPI" in
    let h3_paren :=
      if status_code w
           (str_of "https://pypi.org/pypi/" ++ project_name ++ str_of "/"
              ++ version ++ str_of "/json")%list =? 404
      then release_gone else str_of "View this release on PyPI" in
    match _get_dist w first second rest distname with
    | Raises r => Raises r
    | Returns None => Returns (body not_supported)
    | Returns (Some dist) =>
        match contents_of w dist filepath with
        | Raises FileNotFoundError => Returns (abort 404)
        | Raises InspectorError => Returns (abort 400)
        | Raises r => Raises r
        | Returns contents =>
            let file_extension := file_extension filepath in
            let report_link :=
              pypi_report_form w project_name version filepath request_url in
            let details := map (html w) (basic_details w dist filepath) in
            let h2_link := (str_of "/project/" ++ project_name)%list in
            let h3_link := (h2_link ++ str_of "/" ++ version)%list in
            let h4_link :=
              (h3_link ++ str_of "/packages/" ++ first ++ str_of "/"
                 ++ second ++ str_of "/" ++ rest ++ str_of "/" ++ distname
                 ++ str_of "/")%list in
            let common_params :=
              [("file_details", PyList details);
               ("mailto_report_link", report_link);
               ("h2", PyStr project_name);
               ("h2_link", PyStr h2_link);
               ("h2_paren", PyStr h2_paren);
               ("h2_paren_link",
                PyStr (str_of "https://pypi.org/project/"
                         ++ project_name)%list);
               ("h3", PyStr (project_name ++ str_of "==" ++ version)%list);
               ("h3_link", PyStr h3_link);
               ("h3_paren", PyStr h3_paren);
               ("h3_paren_link",
                PyStr (str_of "https://pypi.org/project/" ++ project_name
                         ++ str_of "/" ++ version)%list);
               ("h4", PyStr distname);
               ("h4_link", PyStr h4_link);
               ("h5", PyStr filepath);
               ("h5_link", PyStr (h4_link ++ filepath)%list)] in
            if is_bytecode filepath then
              Returns
                (render_template "disasm.html"
                   (("disassembly", disassemble w contents)
                    :: ("decompilation", decompile w contents)
                    :: common_params))
            else
              match contents with
              | PyBytes content_bytes =>
                  match decode_with_fallback (decode w) content_bytes with
                  | Raise e => Raises (Builtin e)
                  | Ok None => Returns (body binary_notice)
                  | Ok (Some decoded_contents) =>
                      Returns
                        (render_template "code.html"
                           (("code", PyStr decoded_contents)
                            :: ("name", PyStr file_extension)
                            :: common_params))
                  end
              | _ =>
                  Returns
                    (render_template "code.html"
                       (("code", contents)
                        :: ("name", PyStr file_extension)
                        :: common_params))
              end
        end
    end.

(** ** A world to run the views in

    Stubs in the manner of [test_versions]: PyPI answers 200 to every
    request and knows two releases, a version is as great as it is long,
    every distribution is found and every file of it has the same
    contents. *)

Definition example_world (contents : pyval) : collaborators := {|
  Version := Z;
  Dist := unit;
  Detail := unit;
  canonicalize_name := fun name => name;
  url_for := fun _ _ => [];
  status_code := fun _ => 200;
  releases_of := fun _ => [(str_of "0.5", PyNone); (str_of "0.5.1e", PyNone)];
  parse := fun version => len version;
  version_lt := Z.ltb;
  _get_dist := fun _ _ _ _ => Returns (Some tt);
  contents_of := fun _ _ => Returns contents;
  namelist := fun _ => [];
  quote := fun filename => filename;
  pypi_report_form := fun _ _ _ _ => PyNone;
  basic_details := fun _ _ => [];
  html := fun _ => PyNone;
  disassemble := fun contents => contents;
  decompile := fun contents => contents;
  decode := py_decode (recorded cjk_observations)
|}.

(** * Facts

    ** Binary64 rounding

    [SpecFloat] gives the operations but no lemmas.  What follows shows that
    [PyFloat.div] and [PyFloat.mul] round to within half a unit in the last
    place, and derives the integer meaning of the comparisons the engine
    makes. *)

Module FloatFacts.

Import PyFloat.

Lemma digits2_pos_size p : digits2_pos p = Pos.size p.
Proof. induction p; simpl; congruence. Qed.

Lemma Zdigits2_log2 p : Zpos (digits2_pos p) = Z.log2 (Zpos p) + 1.
Proof.
  rewrite digits2_pos_size.
  destruct p; simpl; rewrite ?Pos2Z.inj_succ; lia.
Qed.

Lemma digits2_unique p d :
  0 < d -> 2 ^ (d - 1) <= Zpos p < 2 ^ d -> Zpos (digits2_pos p) = d.
Proof.
  intros Hd H. rewrite Zdigits2_log2.
  rewrite (Z.log2_unique (Zpos p) (d - 1)); try lia.
  replace (Z.succ (d - 1)) with d by lia. exact H.
Qed.

Lemma digits2_bounds p :
  2 ^ (Zpos (digits2_pos p) - 1) <= Zpos p < 2 ^ Zpos (digits2_pos p).
Proof.
  rewrite Zdigits2_log2.
  pose proof (Z.log2_spec (Zpos p) ltac:(lia)) as H.
  replace (Z.log2 (Z.pos p) + 1 - 1) with (Z.log2 (Zpos p)) by lia.
  replace (Z.log2 (Z.pos p) + 1) with (Z.succ (Z.log2 (Zpos p))) by lia.
  exact H.
Qed.

Lemma shr_1_represents N D mrs :
  represents N D mrs -> represents N (2 * D) (shr_1 mrs).
Proof.
  intros (HD & HN & Hm & Hr & Hs).
  destruct mrs as [m r s]; cbn [shr_m shr_r shr_s] in *.
  assert (Hq : N / (2 * D) = m / 2).
  { rewrite Hm. rewrite (Z.mul_comm 2 D). rewrite Z.div_div; lia. }
  assert (Hrem : N mod (2 * D) = N mod D + (m mod 2) * D).
  { pose proof (Z.div_mod N D ltac:(lia)).
    pose proof (Z.div_mod N (2 * D) ltac:(lia)).
    pose proof (Z.div_mod m 2 ltac:(lia)).
    rewrite Hq in *. rewrite <- Hm in *. nia. }
  pose proof (Z.mod_pos_bound N D HD) as Hb.
  pose proof (Z.mod_pos_bound m 2 ltac:(lia)) as Hb2.
  assert (Hm0 : 0 <= m) by (rewrite Hm; apply Z.div_pos; lia).
  assert (Hshape :
    shr_1 {| shr_m := m; shr_r := r; shr_s := s |} =
    {| shr_m := m / 2; shr_r := (m mod 2 =? 1); shr_s := r || s |}).
  { destruct m as [|p|p]; [reflexivity| |lia].
    destruct p as [p|p|]; cbn [shr_1]; f_equal; try reflexivity.
    - rewrite Pos2Z.inj_xI. apply (Z.div_unique _ _ _ 1); lia.
    - rewrite Pos2Z.inj_xI. symmetry. apply Z.eqb_eq. symmetry.
      apply (Z.mod_unique _ _ (Zpos p)); lia.
    - rewrite Pos2Z.inj_xO. apply (Z.div_unique _ _ _ 0); lia.
    - rewrite Pos2Z.inj_xO. symmetry. apply Z.eqb_neq.
      rewrite Z.mul_comm, Z.mod_mul; lia. }
  rewrite Hshape. unfold represents; cbn [shr_m shr_r shr_s].
  split; [lia|]. split; [lia|]. split; [lia|]. split.
  - rewrite Hrem.
    destruct (Z.eqb_spec (m mod 2) 1) as [E|E].
    + symmetry. apply Z.leb_le. rewrite E. lia.
    + symmetry. apply Z.leb_gt. assert (m mod 2 = 0) by lia. lia.
  - rewrite Hr, Hs, Hrem.
    assert (Hc : m mod 2 = 0 \/ m mod 2 = 1) by lia.
    destruct Hc as [E|E]; rewrite E;
    destruct (Z.leb_spec D (2 * (N mod D))); destruct (Z.eqb_spec (N mod D) 0);
    destruct (Z.eqb_spec (2 * (N mod D)) D); cbn [negb orb];
    destruct (Z.eqb_spec (N mod D + 0 * D) 0);
    destruct (Z.eqb_spec (2 * (N mod D + 0 * D)) (2 * D));
    destruct (Z.eqb_spec (N mod D + 1 * D) 0);
    destruct (Z.eqb_spec (2 * (N mod D + 1 * D)) (2 * D));
    cbn [negb orb]; try reflexivity; lia.
Qed.

Lemma pow2_xO p : 2 ^ Zpos p~0 = 2 ^ Zpos p * 2 ^ Zpos p.
Proof.
  replace (Zpos p~0) with (Zpos p + Zpos p) by lia.
  apply Z.pow_add_r; lia.
Qed.

Lemma pow2_xI p : 2 ^ Zpos p~1 = 2 ^ Zpos p * 2 ^ Zpos p * 2.
Proof.
  replace (Zpos p~1) with (Zpos p + Zpos p + 1) by lia.
  rewrite !Z.pow_add_r by lia. reflexivity.
Qed.

Lemma iter_represents p : forall N D mrs,
  represents N D mrs -> represents N (2 ^ Zpos p * D) (iter_pos shr_1 p mrs).
Proof.
  induction p as [p IH|p IH|]; intros N D mrs H; cbn [iter_pos].
  - apply shr_1_represents in H. apply IH in H. apply IH in H.
    rewrite pow2_xI.
    replace (2 ^ Zpos p * 2 ^ Zpos p * 2 * D)
      with (2 ^ Zpos p * (2 ^ Zpos p * (2 * D))) by ring.
    exact H.
  - apply IH in H. apply IH in H.
    rewrite pow2_xO.
    replace (2 ^ Zpos p * 2 ^ Zpos p * D)
      with (2 ^ Zpos p * (2 ^ Zpos p * D)) by ring.
    exact H.
  - apply shr_1_represents in H. exact H.
Qed.

Lemma represents_div_mod N D q r :
  0 < D -> 0 <= q -> 0 <= r < D -> N = q * D + r -> N / D = q /\ N mod D = r.
Proof.
  intros HD Hq Hr ->. split.
  - symmetry. apply (Z.div_unique _ _ _ r); lia.
  - symmetry. apply (Z.mod_unique _ _ q); lia.
Qed.

Lemma new_location_represents q r D :
  0 <= q -> 0 <= r < D ->
  represents (q * D + r) D (shr_record_of_loc q (new_location D r)).
Proof.
  intros Hq Hr.
  destruct (@represents_div_mod (q * D + r) D q r) as [Hdiv Hmod]; try lia.
  unfold represents. rewrite Hdiv, Hmod.
  split; [lia|]. split; [nia|].
  unfold new_location, new_location_even, new_location_odd.
  assert (Hodd : Z.even D = false -> 2 * r <> D).
  { intros Ev <-. rewrite Z.even_mul in Ev. discriminate. }
  destruct (Z.even D) eqn:Ev.
  - destruct (Z.eqb_spec r 0) as [E|E]; [|destruct (Z.compare_spec (2 * r) D)];
      cbn [shr_record_of_loc shr_m shr_r shr_s];
      destruct (Z.leb_spec D (2 * r)); destruct (Z.eqb_spec (2 * r) D);
      cbn [negb orb]; repeat split; try reflexivity; lia.
  - specialize (Hodd eq_refl).
    destruct (Z.eqb_spec r 0) as [E|E]; [|destruct (Z.compare_spec (2 * r + 1) D)];
      cbn [shr_record_of_loc shr_m shr_r shr_s];
      destruct (Z.leb_spec D (2 * r)); destruct (Z.eqb_spec (2 * r) D);
      cbn [negb orb]; repeat split; try reflexivity; lia.
Qed.

Lemma exact_represents m : 0 <= m -> represents m 1 (shr_record_of_loc m loc_Exact).
Proof.
  intros Hm. unfold represents. cbn [shr_record_of_loc shr_m shr_r shr_s].
  rewrite Z.div_1_r, Z.mod_1_r. repeat split; try lia.
Qed.

Lemma rne_represents N D mrs :
  represents N D mrs ->
  let m' := round_nearest_even (shr_m mrs) (loc_of_shr_record mrs) in
  N / D <= m' <= N / D + 1 /\ 2 * Z.abs (N - m' * D) <= D /\
  (N mod D = 0 -> m' = N / D).
Proof.
  intros (HD & HN & Hm & Hr & Hs).
  pose proof (Z.div_mod N D ltac:(lia)) as Hdm.
  pose proof (Z.mod_pos_bound N D HD) as Hb.
  destruct mrs as [m r s]; cbn [shr_m shr_r shr_s] in *.
  subst m.
  destruct (Z.leb_spec D (2 * (N mod D))); subst r;
  destruct (Z.eqb_spec (N mod D) 0); destruct (Z.eqb_spec (2 * (N mod D)) D);
  cbn [negb orb] in Hs; subst s; cbn [loc_of_shr_record round_nearest_even];
  try (destruct (Z.even (N / D))); cbv zeta; repeat split; try lia; try nia.
Qed.

Lemma shr_fexp_eq mx ex lx :
  0 < mx -> 53 <= Zdigits2 mx -> -1074 <= ex + Zdigits2 mx - 53 ->
  shr_fexp 53 1024 mx ex lx =
  (match Zdigits2 mx - 53 with
   | Zpos p => iter_pos shr_1 p (shr_record_of_loc mx lx)
   | _ => shr_record_of_loc mx lx
   end, ex + (Zdigits2 mx - 53)).
Proof.
  intros Hmx Hd He. unfold shr_fexp, fexp, emin.
  replace (Z.max (Zdigits2 mx + ex - 53) (3 - 1024 - 53) - ex)
    with (Zdigits2 mx - 53) by lia.
  unfold shr. destruct (Zdigits2 mx - 53) eqn:E; try reflexivity; try lia.
  - f_equal. lia.
Qed.

Lemma Zdigits2_unique m d :
  0 < d -> 2 ^ (d - 1) <= m < 2 ^ d -> Zdigits2 m = d.
Proof.
  intros Hd H.
  assert (0 < 2 ^ (d - 1)) by (apply Z.pow_pos_nonneg; lia).
  destruct m as [|p|p]; try lia.
  apply digits2_unique; assumption.
Qed.

Lemma Zdigits2_bounds m :
  0 < m -> 2 ^ (Zdigits2 m - 1) <= m < 2 ^ Zdigits2 m.
Proof.
  intros H. destruct m as [|p|p]; try lia. apply digits2_bounds.
Qed.

Lemma shr_m_of_loc m l : shr_m (shr_record_of_loc m l) = m.
Proof. destruct l as [|[]]; reflexivity. Qed.

Lemma bra_spec mx ex lx N D :
  0 < mx -> 53 <= Zdigits2 mx ->
  -1074 <= ex + Zdigits2 mx - 53 -> ex + Zdigits2 mx - 53 + 1 <= 971 ->
  represents N D (shr_record_of_loc mx lx) ->
  exists m_r,
    N / (2 ^ (Zdigits2 mx - 53) * D) <= m_r
      <= N / (2 ^ (Zdigits2 mx - 53) * D) + 1 /\
    2 * Z.abs (N - m_r * (2 ^ (Zdigits2 mx - 53) * D))
      <= 2 ^ (Zdigits2 mx - 53) * D /\
    (N mod (2 ^ (Zdigits2 mx - 53) * D) = 0 ->
     m_r = N / (2 ^ (Zdigits2 mx - 53) * D)) /\
    2 ^ 52 <= N / (2 ^ (Zdigits2 mx - 53) * D) < 2 ^ 53 /\
    binary_round_aux 53 1024 false mx ex lx
      = rounded m_r (ex + (Zdigits2 mx - 53)).
Proof.
  intros Hmx Hd Hlo Hhi R.
  set (n := Zdigits2 mx - 53) in *.
  set (D' := 2 ^ n * D).
  set (mrs1 := match n with
               | Zpos p => iter_pos shr_1 p (shr_record_of_loc mx lx)
               | _ => shr_record_of_loc mx lx
               end).
  assert (Hn : 0 <= n) by (unfold n; lia).
  assert (R1 : represents N D' mrs1).
  { unfold mrs1, D'. destruct n as [|p|p]; try lia.
    - rewrite Z.pow_0_r, Z.mul_1_l. exact R.
    - apply iter_represents. exact R. }
  assert (HD : 0 < D) by apply R.
  assert (Hpow : 0 < 2 ^ n) by (apply Z.pow_pos_nonneg; lia).
  assert (Hm1 : N / D' = mx / 2 ^ n).
  { unfold D'. rewrite (Z.mul_comm (2 ^ n) D), <- Z.div_div by lia.
    destruct R as (_ & _ & Hm & _). rewrite shr_m_of_loc in Hm. rewrite <- Hm.
    reflexivity. }
  assert (Hnorm : 2 ^ 52 <= N / D' < 2 ^ 53).
  { rewrite Hm1. pose proof (Zdigits2_bounds mx Hmx) as Hb.
    replace (Zdigits2 mx - 1) with (52 + n) in Hb by (unfold n; lia).
    replace (Zdigits2 mx) with (53 + n) in Hb by (unfold n; lia).
    rewrite !Z.pow_add_r in Hb by lia. split.
    - apply Z.div_le_lower_bound; lia.
    - apply Z.div_lt_upper_bound; lia. }
  destruct (rne_represents _ _ _ R1) as (Hr1 & Hr2 & Hr3).
  set (m_r := round_nearest_even (shr_m mrs1) (loc_of_shr_record mrs1)) in *.
  exists m_r. repeat split; try assumption; try lia.
  unfold binary_round_aux. rewrite shr_fexp_eq by assumption.
  fold n. fold mrs1. cbv beta iota. fold m_r.
  unfold rounded.
  destruct (Z.ltb_spec m_r (2 ^ 53)) as [Hlt|Hge].
  - assert (Hdig : Zdigits2 m_r = 53) by (apply Zdigits2_unique; lia).
    rewrite shr_fexp_eq by (rewrite ?Hdig; lia).
    rewrite Hdig.
    change (53 - 53) with 0. cbv beta iota.
    cbn [shr_record_of_loc shr_m].
    destruct m_r as [|p|p]; try lia.
    rewrite Z.add_0_r.
    replace (ex + n <=? 1024 - 53) with true by (symmetry; apply Z.leb_le; lia).
    reflexivity.
  - assert (Hm_r : m_r = 2 ^ 53) by lia.
    rewrite Hm_r.
    rewrite shr_fexp_eq;
      [|reflexivity|change (Zdigits2 (2 ^ 53)) with 54; lia
       |change (Zdigits2 (2 ^ 53)) with 54; lia].
    change (Zdigits2 (2 ^ 53)) with 54. change (54 - 53) with 1.
    cbv beta iota.
    change (shr_m (iter_pos shr_1 1 (shr_record_of_loc (2 ^ 53) loc_Exact)))
      with (2 ^ 52).
    change (2 ^ 52) with (Zpos (Z.to_pos (2 ^ 52))). cbv beta iota.
    replace (ex + n + 1 <=? 1024 - 53) with true by (symmetry; apply Z.leb_le; lia).
    reflexivity.
Qed.

Lemma iter_xO p k : Zpos (Pos.iter xO p k) = Zpos p * 2 ^ Zpos k.
Proof.
  induction k as [|k IH] using Pos.peano_ind.
  - cbn [Pos.iter]. lia.
  - rewrite Pos.iter_succ, Pos2Z.inj_xO, IH, Pos2Z.inj_succ, Z.pow_succ_r by lia.
    ring.
Qed.

Lemma bra_exact m e :
  normal m -> -1074 <= e <= 970 ->
  binary_round_aux 53 1024 false (Zpos m) e loc_Exact = S754_finite false m e.
Proof.
  intros Hm He.
  assert (Hd : Zdigits2 (Zpos m) = 53) by (apply Zdigits2_unique; [lia|exact Hm]).
  destruct (bra_spec (Zpos m) e loc_Exact (Zpos m) 1) as (m_r & H1 & H2 & H3 & H4 & H5);
    try (rewrite ?Hd; lia).
  { apply exact_represents. lia. }
  rewrite Hd in *. change (2 ^ (53 - 53) * 1) with 1 in *.
  rewrite Z.div_1_r in *. rewrite Z.mod_1_r in H3. specialize (H3 eq_refl).
  rewrite H5, H3. unfold rounded.
  replace (Zpos m <? 2 ^ 53) with true by (symmetry; apply Z.ltb_lt; apply Hm).
  rewrite Z.add_0_r. reflexivity.
Qed.

Lemma of_int_spec c :
  0 < c < 2 ^ 53 ->
  of_int c = S754_finite false (Z.to_pos (c * 2 ^ (53 - Zdigits2 c)))
                         (Zdigits2 c - 53)
  /\ 1 <= Zdigits2 c <= 53
  /\ normal (Z.to_pos (c * 2 ^ (53 - Zdigits2 c))).
Proof.
  intros Hc. destruct c as [|p|p]; try lia.
  pose proof (digits2_bounds p) as Hb.
  cbn [Zdigits2].
  set (d := Zpos (digits2_pos p)) in *.
  assert (Hd1 : 1 <= d) by (unfold d; lia).
  assert (Hd : d <= 53).
  { destruct (Z_le_gt_dec d 53); [assumption|].
    assert (2 ^ 53 <= 2 ^ (d - 1)) by (apply Z.pow_le_mono_r; lia). lia. }
  assert (Hnorm : 2 ^ 52 <= Zpos p * 2 ^ (53 - d) < 2 ^ 53).
  { assert (E52 : 2 ^ 52 = 2 ^ (d - 1) * 2 ^ (53 - d))
      by (rewrite <- Z.pow_add_r by lia; f_equal; lia).
    assert (E53 : 2 ^ 53 = 2 ^ d * 2 ^ (53 - d))
      by (rewrite <- Z.pow_add_r by lia; f_equal; lia).
    assert (0 < 2 ^ (53 - d)) by (apply Z.pow_pos_nonneg; lia).
    rewrite E52, E53.
    split; [apply Z.mul_le_mono_nonneg_r|apply Z.mul_lt_mono_pos_r]; lia. }
  split; [|split; [lia|]].
  2:{ unfold normal. rewrite Z2Pos.id by lia. exact Hnorm. }
  unfold of_int, prec, emax, binary_normalize, binary_round, shl_align, fexp, emin.
  fold d.
  replace (Z.max (d + 0 - 53) (3 - 1024 - 53) - 0) with (d - 53) by lia.
  replace (Z.max (d + 0 - 53) (3 - 1024 - 53)) with (d - 53) by lia.
  destruct (d - 53) as [|k|k] eqn:E; try lia.
  - replace (53 - d) with 0 in * by lia. rewrite Z.mul_1_r in *.
    rewrite bra_exact; [reflexivity|exact Hnorm|lia].
  - assert (Hk : 53 - d = Zpos k) by lia.
    rewrite Hk in *.
    assert (Hi : Zpos (Pos.iter xO p k) = Zpos p * 2 ^ Zpos k) by apply iter_xO.
    rewrite bra_exact; [|unfold normal; rewrite Hi; exact Hnorm|lia].
    f_equal. rewrite <- Hi. reflexivity.
Qed.

Lemma SFdiv_core_eq m1 e1 m2 e2 :
  normal m1 -> normal m2 -> -1074 <= e1 - e2 - 53 ->
  SFdiv_core_binary 53 1024 (Zpos m1) e1 (Zpos m2) e2 =
  ((Zpos m1 * 2 ^ 53) / Zpos m2, e1 - e2 - 53,
   new_location (Zpos m2) ((Zpos m1 * 2 ^ 53) mod Zpos m2)).
Proof.
  intros H1 H2 He.
  unfold SFdiv_core_binary.
  rewrite (Zdigits2_unique (Zpos m1) 53) by (try exact H1; lia).
  rewrite (Zdigits2_unique (Zpos m2) 53) by (try exact H2; lia).
  unfold fexp, emin.
  replace (Z.min (Z.max (53 + e1 - (53 + e2) - 53) (3 - 1024 - 53)) (e1 - e2))
    with (e1 - e2 - 53) by lia.
  replace (e1 - e2 - (e1 - e2 - 53)) with 53 by lia.
  cbv beta iota zeta.
  rewrite Z.shiftl_mul_pow2 by lia.
  unfold Z.div, Z.modulo.
  destruct (Z.div_eucl (Zpos m1 * 2 ^ 53) (Zpos m2)) as [q r].
  reflexivity.
Qed.

Lemma Zdigits2_mono c n : 0 < c -> c <= n -> Zdigits2 c <= Zdigits2 n.
Proof.
  intros Hc Hn.
  pose proof (Zdigits2_bounds c Hc) as Bc.
  pose proof (Zdigits2_bounds n ltac:(lia)) as Bn.
  destruct (Z_le_gt_dec (Zdigits2 c) (Zdigits2 n)) as [|G]; [assumption|].
  assert (0 <= Zdigits2 n) by (destruct n; cbn; lia).
  assert (2 ^ Zdigits2 n <= 2 ^ (Zdigits2 c - 1)) by (apply Z.pow_le_mono_r; lia).
  lia.
Qed.

Lemma scale_bound U X n : 0 < U -> 2 * Z.abs (U * X) <= U * n -> 2 * Z.abs X <= n.
Proof. intros HU H. rewrite Z.abs_mul, (Z.abs_eq U) in H by lia. nia. Qed.

Lemma div_spec c n :
  0 < c -> c <= n -> n < 2 ^ 53 ->
  exists m e,
    div (of_int c) (of_int n) = S754_finite false m e /\
    normal m /\ -200 <= e <= -52 /\
    2 * Z.abs (c * 2 ^ (- e) - Zpos m * n) <= n.
Proof.
  intros Hc Hcn Hn.
  destruct (of_int_spec c ltac:(lia)) as (Ec & Dc & Nc).
  destruct (of_int_spec n ltac:(lia)) as (En & Dn & Nn).
  pose proof (Zdigits2_mono c n Hc Hcn) as Hmono.
  rewrite Ec, En. clear Ec En.
  set (b := 53 - Zdigits2 n) in *.
  set (j := Zdigits2 n - Zdigits2 c).
  replace (53 - Zdigits2 c) with (b + j) in * by (unfold b, j; lia).
  replace (Zdigits2 c - 53) with (- (b + j)) by (unfold b, j; lia).
  replace (Zdigits2 n - 53) with (- b) by (unfold b; lia).
  assert (Hb : 0 <= b <= 52) by (unfold b; lia).
  assert (Hj : 0 <= j <= 52) by (unfold j; lia).
  clearbody b j. clear Dc Dn Hmono.
  rewrite Z.pow_add_r in * by lia.
  set (B := 2 ^ b) in *. set (J := 2 ^ j) in *.
  assert (HB : 0 < B) by (apply Z.pow_pos_nonneg; lia).
  assert (HJ : 0 < J) by (apply Z.pow_pos_nonneg; lia).
  set (m1 := Z.to_pos (c * (B * J))) in *.
  set (m2 := Z.to_pos (n * B)) in *.
  assert (Hm1 : Zpos m1 = c * (B * J)) by (unfold m1; rewrite Z2Pos.id; nia).
  assert (Hm2 : Zpos m2 = n * B) by (unfold m2; rewrite Z2Pos.id; nia).
  unfold div, SFdiv, prec, emax. rewrite SFdiv_core_eq by (assumption || lia).
  cbn [xorb].
  set (N := Zpos m1 * 2 ^ 53). set (D := Zpos m2).
  assert (HD : 0 < D) by (unfold D; lia).
  pose proof (Z.div_mod N D ltac:(lia)) as Hdm.
  pose proof (Z.mod_pos_bound N D HD) as Hrb.
  unfold normal in Nc, Nn. fold D in Nn.
  assert (Hq : 2 ^ 52 <= N / D < 2 ^ 54).
  { split.
    - apply Z.div_le_lower_bound; [lia|]. unfold N. nia.
    - apply Z.div_lt_upper_bound; [lia|]. unfold N. nia. }
  assert (Hdq : Zdigits2 (N / D) = 53 \/ Zdigits2 (N / D) = 54).
  { pose proof (Zdigits2_bounds (N / D) ltac:(lia)) as Bq.
    assert (0 <= Zdigits2 (N / D)) by (destruct (N / D); cbn; lia).
    destruct (Z_le_gt_dec (Zdigits2 (N / D)) 52).
    { assert (2 ^ Zdigits2 (N / D) <= 2 ^ 52) by (apply Z.pow_le_mono_r; lia). lia. }
    destruct (Z_le_gt_dec 55 (Zdigits2 (N / D))).
    { assert (2 ^ 54 <= 2 ^ (Zdigits2 (N / D) - 1)) by (apply Z.pow_le_mono_r; lia). lia. }
    lia. }
  destruct (bra_spec (N / D) (- (b + j) - - b - 53)
              (new_location D (N mod D)) N D)
    as (m_r & H1 & H2 & H3 & H4 & H5); try lia.
  { rewrite Hdm at 1. rewrite (Z.mul_comm D).
    apply new_location_represents; lia. }
  cbv beta iota. rewrite H5. clear H5.
  unfold rounded.
  assert (HN : N = c * J * 2 ^ 53 * B) by (unfold N; rewrite Hm1; ring).
  assert (HDn : D = n * B) by (unfold D; exact Hm2).
  destruct Hdq as [Hk|Hk]; rewrite Hk in *;
    [change (2 ^ (53 - 53) * D) with (1 * D) in *
    |change (2 ^ (54 - 53) * D) with (2 * D) in *];
    destruct (Z.ltb_spec m_r (2 ^ 53)) as [Hlt|Hge].
  - (* k = 0, no carry *)
    exists (Z.to_pos m_r), (- j - 53).
    split; [f_equal; lia|].
    split; [unfold normal; rewrite Z2Pos.id by lia; lia|].
    split; [lia|].
    rewrite Z2Pos.id by lia.
    replace (- (- j - 53)) with (j + 53) by lia.
    rewrite Z.pow_add_r by lia. fold J.
    apply (scale_bound B); [assumption|].
    replace (B * (c * (J * 2 ^ 53) - m_r * n)) with (N - m_r * (1 * D))
      by (rewrite HN, HDn; ring).
    rewrite HDn in H2. lia.
  - (* k = 0, carry *)
    assert (m_r = 2 ^ 53) by lia. subst m_r.
    exists (Z.to_pos (2 ^ 52)), (- j - 52).
    split; [f_equal; lia|].
    split; [unfold normal; cbn; lia|].
    split; [lia|].
    replace (- (- j - 52)) with (j + 52) by lia.
    rewrite Z.pow_add_r by lia. fold J.
    apply (scale_bound (2 * B)); [lia|].
    replace (2 * B * (c * (J * 2 ^ 52) - Zpos (Z.to_pos (2 ^ 52)) * n))
      with (N - 2 ^ 53 * (1 * D)) by (rewrite HN, HDn; change (Zpos (Z.to_pos (2 ^ 52))) with (2 ^ 52); change (2 ^ 53) with (2 * 2 ^ 52); ring).
    rewrite HDn in H2. lia.
  - (* k = 1, no carry *)
    exists (Z.to_pos m_r), (- j - 52).
    split; [f_equal; lia|].
    split; [unfold normal; rewrite Z2Pos.id by lia; lia|].
    split; [lia|].
    rewrite Z2Pos.id by lia.
    replace (- (- j - 52)) with (j + 52) by lia.
    rewrite Z.pow_add_r by lia. fold J.
    apply (scale_bound (2 * B)); [lia|].
    replace (2 * B * (c * (J * 2 ^ 52) - m_r * n)) with (N - m_r * (2 * D))
      by (rewrite HN, HDn; change (2 ^ 53) with (2 * 2 ^ 52); ring).
    rewrite HDn in H2. lia.
  - (* k = 1, carry: needs j >= 1 *)
    assert (m_r = 2 ^ 53) by lia. subst m_r.
    assert (Hj1 : 1 <= j).
    { destruct (Z.eq_dec j 0) as [->|]; [|lia]. exfalso.
      change (2 ^ 0) with 1 in J. subst J.
      (* q >= 2^53 forces c >= n, hence c = n and the quotient is exact *)
      assert (Hq53 : 2 ^ 53 <= N / D).
      { pose proof (Zdigits2_bounds (N / D) ltac:(lia)) as Bq.
        rewrite Hk in Bq. exact (proj1 Bq). }
      assert (HND : 2 ^ 53 * D <= N).
      { pose proof (Z.mul_div_le N D HD). nia. }
      assert (c = n) by (rewrite HN, HDn in *; nia). subst c.
      assert (HN2 : N = 2 ^ 52 * (2 * D))
        by (rewrite HN, HDn; change (2 ^ 53) with (2 * 2 ^ 52); ring).
      assert (Hex : N mod (2 * D) = 0).
      { rewrite HN2. apply Z.mod_mul. lia. }
      specialize (H3 Hex). rewrite HN2 in H3. rewrite Z.div_mul in H3 by lia.
      discriminate. }
    exists (Z.to_pos (2 ^ 52)), (- j - 51).
    split; [f_equal; lia|].
    split; [unfold normal; cbn; lia|].
    split; [lia|].
    replace (- (- j - 51)) with ((j - 1) + 52) by lia.
    rewrite Z.pow_add_r by lia.
    assert (HJ2 : J = 2 * 2 ^ (j - 1)).
    { unfold J. replace j with (1 + (j - 1)) at 1 by lia.
      rewrite Z.pow_add_r by lia. reflexivity. }
    set (J' := 2 ^ (j - 1)) in *.
    apply (scale_bound (4 * B)); [lia|].
    replace (4 * B * (c * (J' * 2 ^ 52) - Zpos (Z.to_pos (2 ^ 52)) * n))
      with (N - 2 ^ 53 * (2 * D)) by (rewrite HN, HDn, HJ2; change (Zpos (Z.to_pos (2 ^ 52))) with (2 ^ 52); change (2 ^ 53) with (2 * 2 ^ 52); ring).
    rewrite HDn in H2. lia.
Qed.

Lemma lit_0_3_eq : lit_0_3 = S754_finite false 5404319552844595 (-54).
Proof. vm_compute. reflexivity. Qed.
Lemma lit_0_5_eq : lit_0_5 = S754_finite false 4503599627370496 (-53).
Proof. vm_compute. reflexivity. Qed.
Lemma lit_0_1_eq : lit_0_1 = S754_finite false 7205759403792794 (-56).
Proof. vm_compute. reflexivity. Qed.

Lemma SFcompare_finite m1 e1 m2 e2 :
  SFcompare (S754_finite false m1 e1) (S754_finite false m2 e2) =
  Some (match e1 ?= e2 with
        | Lt => Lt
        | Gt => Gt
        | Eq => Zpos m1 ?= Zpos m2
        end).
Proof. reflexivity. Qed.

Lemma of_int_0 : of_int 0 = S754_zero false.
Proof. reflexivity. Qed.

Lemma pow2_ge a b : 0 <= a <= b -> 2 ^ a <= 2 ^ b.
Proof. intros. apply Z.pow_le_mono_r; lia. Qed.

(** A ratio of two ints against the literal 0.3. *)
Lemma ratio_vs_0_3 c n :
  0 <= c <= n -> 0 < n < 2 ^ 52 ->
  SFleb (div (of_int c) (of_int n)) lit_0_3 = (10 * c <=? 3 * n) /\
  SFltb lit_0_3 (div (of_int c) (of_int n)) = (3 * n <? 10 * c).
Proof.
  intros Hc Hn. rewrite lit_0_3_eq.
  destruct (Z.eq_dec c 0) as [->|Hc0].
  { destruct (of_int_spec n ltac:(lia)) as (En & _). rewrite of_int_0, En.
    split; [symmetry; apply Z.leb_le; lia|symmetry; apply Z.ltb_ge; lia]. }
  destruct (div_spec c n) as (m & e & E & Hm & He & Hb); try lia.
  rewrite E. unfold SFleb, SFltb. rewrite !SFcompare_finite.
  unfold normal in Hm.
  assert (HP : 0 < 2 ^ (- e)) by (apply Z.pow_pos_nonneg; lia).
  destruct (Z.compare_spec e (-54)) as [Ee|Ee|Ee].
  - subst e. rewrite Z.compare_refl.
    change (2 ^ (- -54)) with 18014398509481984 in *.
    destruct (Z.compare_spec (Zpos m) 5404319552844595) as [Em|Em|Em];
      rewrite (Z.compare_antisym (Zpos m)); 
      try rewrite Em; 
      (destruct (Z.compare_spec (Zpos m) 5404319552844595) as [Em'|Em'|Em']; try lia);
      cbn [CompOpp];
      (split; [symmetry; (apply Z.leb_le || apply Z.leb_gt)
              |symmetry; (apply Z.ltb_lt || apply Z.ltb_ge)]); nia.
  - replace (-54 ?= e) with Gt by (symmetry; apply Z.compare_gt_iff; lia).
    pose proof (pow2_ge 55 (- e) ltac:(lia)) as HP55.
    change (2 ^ 55) with 36028797018963968 in HP55.
    change (2 ^ 53) with 9007199254740992 in *.
    change (2 ^ 52) with 4503599627370496 in *.
    split; [symmetry; apply Z.leb_le|symmetry; apply Z.ltb_ge]; nia.
  - replace (-54 ?= e) with Lt by (symmetry; apply Z.compare_lt_iff; lia).
    pose proof (pow2_ge (- e) 53 ltac:(lia)) as HP53.
    change (2 ^ 53) with 9007199254740992 in *.
    change (2 ^ 52) with 4503599627370496 in *.
    split; [symmetry; apply Z.leb_gt|symmetry; apply Z.ltb_lt]; nia.
Qed.

Lemma ratio_vs_0_5 c n :
  0 <= c <= n -> 0 < n < 2 ^ 52 ->
  SFltb lit_0_5 (div (of_int c) (of_int n)) = (n <? 2 * c) /\
  SFltb (div (of_int c) (of_int n)) lit_0_5 = (2 * c <? n).
Proof.
  intros Hc Hn. rewrite lit_0_5_eq.
  destruct (Z.eq_dec c 0) as [->|Hc0].
  { destruct (of_int_spec n ltac:(lia)) as (En & _). rewrite of_int_0, En.
    split; [symmetry; apply Z.ltb_ge; lia|symmetry; apply Z.ltb_lt; lia]. }
  destruct (div_spec c n) as (m & e & E & Hm & He & Hb); try lia.
  rewrite E. unfold SFltb. rewrite !SFcompare_finite.
  unfold normal in Hm.
  assert (HP : 0 < 2 ^ (- e)) by (apply Z.pow_pos_nonneg; lia).
  change (2 ^ 53) with 9007199254740992 in *.
  change (2 ^ 52) with 4503599627370496 in *.
  destruct (Z.compare_spec e (-53)) as [Ee|Ee|Ee].
  - subst e. rewrite Z.compare_refl.
    change (2 ^ (- -53)) with 9007199254740992 in *.
    rewrite (Z.compare_antisym (Zpos m)).
    destruct (Z.compare_spec (Zpos m) 4503599627370496) as [Em'|Em'|Em']; try lia;
      cbn [CompOpp];
      (split; symmetry; (apply Z.ltb_lt || apply Z.ltb_ge)); nia.
  - replace (-53 ?= e) with Gt by (symmetry; apply Z.compare_gt_iff; lia).
    pose proof (pow2_ge 54 (- e) ltac:(lia)) as HP54.
    change (2 ^ 54) with 18014398509481984 in HP54.
    split; symmetry; [apply Z.ltb_ge|apply Z.ltb_lt]; nia.
  - replace (-53 ?= e) with Lt by (symmetry; apply Z.compare_lt_iff; lia).
    assert (e = -52) by lia. subst e.
    change (2 ^ (- -52)) with 4503599627370496 in *.
    split; symmetry; [apply Z.ltb_lt|apply Z.ltb_ge]; nia.
Qed.

Lemma mul_0_1_spec n :
  0 < n < 2 ^ 53 ->
  exists m e,
    mul (of_int n) lit_0_1 = S754_finite false m e /\
    normal m /\ -56 <= e <= 10 /\
    2 * Z.abs (n * 7205759403792794 - Zpos m * 2 ^ (e + 56)) <= 2 ^ (e + 56).
Proof.
  intros Hn. rewrite lit_0_1_eq.
  destruct (of_int_spec n ltac:(lia)) as (En & Dn & Nn).
  rewrite En. clear En.
  set (a := 53 - Zdigits2 n) in *.
  replace (Zdigits2 n - 53) with (- a) by (unfold a; lia).
  assert (Ha : 0 <= a <= 52) by (unfold a; lia).
  clearbody a. clear Dn.
  set (A := 2 ^ a) in *.
  assert (HA : 0 < A) by (apply Z.pow_pos_nonneg; lia).
  set (m1 := Z.to_pos (n * A)) in *.
  assert (Hm1 : Zpos m1 = n * A) by (unfold m1; rewrite Z2Pos.id; nia).
  unfold normal in Nn.
  unfold mul, prec, emax. cbn [SFmul xorb].
  set (mx := Zpos (m1 * 7205759403792794)).
  assert (Hmx : mx = n * A * 7205759403792794)
    by (unfold mx; rewrite Pos2Z.inj_mul, Hm1; reflexivity).
  assert (Hrange : 2 ^ 104 <= mx < 2 ^ 106).
  { rewrite Hmx. rewrite Hm1 in Nn.
    change (2 ^ 104) with (2 ^ 52 * 2 ^ 52). change (2 ^ 106) with (2 ^ 53 * 2 ^ 53).
    change (2 ^ 53) with 9007199254740992 in *.
    change (2 ^ 52) with 4503599627370496 in *. nia. }
  assert (Hdq : Zdigits2 mx = 105 \/ Zdigits2 mx = 106).
  { pose proof (Zdigits2_bounds mx ltac:(lia)) as Bq.
    assert (0 <= Zdigits2 mx) by (unfold mx; cbn; lia).
    destruct (Z_le_gt_dec (Zdigits2 mx) 104).
    { assert (2 ^ Zdigits2 mx <= 2 ^ 104) by (apply Z.pow_le_mono_r; lia). lia. }
    destruct (Z_le_gt_dec 107 (Zdigits2 mx)).
    { assert (2 ^ 106 <= 2 ^ (Zdigits2 mx - 1)) by (apply Z.pow_le_mono_r; lia). lia. }
    lia. }
  destruct (bra_spec mx (- a + -56) loc_Exact mx 1)
    as (m_r & H1 & H2 & H3 & H4 & H5); try lia.
  { apply exact_represents. lia. }
  rewrite H5. clear H5. unfold rounded.
  rewrite Z.mul_1_r in *.
  assert (Hsplit : forall k, 0 <= k -> 2 ^ (a + k) = A * 2 ^ k)
    by (intros; apply Z.pow_add_r; lia).
  destruct Hdq as [Hk|Hk]; rewrite Hk in *;
    [change (105 - 53) with 52 in *|change (106 - 53) with 53 in *];
    destruct (Z.ltb_spec m_r (2 ^ 53)) as [Hlt|Hge].
  - exists (Z.to_pos m_r), (- a + -56 + 52).
    split; [reflexivity|].
    split; [unfold normal; rewrite Z2Pos.id by lia; lia|].
    split; [lia|]. rewrite Z2Pos.id by lia.
    replace (- a + -56 + 52 + 56) with (52 - a) by lia.
    assert (E52 : 2 ^ 52 = A * 2 ^ (52 - a))
      by (rewrite <- Hsplit by lia; f_equal; lia).
    assert (0 < 2 ^ (52 - a)) by (apply Z.pow_pos_nonneg; lia).
    rewrite E52, Hmx in H2.
    apply (scale_bound A); [assumption|].
    replace (A * (n * 7205759403792794 - m_r * 2 ^ (52 - a)))
      with (n * A * 7205759403792794 - m_r * (A * 2 ^ (52 - a))) by ring.
    lia.
  - assert (m_r = 2 ^ 53) by lia. subst m_r.
    exists (Z.to_pos (2 ^ 52)), (- a + -56 + 52 + 1).
    split; [reflexivity|].
    split; [unfold normal; cbn; lia|].
    split; [lia|].
    replace (- a + -56 + 52 + 1 + 56) with (53 - a) by lia.
    assert (E53 : 2 ^ 53 = A * 2 ^ (53 - a))
      by (rewrite <- Hsplit by lia; f_equal; lia).
    assert (E52 : 2 ^ 52 = A * 2 ^ (52 - a))
      by (rewrite <- Hsplit by lia; f_equal; lia).
    assert (E1 : 2 ^ (53 - a) = 2 * 2 ^ (52 - a)).
    { replace (53 - a) with (1 + (52 - a)) by lia. rewrite Z.pow_add_r by lia.
      reflexivity. }
    assert (0 < 2 ^ (52 - a)) by (apply Z.pow_pos_nonneg; lia).
    change (Zpos (Z.to_pos (2 ^ 52))) with (2 ^ 52).
    rewrite Hmx, E52 in H2.
    apply (scale_bound A); [assumption|].
    replace (A * (n * 7205759403792794 - 2 ^ 52 * 2 ^ (53 - a)))
      with (n * A * 7205759403792794 - 2 ^ 53 * (A * 2 ^ (52 - a)))
      by (rewrite E1; change (2 ^ 53) with (2 * 2 ^ 52); ring).
    rewrite E1. lia.
  - exists (Z.to_pos m_r), (- a + -56 + 53).
    split; [reflexivity|].
    split; [unfold normal; rewrite Z2Pos.id by lia; lia|].
    split; [lia|]. rewrite Z2Pos.id by lia.
    replace (- a + -56 + 53 + 56) with (53 - a) by lia.
    assert (E53 : 2 ^ 53 = A * 2 ^ (53 - a))
      by (rewrite <- Hsplit by lia; f_equal; lia).
    assert (0 < 2 ^ (53 - a)) by (apply Z.pow_pos_nonneg; lia).
    rewrite Hmx, E53 in H2.
    apply (scale_bound A); [assumption|].
    replace (A * (n * 7205759403792794 - m_r * 2 ^ (53 - a)))
      with (n * A * 7205759403792794 - m_r * (A * 2 ^ (53 - a))) by ring.
    lia.
  - assert (m_r = 2 ^ 53) by lia. subst m_r.
    exists (Z.to_pos (2 ^ 52)), (- a + -56 + 53 + 1).
    split; [reflexivity|].
    split; [unfold normal; cbn; lia|].
    split; [lia|].
    replace (- a + -56 + 53 + 1 + 56) with (54 - a) by lia.
    assert (E53 : 2 ^ 53 = A * 2 ^ (53 - a))
      by (rewrite <- Hsplit by lia; f_equal; lia).
    assert (E1 : 2 ^ (54 - a) = 2 * 2 ^ (53 - a)).
    { replace (54 - a) with (1 + (53 - a)) by lia. rewrite Z.pow_add_r by lia.
      reflexivity. }
    assert (0 < 2 ^ (53 - a)) by (apply Z.pow_pos_nonneg; lia).
    change (Zpos (Z.to_pos (2 ^ 52))) with (2 ^ 52).
    rewrite Hmx in H2. rewrite E53 in H2 at 2 3.
    apply (scale_bound A); [assumption|].
    replace (A * (n * 7205759403792794 - 2 ^ 52 * 2 ^ (54 - a)))
      with (n * A * 7205759403792794 - 2 ^ 53 * (A * 2 ^ (53 - a)))
      by (rewrite E1; change (2 ^ 53) with (2 * 2 ^ 52); ring).
    rewrite E1. lia.
Qed.

Lemma int_lt_tenth s n :
  0 <= s <= n -> 0 < n < 2 ^ 48 ->
  SFltb (of_int s) (mul (of_int n) lit_0_1) = (10 * s <? n).
Proof.
  intros Hs Hn.
  assert (2 ^ 48 < 2 ^ 53) by (apply Z.pow_lt_mono_r; lia).
  destruct (mul_0_1_spec n ltac:(lia)) as (m & e & E & Hm & He & Hb).
  rewrite E. clear E.
  destruct (Z.eq_dec s 0) as [->|Hs0].
  { rewrite of_int_0. symmetry. apply Z.ltb_lt. lia. }
  destruct (of_int_spec s ltac:(lia)) as (Es & Ds & Ns).
  rewrite Es. clear Es.
  unfold SFltb. rewrite SFcompare_finite.
  pose proof (Zdigits2_bounds s ltac:(lia)) as Bs.
  set (ds := Zdigits2 s) in *.
  assert (Hds : ds <= 48).
  { destruct (Z_le_gt_dec ds 48); [assumption|].
    assert (2 ^ 48 <= 2 ^ (ds - 1)) by (apply Z.pow_le_mono_r; lia). lia. }
  set (T := 2 ^ ds) in *.
  assert (HT : T = 2 * 2 ^ (ds - 1)).
  { unfold T. replace ds with (1 + (ds - 1)) at 1 by lia.
    rewrite Z.pow_add_r by lia. reflexivity. }
  assert (HT48 : T <= 2 ^ 48) by (apply Z.pow_le_mono_r; lia).
  assert (Hms : Zpos (Z.to_pos (s * 2 ^ (53 - ds))) * T = s * 2 ^ 53).
  { rewrite Z2Pos.id by (unfold normal in Ns; rewrite Z2Pos.id in Ns; nia || (apply Z.mul_pos_pos; [lia|apply Z.pow_pos_nonneg; lia])).
    unfold T. rewrite <- Z.mul_assoc, <- Z.pow_add_r by lia. do 2 f_equal. lia. }
  set (ms := Z.to_pos (s * 2 ^ (53 - ds))) in *.
  unfold normal in Hm, Ns.
  set (K := 2 ^ (e + 56)) in *.
  assert (HK : 0 < K) by (apply Z.pow_pos_nonneg; lia).
  change (2 ^ 53) with 9007199254740992 in *.
  change (2 ^ 52) with 4503599627370496 in *.
  change (2 ^ 48) with 281474976710656 in *.
  destruct (Z.compare_spec (ds - 53) e) as [Ee|Ee|Ee].
  - (* same binade *)
    assert (HKT : K = 8 * T).
    { unfold K, T. subst e. replace (ds - 53 + 56) with (3 + ds) by lia.
      rewrite Z.pow_add_r by lia. reflexivity. }
    destruct (Z.compare_spec (Zpos ms) (Zpos m)) as [Em|Em|Em];
      symmetry; (apply Z.ltb_lt || apply Z.ltb_ge); nia.
  - (* the product lies in a higher binade *)
    assert (HKT : 16 * T <= K).
    { unfold K, T. replace (16 * 2 ^ ds) with (2 ^ (4 + ds))
        by (rewrite Z.pow_add_r by lia; reflexivity).
      apply Z.pow_le_mono_r; lia. }
    symmetry. apply Z.ltb_lt. nia.
  - (* the product lies in a lower binade *)
    assert (HKT : K <= 4 * T).
    { unfold K, T. replace (4 * 2 ^ ds) with (2 ^ (2 + ds))
        by (rewrite Z.pow_add_r by lia; reflexivity).
      apply Z.pow_le_mono_r; lia. }
    symmetry. apply Z.ltb_ge. nia.
Qed.

End FloatFacts.

(** ** The heuristics *)

Lemma count_if_bounds p s : 0 <= count_if p s <= len s.
Proof.
  unfold len. induction s as [|c s IH]; cbn [count_if List.length].
  - lia.
  - rewrite Nat2Z.inj_succ. destruct (p c); lia.
Qed.

Lemma len_nonneg {A : Type} (s : list A) : 0 <= len s.
Proof. unfold len. lia. Qed.

Lemma len_cons {A : Type} (c : A) (s : list A) : len (c :: s) = len s + 1.
Proof. unfold len. cbn [List.length]. lia. Qed.

Lemma len_zero {A : Type} (s : list A) : len s = 0 -> s = [].
Proof. destruct s; [reflexivity|]. rewrite len_cons. pose proof (len_nonneg s). lia. Qed.

Lemma truediv_ok a b :
  b <> 0 -> PyFloat.truediv a b = Ok (PyFloat.div (PyFloat.of_int a) (PyFloat.of_int b)).
Proof.
  intros Hb. unfold PyFloat.truediv.
  destruct (Z.eqb_spec b 0); [contradiction|reflexivity].
Qed.

Lemma max_len_lt : max_len < 2 ^ 52.
Proof. reflexivity. Qed.

(** The three ratio tests, read on integers. *)
Lemma ratio_le_0_3 p s :
  s <> [] -> len s < max_len ->
  (ratio <- PyFloat.truediv (count_if p s) (len s) ;;
   Ok (PyFloat.leb ratio PyFloat.lit_0_3))
  = Ok (10 * count_if p s <=? 3 * len s).
Proof.
  intros Hs Hl.
  assert (len s <> 0) by (intros E; apply Hs, len_zero, E).
  pose proof (len_nonneg s). pose proof (count_if_bounds p s). pose proof max_len_lt.
  rewrite truediv_ok by assumption. cbn [bind]. f_equal.
  apply FloatFacts.ratio_vs_0_3; lia.
Qed.

Lemma ratio_gt_0_3 p s :
  s <> [] -> len s < max_len ->
  (ratio <- PyFloat.truediv (count_if p s) (len s) ;;
   Ok (PyFloat.ltb PyFloat.lit_0_3 ratio))
  = Ok (3 * len s <? 10 * count_if p s).
Proof.
  intros Hs Hl.
  assert (len s <> 0) by (intros E; apply Hs, len_zero, E).
  pose proof (len_nonneg s). pose proof (count_if_bounds p s). pose proof max_len_lt.
  rewrite truediv_ok by assumption. cbn [bind]. f_equal.
  apply FloatFacts.ratio_vs_0_3; lia.
Qed.

Lemma ratio_lt_0_5 p s :
  s <> [] -> len s < max_len ->
  (ratio <- PyFloat.truediv (count_if p s) (len s) ;;
   Ok (PyFloat.ltb ratio PyFloat.lit_0_5))
  = Ok (2 * count_if p s <? len s).
Proof.
  intros Hs Hl.
  assert (len s <> 0) by (intros E; apply Hs, len_zero, E).
  pose proof (len_nonneg s). pose proof (count_if_bounds p s). pose proof max_len_lt.
  rewrite truediv_ok by assumption. cbn [bind]. f_equal.
  apply FloatFacts.ratio_vs_0_5; lia.
Qed.

Lemma is_control_iff c :
  is_control c = true <-> (c < 32 /\ c <> 9 /\ c <> 10 /\ c <> 13)%N.
Proof.
  unfold is_control, ord.
  rewrite andb_true_iff, negb_true_iff, !orb_false_iff, N.ltb_lt, !N.eqb_neq.
  tauto.
Qed.

Lemma is_likely_text_exact s :
  s <> [] -> len s < max_len ->
  _is_likely_text s = Ok (10 * count_if is_control s <=? 3 * len s).
Proof.
  intros Hs Hlen. destruct s as [|c s]; [contradiction|].
  unfold _is_likely_text. apply ratio_le_0_3; assumption.
Qed.

(** C2.  [_is_likely_text] is true on the empty string; on a non-empty
    string it is true exactly when the control code points (below 32, other
    than tab, newline and carriage return) are at most 3/10 of the length,
    equality included.  Stated for strings shorter than [2^48]. *)
Theorem is_likely_text_spec (s : str) (Hlen : len s < max_len) :
  _is_likely_text [] = Ok true /\
  (s <> [] ->
   _is_likely_text s = Ok (10 * count_if is_control s <=? 3 * len s)) /\
  (forall c, is_control c = true <-> (c < 32 /\ c <> 9 /\ c <> 10 /\ c <> 13)%N).
Proof.
  split; [reflexivity|]. split; [|exact is_control_iff].
  intros Hs. apply is_likely_text_exact; assumption.
Qed.

Lemma is_likely_text_spec_witness :
  len [0; 0; 0; 65; 66; 67; 68; 69; 70; 71]%N < max_len /\
  _is_likely_text [0; 0; 0; 65; 66; 67; 68; 69; 70; 71]%N = Ok true.
Proof.
  split; [reflexivity|].
  exact (proj1 (proj2 (is_likely_text_spec
                         [0; 0; 0; 65; 66; 67; 68; 69; 70; 71]%N eq_refl))
           ltac:(discriminate)).
Defined.

Lemma name_in_western encoding :
  name_in encoding ["cp1252"; "latin-1"] = true <->
  encoding = "cp1252" \/ encoding = "latin-1".
Proof.
  cbn [name_in]. rewrite !orb_true_iff, !String.eqb_eq.
  intuition discriminate.
Qed.

Lemma name_in_asian encoding :
  name_in encoding ["big5"; "gbk"; "gb2312"; "shift_jis"; "euc-kr"] = true <->
  encoding = "big5" \/ encoding = "gbk" \/ encoding = "gb2312" \/
  encoding = "shift_jis" \/ encoding = "euc-kr".
Proof.
  cbn [name_in]. rewrite !orb_true_iff, !String.eqb_eq.
  intuition discriminate.
Qed.

Lemma len_gt_3_nonempty {A : Type} (s : list A) : 3 < len s -> s <> [].
Proof. intros H ->. cbv in H. discriminate. Qed.

(** C3.  [_is_likely_misencoded_asian_text] is true exactly when the
    encoding is cp1252 or latin-1, the string is longer than 3, more than
    half of its code points lie in 0x0080-0x024F and its spaces are fewer
    than one tenth of its length; any other encoding, or a length of at most
    3, gives false.  The exact reading is stated for strings shorter than
    [2^48]. *)
Theorem is_likely_misencoded_asian_text_spec (s : str) (encoding : string)
    (Hlen : len s < max_len) :
  _is_likely_misencoded_asian_text s encoding
  = Ok (name_in encoding ["cp1252"; "latin-1"]
        && (3 <? len s)
        && (len s <? 2 * count_if (in_range 0x0080 0x024F) s)
        && (10 * count_if (N.eqb 32) s <? len s)) /\
  (name_in encoding ["cp1252"; "latin-1"] = true <->
   encoding = "cp1252" \/ encoding = "latin-1") /\
  (forall s' e', ~ (e' = "cp1252" \/ e' = "latin-1") ->
                 _is_likely_misencoded_asian_text s' e' = Ok false) /\
  (forall s' e', len s' <= 3 ->
                 _is_likely_misencoded_asian_text s' e' = Ok false).
Proof.
  split; [|split; [apply name_in_western|split]].
  - unfold _is_likely_misencoded_asian_text.
    destruct (name_in encoding ["cp1252"; "latin-1"]); [|reflexivity].
    cbn [negb orb andb].
    destruct (Z.leb_spec (len s) 3) as [H3|H3].
    + replace (3 <? len s) with false by (symmetry; apply Z.ltb_ge; lia).
      reflexivity.
    + replace (3 <? len s) with true by (symmetry; apply Z.ltb_lt; lia).
      cbn [andb].
      assert (Hne : s <> []) by (apply len_gt_3_nonempty; assumption).
      assert (Hl0 : len s <> 0) by lia.
      pose proof (count_if_bounds (in_range 128 591) s) as Hh.
      pose proof (count_if_bounds (N.eqb 32) s) as Hsp.
      pose proof max_len_lt as Hm.
      rewrite truediv_ok by assumption. cbn [bind].
      unfold PyFloat.ltb, PyFloat.int_ltb, PyFloat.int_mul.
      rewrite (proj1 (FloatFacts.ratio_vs_0_5 (count_if (in_range 128 591) s)
                      (len s) ltac:(lia) ltac:(lia))).
      destruct (len s <? 2 * count_if (in_range 128 591) s); [|reflexivity].
      cbn [andb]. f_equal.
      apply FloatFacts.int_lt_tenth; unfold max_len in *; lia.
  - intros s' e' He. unfold _is_likely_misencoded_asian_text.
    destruct (name_in e' ["cp1252"; "latin-1"]) eqn:E; [|reflexivity].
    apply name_in_western in E. contradiction.
  - intros s' e' Hl. unfold _is_likely_misencoded_asian_text.
    replace (len s' <=? 3) with true by (symmetry; apply Z.leb_le; assumption).
    rewrite orb_true_r. reflexivity.
Qed.

Lemma is_likely_misencoded_asian_text_spec_witness :
  len [0xC4; 0xE3; 0xBA; 0xC3; 0xCA; 0xC0; 0xBD; 0xE7]%N < max_len /\
  _is_likely_misencoded_asian_text
    [0xC4; 0xE3; 0xBA; 0xC3; 0xCA; 0xC0; 0xBD; 0xE7]%N "latin-1" = Ok true.
Proof.
  split; [reflexivity|].
  exact (proj1 (is_likely_misencoded_asian_text_spec
                  [0xC4; 0xE3; 0xBA; 0xC3; 0xCA; 0xC0; 0xBD; 0xE7]%N "latin-1"
                  eq_refl)).
Defined.

Lemma isalpha_and_ascii_iff c :
  isalpha_and_ascii c = true <-> (65 <= c <= 90 \/ 97 <= c <= 122)%N.
Proof.
  unfold isalpha_and_ascii, is_ascii_alpha, ord.
  rewrite andb_true_iff, orb_true_iff, !andb_true_iff, !N.leb_le, N.ltb_lt.
  lia.
Qed.

(** C4.  [_is_likely_misencoded_cross_asian] is false on strings of length
    at most 3; on longer ones it is true exactly when (A) the encoding is
    shift_jis and more than 3/10 of the code points are half-width katakana
    (0xFF61-0xFF9F), or (B) the encoding is one of big5, gbk, gb2312,
    shift_jis, euc-kr, there is an ASCII code point and a CJK ideograph
    (0x4E00-0x9FFF), at least two ASCII letters, and the ideographs are
    fewer than half of the string.  The exact reading is stated for strings
    shorter than [2^48]. *)
Theorem is_likely_misencoded_cross_asian_spec (s : str) (encoding : string)
    (Hlen : len s < max_len) :
  _is_likely_misencoded_cross_asian s encoding
  = Ok ((3 <? len s)
        && (String.eqb encoding "shift_jis"
              && (3 * len s <? 10 * count_if (in_range 0xFF61 0xFF9F) s)
            || name_in encoding ["big5"; "gbk"; "gb2312"; "shift_jis"; "euc-kr"]
               && (0 <? count_if (fun c => (ord c <? 128)%N) s)
               && (0 <? count_if (in_range 0x4E00 0x9FFF) s)
               && (2 <=? count_if isalpha_and_ascii s)
               && (2 * count_if (in_range 0x4E00 0x9FFF) s <? len s))) /\
  (forall s' e', len s' <= 3 ->
                 _is_likely_misencoded_cross_asian s' e' = Ok false) /\
  (name_in encoding ["big5"; "gbk"; "gb2312"; "shift_jis"; "euc-kr"] = true <->
   encoding = "big5" \/ encoding = "gbk" \/ encoding = "gb2312" \/
   encoding = "shift_jis" \/ encoding = "euc-kr") /\
  (forall c, isalpha_and_ascii c = true <->
             (65 <= c <= 90 \/ 97 <= c <= 122)%N).
Proof.
  split; [|split; [|split; [apply name_in_asian|apply isalpha_and_ascii_iff]]].
  - unfold _is_likely_misencoded_cross_asian.
    destruct (Z.leb_spec (len s) 3) as [H3|H3].
    + replace (3 <? len s) with false by (symmetry; apply Z.ltb_ge; lia).
      reflexivity.
    + replace (3 <? len s) with true by (symmetry; apply Z.ltb_lt; lia).
      cbn [andb].
      assert (Hne : s <> []) by (apply len_gt_3_nonempty; assumption).
      assert (Hp2 : cross_asian_pattern2 s
                    = Ok ((0 <? count_if (fun c => (ord c <? 128)%N) s)
                          && (0 <? count_if (in_range 0x4E00 0x9FFF) s)
                          && (2 <=? count_if isalpha_and_ascii s)
                          && (2 * count_if (in_range 0x4E00 0x9FFF) s <? len s))).
      { unfold cross_asian_pattern2.
        destruct ((0 <? count_if (fun c => (ord c <? 128)%N) s)
                  && (0 <? count_if (in_range 19968 40959) s)); [|reflexivity].
        cbn [andb].
        destruct (2 <=? count_if isalpha_and_ascii s); [|reflexivity].
        cbn [andb]. apply ratio_lt_0_5; assumption. }
      destruct (String.eqb encoding "shift_jis") eqn:Esj.
      * rewrite ratio_gt_0_3 by assumption. cbn [bind andb].
        destruct (3 * len s <? 10 * count_if (in_range 65377 65439) s);
          [reflexivity|].
        cbn [orb]. apply String.eqb_eq in Esj. subst encoding.
        cbn [name_in String.eqb Ascii.eqb Bool.eqb orb andb]. exact Hp2.
      * cbn [bind andb orb].
        destruct (name_in encoding ["big5"; "gbk"; "gb2312"; "shift_jis"; "euc-kr"]);
          [exact Hp2|reflexivity].
  - intros s' e' Hl. unfold _is_likely_misencoded_cross_asian.
    replace (len s' <=? 3) with true by (symmetry; apply Z.leb_le; assumption).
    reflexivity.
Qed.

Lemma is_likely_misencoded_cross_asian_spec_witness :
  len [0xFF96; 0xFF90; 0xFF8E; 0xFF84; 0xFF72; 0x7C17; 0xFF94]%N < max_len /\
  _is_likely_misencoded_cross_asian
    [0xFF96; 0xFF90; 0xFF8E; 0xFF84; 0xFF72; 0x7C17; 0xFF94]%N "shift_jis"
  = Ok true.
Proof.
  split; [reflexivity|].
  exact (proj1 (is_likely_misencoded_cross_asian_spec
                  [0xFF96; 0xFF90; 0xFF8E; 0xFF84; 0xFF72; 0x7C17; 0xFF94]%N
                  "shift_jis" eq_refl)).
Defined.

(** ** The orchestrator *)

Lemma is_likely_text_total s : exists b, _is_likely_text s = Ok b.
Proof.
  destruct s as [|c s]; [exists true; reflexivity|].
  unfold _is_likely_text. rewrite truediv_ok.
  - eexists. reflexivity.
  - rewrite len_cons. pose proof (len_nonneg s). lia.
Qed.

Lemma is_likely_misencoded_asian_text_total s encoding :
  exists b, _is_likely_misencoded_asian_text s encoding = Ok b.
Proof.
  unfold _is_likely_misencoded_asian_text.
  destruct (negb (name_in encoding ["cp1252"; "latin-1"])); cbn [orb];
    [exists false; reflexivity|].
  destruct (Z.leb_spec (len s) 3); [exists false; reflexivity|].
  rewrite truediv_ok by lia. cbn [bind].
  destruct (PyFloat.ltb _ _); eexists; reflexivity.
Qed.

Lemma cross_asian_pattern2_total s :
  3 < len s -> exists b, cross_asian_pattern2 s = Ok b.
Proof.
  intros H. unfold cross_asian_pattern2.
  destruct (_ && _); [|exists false; reflexivity].
  destruct (2 <=? _); [|exists false; reflexivity].
  rewrite truediv_ok by lia. eexists. reflexivity.
Qed.

Lemma is_likely_misencoded_cross_asian_total s encoding :
  exists b, _is_likely_misencoded_cross_asian s encoding = Ok b.
Proof.
  unfold _is_likely_misencoded_cross_asian.
  destruct (Z.leb_spec (len s) 3) as [H|H]; [exists false; reflexivity|].
  destruct (cross_asian_pattern2_total s H) as [b2 Hb2].
  destruct (String.eqb encoding "shift_jis").
  - rewrite truediv_ok by lia. cbn [bind].
    destruct (PyFloat.ltb _ _); [exists true; reflexivity|].
    destruct (name_in _ _); [exists b2; exact Hb2|exists false; reflexivity].
  - cbn [bind].
    destruct (name_in _ _); [exists b2; exact Hb2|exists false; reflexivity].
Qed.

Section EngineFacts.

Variable decode : string -> bytes -> decode_outcome.

Lemma passes_functional encoding content s s' :
  passes decode encoding content s -> passes decode encoding content s' ->
  s = s'.
Proof. intros (H & _) (H' & _). congruence. Qed.

(** One turn of the loop: it returns the decoded text when the three
    checks let it through, it goes on otherwise; it never raises. *)
Lemma try_encoding_spec encoding content :
  (exists s, passes decode encoding content s /\
             try_encoding decode encoding content = Ok (Return s)) \/
  ((forall s, ~ passes decode encoding content s) /\
   try_encoding decode encoding content = Ok Next).
Proof.
  unfold try_encoding, passes.
  destruct (decode encoding content) as [s| |] eqn:D; cbn [raise_outcome bind];
    try (right; split; [intros s' (Hd & _); discriminate|reflexivity]).
  destruct (is_likely_text_total s) as [l Hl]. rewrite Hl. cbn [bind].
  destruct l; cbn [negb];
    [|right; split; [intros s' (Hd & Hl' & _)|reflexivity];
      injection Hd as <-; congruence].
  destruct (is_likely_misencoded_asian_text_total s encoding) as [w Hw].
  rewrite Hw. cbn [bind].
  destruct w;
    [right; split; [intros s' (Hd & _ & Hw' & _)|reflexivity];
     injection Hd as <-; congruence|].
  destruct (is_likely_misencoded_cross_asian_total s encoding) as [x Hx].
  rewrite Hx. cbn [bind].
  destruct x;
    [right; split; [intros s' (Hd & _ & _ & Hx')|reflexivity];
     injection Hd as <-; congruence|].
  left. exists s. cbn [try_except]. repeat split; assumption.
Qed.

Lemma for_encodings_spec content : forall encodings,
  (forall s,
     for_encodings decode encodings content = Ok (Some s) <->
     exists tried encoding rest,
       encodings = (tried ++ encoding :: rest)%list /\
       passes decode encoding content s /\
       forall e, In e tried -> forall s', ~ passes decode e content s') /\
  (for_encodings decode encodings content = Ok None <->
   forall e, In e encodings -> forall s', ~ passes decode e content s') /\
  (exists r, for_encodings decode encodings content = Ok r).
Proof.
  induction encodings as [|enc encs (IHs & IHn & IHr)]; cbn [for_encodings].
  - split; [|split].
    + intros s. split; [discriminate|].
      intros (tried & e & rest & H & _). destruct tried; discriminate.
    + split; [intros _ e []|reflexivity].
    + eexists. reflexivity.
  - destruct (try_encoding_spec enc content) as [(s0 & Hp & ->)|(Hn & ->)];
      cbn [bind].
    + split; [|split].
      * intros s. split.
        -- intros [= <-]. exists [], enc, encs. split; [reflexivity|split; [assumption|]].
           intros e [].
        -- intros (tried & e & rest & H & Hs & Hpre).
           destruct tried as [|t tried]; cbn [app] in H;
             [injection H as <- <-|injection H as <- ->].
           ++ do 2 f_equal. eapply passes_functional; eassumption.
           ++ exfalso. apply (Hpre enc (or_introl eq_refl) s0 Hp).
      * split; [discriminate|].
        intros H. exfalso. apply (H enc (or_introl eq_refl) s0 Hp).
      * eexists. reflexivity.
    + split; [|split].
      * intros s. rewrite IHs. split.
        -- intros (tried & e & rest & -> & Hs & Hpre).
           exists (enc :: tried), e, rest. split; [reflexivity|split; [assumption|]].
           intros e' [<-|Hin]; [apply Hn|apply Hpre, Hin].
        -- intros (tried & e & rest & H & Hs & Hpre).
           destruct tried as [|t tried]; cbn [app] in H;
             [injection H as <- <-|injection H as <- ->].
           ++ exfalso. apply (Hn s Hs).
           ++ exists tried, e, rest. split; [reflexivity|split; [assumption|]].
              intros e' Hin. apply Hpre. right. exact Hin.
      * rewrite IHn. split.
        -- intros H e [<-|Hin]; [apply Hn|apply H, Hin].
        -- intros H e Hin. apply H. right. exact Hin.
      * exact IHr.
Qed.

(** The fast path: only the plausibility filter stands between a UTF-8
    decoding and the result. *)
Lemma try_utf8_spec content :
  decode "utf-8" content <> UnknownEncoding ->
  (exists s, decode "utf-8" content = Decoded s /\
             _is_likely_text s = Ok true /\
             try_utf8 decode content = Ok (Return s)) \/
  ((forall s, ~ (decode "utf-8" content = Decoded s /\
                 _is_likely_text s = Ok true)) /\
   try_utf8 decode content = Ok Next).
Proof.
  intros Hk. unfold try_utf8.
  destruct (decode "utf-8" content) as [s| |] eqn:D; cbn [raise_outcome bind];
    [|right; split; [intros s' (Hd & _); discriminate|reflexivity]
     |contradiction].
  destruct (is_likely_text_total s) as [l Hl]. rewrite Hl. cbn [bind].
  destruct l.
  - left. exists s. repeat split; assumption.
  - right. split; [|reflexivity].
    intros s' (Hd & Hl'). injection Hd as <-. congruence.
Qed.

Lemma utf8_not_common : ~ In "utf-8" common_encodings.
Proof. cbn. intuition discriminate. Qed.

Lemma accepted_utf8 content s :
  accepted decode "utf-8" content s <->
  decode "utf-8" content = Decoded s /\ _is_likely_text s = Ok true.
Proof.
  unfold accepted. split.
  - intros (H1 & H2 & _). split; assumption.
  - intros (H1 & H2). repeat split; try assumption; contradiction.
Qed.

Lemma accepted_common encoding content s :
  In encoding common_encodings ->
  (accepted decode encoding content s <-> passes decode encoding content s).
Proof.
  intros Hin.
  assert (Hne : encoding <> "utf-8")
    by (intros ->; apply utf8_not_common, Hin).
  unfold accepted, passes. split.
  - intros (H1 & H2 & H3). destruct (H3 Hne). repeat split; assumption.
  - intros (H1 & H2 & H3 & H4). repeat split; assumption.
Qed.

End EngineFacts.

(** *** What the engine needs from the runtime *)

Lemma prepend_known c o : prepend c o = UnknownEncoding -> o = UnknownEncoding.
Proof. destruct o; [discriminate|discriminate|reflexivity]. Qed.

Lemma utf8_decode_known_upto n : forall content,
  (List.length content <= n)%nat -> utf8_decode content <> UnknownEncoding.
Proof.
  induction n as [|n IH]; intros content Hlen.
  - destruct content; [discriminate|cbn in Hlen; lia].
  - destruct content as [|b0 r0]; [discriminate|].
    cbn [List.length] in Hlen. cbn [utf8_decode]. cbv zeta.
    assert (H0 : utf8_decode r0 <> UnknownEncoding) by (apply IH; lia).
    destruct (_ <? 128)%N; [intros E; apply prepend_known in E; contradiction|].
    destruct (_ <? 194)%N; [discriminate|].
    destruct (_ <? 224)%N.
    { destruct r0 as [|b1 r1]; [discriminate|]. cbn [List.length] in Hlen.
      destruct (is_continuation _); [|discriminate].
      intros E; apply prepend_known in E. revert E. apply IH. lia. }
    destruct (_ <? 240)%N.
    { destruct r0 as [|b1 [|b2 r2]]; try discriminate. cbn [List.length] in Hlen.
      destruct (_ && _); [|discriminate].
      intros E; apply prepend_known in E. revert E. apply IH. lia. }
    destruct (_ <? 245)%N; [|discriminate].
    destruct r0 as [|b1 [|b2 [|b3 r3]]]; try discriminate.
    cbn [List.length] in Hlen.
    destruct (_ && _); [|discriminate].
    intros E; apply prepend_known in E. revert E. apply IH. lia.
Qed.

Lemma py_decode_utf8_known cjk : utf8_known (py_decode cjk).
Proof.
  intros content. change (utf8_decode content <> UnknownEncoding).
  apply (utf8_decode_known_upto (List.length content)). lia.
Qed.

Lemma py_decode_latin1 cjk content :
  py_decode cjk "latin-1" content = Decoded (latin1_decode content).
Proof. reflexivity. Qed.

Section FirstAccepted.

Variable decode : string -> bytes -> decode_outcome.
Hypothesis Hutf8 : utf8_known decode.

Lemma decode_with_fallback_cases content :
  (exists s, accepted decode "utf-8" content s /\
             decode_with_fallback decode content = Ok (Some s)) \/
  ((forall s, ~ accepted decode "utf-8" content s) /\
   decode_with_fallback decode content
   = for_encodings decode common_encodings content).
Proof.
  unfold decode_with_fallback.
  destruct (try_utf8_spec decode content (Hutf8 content))
    as [(s & Hd & Hl & ->)|(Hn & ->)]; cbn [bind].
  - left. exists s. split; [apply accepted_utf8; split; assumption|reflexivity].
  - right. split; [|reflexivity].
    intros s Ha. apply accepted_utf8 in Ha. exact (Hn s Ha).
Qed.

Lemma not_passes_not_accepted tried content :
  (forall e, In e tried -> In e common_encodings) ->
  (forall e, In e tried -> forall s, ~ passes decode e content s) ->
  forall e, In e tried -> forall s, ~ accepted decode e content s.
Proof.
  intros Hsub Hn e Hin s Ha.
  apply (accepted_common decode e content s (Hsub e Hin)) in Ha.
  exact (Hn e Hin s Ha).
Qed.

(** The engine and the first accepted candidate. *)
Lemma first_accepted_spec (content : bytes) :
  candidates = [ "utf-8"; "shift_jis"; "euc-kr"; "big5"; "gbk"; "gb2312";
                 "cp1251"; "iso-8859-2"; "cp1252"; "latin-1" ] /\
  (forall s,
     decode_with_fallback decode content = Ok (Some s) <->
     exists tried encoding rest,
       candidates = (tried ++ encoding :: rest)%list /\
       accepted decode encoding content s /\
       forall e, In e tried -> forall s', ~ accepted decode e content s') /\
  (decode_with_fallback decode content = Ok None <->
   forall e, In e candidates -> forall s, ~ accepted decode e content s) /\
  (exists r, decode_with_fallback decode content = Ok r).
Proof.
  destruct (for_encodings_spec decode content common_encodings)
    as (Hs & Hn & Hr).
  split; [reflexivity|].
  destruct (decode_with_fallback_cases content)
    as [(s0 & Ha & E)|(Hna & E)]; rewrite E.
  - split; [|split].
    + intros s. split.
      * intros [= <-]. exists [], "utf-8", common_encodings.
        split; [reflexivity|split; [assumption|intros e []]].
      * intros (tried & e & rest & H & Hacc & Hpre).
        destruct tried as [|t tried]; cbn [app] in H; unfold candidates in H;
          [injection H as <- <-|injection H as <- Hc].
        -- do 2 f_equal. destruct Ha as (Ha & _), Hacc as (Hacc & _).
           congruence.
        -- exfalso. apply (Hpre "utf-8" (or_introl eq_refl) s0 Ha).
    + split; [discriminate|].
      intros H. exfalso. apply (H "utf-8" (or_introl eq_refl) s0 Ha).
    + eexists. reflexivity.
  - split; [|split].
    + intros s. rewrite Hs. split.
      * intros (tried & e & rest & Hc & Hp & Hpre).
        exists ("utf-8" :: tried), e, rest.
        split; [unfold candidates; rewrite Hc; reflexivity|].
        assert (Hin : forall x, In x (tried ++ e :: rest)%list ->
                                In x common_encodings)
          by (intros x; rewrite Hc; trivial).
        split.
        -- apply accepted_common; [|assumption].
           apply Hin, in_or_app. right. left. reflexivity.
        -- intros e' [<-|Hin']; [apply Hna|].
           apply (not_passes_not_accepted tried content); try assumption.
           intros x Hx. apply Hin, in_or_app. left. exact Hx.
      * intros (tried & e & rest & H & Hacc & Hpre).
        destruct tried as [|t tried]; cbn [app] in H; unfold candidates in H;
          [injection H as <- <-|injection H as <- Hc].
        -- exfalso. exact (Hna s Hacc).
        -- exists tried, e, rest. split; [exact Hc|].
           assert (Hin : forall x, In x (tried ++ e :: rest)%list ->
                                   In x common_encodings)
             by (intros x; rewrite Hc; trivial).
           split.
           ++ apply accepted_common; [|assumption].
              apply Hin, in_or_app. right. left. reflexivity.
           ++ intros e' Hin' s' Hp.
              apply (Hpre e' (or_intror Hin') s').
              apply accepted_common; [|assumption].
              apply Hin, in_or_app. left. exact Hin'.
    + rewrite Hn. split.
      * intros H e [<-|Hin]; [apply Hna|].
        intros s Hacc. apply accepted_common in Hacc; [|assumption].
        exact (H e Hin s Hacc).
      * intros H e Hin s Hp. apply (H e (or_intror Hin) s).
        apply accepted_common; assumption.
    + exact Hr.
Qed.

(** Failing candidates are skipped and nothing is raised. *)
Lemma failures_recovered_spec (content : bytes) :
  (forall encoding rest,
     decode encoding content = InvalidBytes \/
     decode encoding content = UnknownEncoding ->
     try_encoding decode encoding content = Ok Next /\
     for_encodings decode (encoding :: rest) content
     = for_encodings decode rest content) /\
  (decode "utf-8" content = InvalidBytes ->
   try_utf8 decode content = Ok Next) /\
  for_encodings decode [] content = Ok None /\
  (exists r, decode_with_fallback decode content = Ok r) /\
  ((forall e, In e candidates -> forall s, decode e content <> Decoded s) ->
   decode_with_fallback decode content = Ok None).
Proof.
  split; [|split; [|split; [reflexivity|split]]].
  - intros encoding rest H.
    assert (E : try_encoding decode encoding content = Ok Next)
      by (unfold try_encoding; destruct H as [-> | ->]; reflexivity).
    split; [exact E|]. cbn [for_encodings]. rewrite E. reflexivity.
  - intros H. unfold try_utf8. rewrite H. reflexivity.
  - apply first_accepted_spec.
  - intros H. apply first_accepted_spec.
    intros e Hin s (Hd & _). exact (H e Hin s Hd).
Qed.

(** The engine only ever returns text that passed the plausibility
    filter. *)
Lemma decode_with_fallback_plausible content s :
  decode_with_fallback decode content = Ok (Some s) ->
  _is_likely_text s = Ok true.
Proof.
  intros H. apply first_accepted_spec in H.
  destruct H as (_ & _ & _ & _ & (_ & Hl & _) & _). exact Hl.
Qed.

Hypothesis Hlatin1 :
  forall content, decode "latin-1" content = Decoded (latin1_decode content).

(** Latin-1 is the candidate of last resort. *)
Lemma latin1_last_resort_spec (content : bytes) :
  List.length (latin1_decode content) = List.length content /\
  (forall s, _is_likely_misencoded_cross_asian s "latin-1" = Ok false) /\
  (decode_with_fallback decode content = Ok None ->
   content <> [] /\
   (_is_likely_text (latin1_decode content) = Ok false \/
    _is_likely_misencoded_asian_text (latin1_decode content) "latin-1"
    = Ok true)) /\
  (_is_likely_text (latin1_decode content) = Ok true ->
   _is_likely_misencoded_asian_text (latin1_decode content) "latin-1"
   = Ok false ->
   exists s, decode_with_fallback decode content = Ok (Some s)).
Proof.
  assert (Hcross : forall s,
            _is_likely_misencoded_cross_asian s "latin-1" = Ok false).
  { intros s. unfold _is_likely_misencoded_cross_asian.
    destruct (len s <=? 3); reflexivity. }
  assert (Hin : In "latin-1" candidates) by (cbn; tauto).
  destruct (first_accepted_spec content)
    as (_ & _ & Hnone & (r & Hr)).
  split; [apply length_map|]. split; [exact Hcross|]. split.
  - intros H. rewrite Hnone in H.
    assert (Hrej : _is_likely_text (latin1_decode content) = Ok false \/
                   _is_likely_misencoded_asian_text
                     (latin1_decode content) "latin-1" = Ok true).
    { destruct (is_likely_text_total (latin1_decode content)) as [[|] Hl];
        [|left; exact Hl].
      destruct (is_likely_misencoded_asian_text_total
                  (latin1_decode content) "latin-1") as [[|] Hw];
        [right; exact Hw|].
      exfalso. apply (H "latin-1" Hin (latin1_decode content)).
      split; [apply Hlatin1|]. split; [exact Hl|].
      intros _. split; [exact Hw|apply Hcross]. }
    split; [|exact Hrej].
    intros ->. destruct Hrej as [Hl|Hw]; discriminate.
  - intros Hl Hw. destruct r as [s|]; [exists s; exact Hr|].
    exfalso. rewrite Hnone in Hr.
    apply (Hr "latin-1" Hin (latin1_decode content)).
    split; [apply Hlatin1|]. split; [exact Hl|].
    intros _. split; [exact Hw|apply Hcross].
Qed.

End FirstAccepted.

(** C1.  The engine returns the text of the first candidate accepted, the
    candidates being UTF-8 and then shift_jis, euc-kr, big5, gbk, gb2312,
    cp1251, iso-8859-2, cp1252, latin-1 in this order; it returns [None]
    exactly when no candidate is accepted; the result is always the whole
    decoded text of one candidate, or [None]. *)
Theorem decode_with_fallback_first_accepted
    (decode : string -> bytes -> decode_outcome) (Hutf8 : utf8_known decode)
    (content : bytes) :
  candidates = [ "utf-8"; "shift_jis"; "euc-kr"; "big5"; "gbk"; "gb2312";
                 "cp1251"; "iso-8859-2"; "cp1252"; "latin-1" ] /\
  (forall s,
     decode_with_fallback decode content = Ok (Some s) <->
     exists tried encoding rest,
       candidates = (tried ++ encoding :: rest)%list /\
       accepted decode encoding content s /\
       forall e, In e tried -> forall s', ~ accepted decode e content s') /\
  (decode_with_fallback decode content = Ok None <->
   forall e, In e candidates -> forall s, ~ accepted decode e content s) /\
  (exists r, decode_with_fallback decode content = Ok r).
Proof. exact (first_accepted_spec decode Hutf8 content). Qed.

(** C9.  A candidate whose decoding fails, on invalid bytes or on an unknown
    name, makes the loop go on with the next candidate; the engine raises
    nothing; a buffer no candidate decodes gives [None]. *)
Theorem decode_failures_recovered
    (decode : string -> bytes -> decode_outcome) (Hutf8 : utf8_known decode)
    (content : bytes) :
  (forall encoding rest,
     decode encoding content = InvalidBytes \/
     decode encoding content = UnknownEncoding ->
     try_encoding decode encoding content = Ok Next /\
     for_encodings decode (encoding :: rest) content
     = for_encodings decode rest content) /\
  (decode "utf-8" content = InvalidBytes ->
   try_utf8 decode content = Ok Next) /\
  for_encodings decode [] content = Ok None /\
  (exists r, decode_with_fallback decode content = Ok r) /\
  ((forall e, In e candidates -> forall s, decode e content <> Decoded s) ->
   decode_with_fallback decode content = Ok None).
Proof. exact (failures_recovered_spec decode Hutf8 content). Qed.

(** C10.  Latin-1 decodes every buffer, one code point per byte, and the
    cross-Asian heuristic never flags it; so the engine returns [None] only
    on a non-empty buffer whose Latin-1 decoding the plausibility filter or
    the Western heuristic rejects, and a buffer whose Latin-1 decoding
    passes both always gives a string. *)
Theorem none_only_if_latin1_rejected
    (decode : string -> bytes -> decode_outcome) (Hutf8 : utf8_known decode)
    (Hlatin1 : forall content,
        decode "latin-1" content = Decoded (latin1_decode content))
    (content : bytes) :
  List.length (latin1_decode content) = List.length content /\
  (forall s, _is_likely_misencoded_cross_asian s "latin-1" = Ok false) /\
  (decode_with_fallback decode content = Ok None ->
   content <> [] /\
   (_is_likely_text (latin1_decode content) = Ok false \/
    _is_likely_misencoded_asian_text (latin1_decode content) "latin-1"
    = Ok true)) /\
  (_is_likely_text (latin1_decode content) = Ok true ->
   _is_likely_misencoded_asian_text (latin1_decode content) "latin-1"
   = Ok false ->
   exists s, decode_with_fallback decode content = Ok (Some s)).
Proof. exact (latin1_last_resort_spec decode Hutf8 Hlatin1 content). Qed.

(** ** The runtime codecs *)

Lemma to_N_byte_of_N n : (n < 256)%N -> Byte.to_N (byte_of_N n) = n.
Proof.
  intros H. unfold byte_of_N.
  destruct (Byte.of_N n) as [b|] eqn:E.
  - apply Byte.to_of_N. exact E.
  - apply Byte.of_N_None_iff in E. lia.
Qed.

Lemma Some_eq {A : Type} (a b : A) : Some a = Some b -> a = b.
Proof. intros H. injection H. trivial. Qed.

Ltac split_tests :=
  repeat match goal with
         | |- context [(?a =? ?b)%N] => destruct (N.eqb_spec a b); try lia
         | |- context [(?a <? ?b)%N] => destruct (N.ltb_spec a b); try lia
         | |- context [(?a <=? ?b)%N] => destruct (N.leb_spec a b); try lia
         end.

Lemma utf8_decode_encode_char c bs rest :
  utf8_encode_char c = Some bs ->
  utf8_decode (bs ++ rest)%list = prepend c (utf8_decode rest).
Proof.
  unfold utf8_encode_char.
  pose proof (N.div_mod' c 64) as D1. pose proof (N.mod_lt c 64 ltac:(lia)) as M1.
  pose proof (N.div_mod' (c / 64) 64) as D2.
  pose proof (N.mod_lt (c / 64) 64 ltac:(lia)) as M2.
  pose proof (N.div_mod' (c / 4096) 64) as D3.
  pose proof (N.mod_lt (c / 4096) 64 ltac:(lia)) as M3.
  assert (E2 : (c / 64 / 64 = c / 4096)%N) by (rewrite N.Div0.div_div by lia; reflexivity).
  assert (E3 : (c / 4096 / 64 = c / 262144)%N) by (rewrite N.Div0.div_div by lia; reflexivity).
  rewrite E2 in D2. rewrite E3 in D3. clear E2 E3.
  set (q1 := (c / 64)%N) in *. set (r1 := (c mod 64)%N) in *.
  set (q2 := (c / 4096)%N) in *. set (r2 := (q1 mod 64)%N) in *.
  set (q3 := (c / 262144)%N) in *. set (r3 := (q2 mod 64)%N) in *.
  clearbody q1 r1 q2 r2 q3 r3.
  destruct (N.ltb_spec c 128).
  { intros E; apply Some_eq in E; subst bs. cbn [app utf8_decode]. cbv zeta.
    rewrite to_N_byte_of_N by lia. split_tests. reflexivity. }
  destruct (N.ltb_spec c 2048).
  { intros E; apply Some_eq in E; subst bs. cbn [app utf8_decode]. cbv zeta.
    rewrite !to_N_byte_of_N by lia. unfold is_continuation. split_tests.
    cbn [andb]. f_equal. lia. }
  destruct (N.ltb_spec c 65536).
  { destruct (N.leb_spec 55296 c); destruct (N.leb_spec c 57343); cbn [andb];
      try discriminate;
      intros E; apply Some_eq in E; subst bs; cbn [app utf8_decode]; cbv zeta;
      rewrite !to_N_byte_of_N by lia; unfold is_continuation; split_tests;
      cbn [andb]; f_equal; lia. }
  destruct (N.ltb_spec c 1114112); [|discriminate].
  intros E; apply Some_eq in E; subst bs. cbn [app utf8_decode]. cbv zeta.
  rewrite !to_N_byte_of_N by lia. unfold is_continuation. split_tests;
    cbn [andb]; f_equal; lia.
Qed.

Lemma utf8_decode_encode s : forall bs,
  utf8_encode s = Some bs -> utf8_decode bs = Decoded s.
Proof.
  induction s as [|c s IH]; intros bs; cbn [utf8_encode].
  - intros E. apply Some_eq in E. subst bs. reflexivity.
  - destruct (utf8_encode_char c) as [b|] eqn:Ec; [|discriminate].
    destruct (utf8_encode s) as [b'|]; [|discriminate].
    intros E. apply Some_eq in E. subst bs.
    rewrite (utf8_decode_encode_char c b b' Ec), (IH b' eq_refl). reflexivity.
Qed.

(** ** Observed codecs *)

Lemma bytes_eqb_eq a b : bytes_eqb a b = true -> a = b.
Proof.
  unfold bytes_eqb. destruct (list_eq_dec Byte.byte_eq_dec a b);
    [trivial|discriminate].
Qed.

Lemma agrees_lookup cjk observations :
  agrees cjk observations ->
  forall encoding content,
    key_in observations encoding content = true ->
    cjk encoding content = recorded observations encoding content.
Proof.
  unfold agrees. induction 1 as [|x rest Hhead Htail IH];
    intros encoding content Hkey; [discriminate|].
  destruct x as [[e b] o].
  cbn [key_in existsb fst snd] in Hkey. cbn [recorded].
  cbn [fst snd] in Hhead.
  destruct (String.eqb encoding e && bytes_eqb content b) eqn:E.
  - apply andb_true_iff in E. destruct E as [E1 E2].
    apply String.eqb_eq in E1. apply bytes_eqb_eq in E2.
    subst encoding content. exact Hhead.
  - apply IH. exact Hkey.
Qed.

Lemma py_decode_covered cjk observations encoding content :
  agrees cjk observations ->
  is_modelled encoding || key_in observations encoding content = true ->
  py_decode cjk encoding content
  = py_decode (recorded observations) encoding content.
Proof.
  intros Hobs Hcov. unfold py_decode, is_modelled in *.
  destruct (String.eqb encoding "utf-8"); [reflexivity|].
  destruct (name_in encoding ["latin-1"; "iso-8859-1"]); [reflexivity|].
  destruct (String.eqb encoding "cp1251"); [reflexivity|].
  destruct (String.eqb encoding "iso-8859-2"); [reflexivity|].
  destruct (String.eqb encoding "cp1252"); [reflexivity|].
  cbn [orb] in Hcov. apply agrees_lookup; assumption.
Qed.

Lemma for_encodings_ext d1 d2 content : forall encodings,
  (forall e, In e encodings -> d1 e content = d2 e content) ->
  for_encodings d1 encodings content = for_encodings d2 encodings content.
Proof.
  induction encodings as [|e rest IH]; intros H; [reflexivity|].
  cbn [for_encodings]. unfold try_encoding.
  rewrite (H e (or_introl eq_refl)), IH; [reflexivity|].
  intros e' Hin. apply H. right. exact Hin.
Qed.

Lemma decode_with_fallback_ext d1 d2 content :
  (forall e, In e candidates -> d1 e content = d2 e content) ->
  decode_with_fallback d1 content = decode_with_fallback d2 content.
Proof.
  intros H. unfold decode_with_fallback, try_utf8.
  rewrite (H "utf-8" (or_introl eq_refl)).
  rewrite (for_encodings_ext d1 d2 content common_encodings); [reflexivity|].
  intros e Hin. apply H. right. exact Hin.
Qed.

(** On a covered buffer the engine does what it does with the recorded
    codecs. *)
Lemma engine_on_covered cjk observations content :
  agrees cjk observations ->
  covered observations content = true ->
  decode_with_fallback (py_decode cjk) content
  = decode_with_fallback (py_decode (recorded observations)) content.
Proof.
  intros Hobs Hcov. apply decode_with_fallback_ext.
  intros e Hin. apply py_decode_covered; [assumption|].
  unfold covered in Hcov. rewrite forallb_forall in Hcov. apply Hcov, Hin.
Qed.

Lemma agrees_recorded : agrees (recorded cjk_observations) cjk_observations.
Proof. unfold agrees, cjk_observations. repeat constructor. Qed.

(** ** The documented behaviour *)

Lemma fast_path_returns decode content s :
  decode "utf-8" content = Decoded s ->
  _is_likely_text s = Ok true ->
  decode_with_fallback decode content = Ok (Some s).
Proof.
  intros Hd Hl. unfold decode_with_fallback, try_utf8.
  rewrite Hd. cbn [raise_outcome bind]. rewrite Hl. reflexivity.
Qed.

(** C5.  A buffer whose UTF-8 decoding succeeds and passes the plausibility
    filter comes back as that decoding, whatever the mismatch heuristics
    would say; the empty buffer gives the empty string; when the UTF-8
    decoding fails or is implausible the result is that of the loop over
    the ordered list, in which UTF-8 does not occur. *)
Theorem fast_path_contract (decode : string -> bytes -> decode_outcome)
    (cjk : string -> bytes -> decode_outcome) (content : bytes) :
  (forall s, decode "utf-8" content = Decoded s ->
             _is_likely_text s = Ok true ->
             decode_with_fallback decode content = Ok (Some s)) /\
  decode_with_fallback (py_decode cjk) [] = Ok (Some []) /\
  (decode "utf-8" content = InvalidBytes \/
   (exists s, decode "utf-8" content = Decoded s /\
              _is_likely_text s = Ok false) ->
   decode_with_fallback decode content
   = for_encodings decode common_encodings content) /\
  ~ In "utf-8" common_encodings.
Proof.
  split; [|split; [reflexivity|split; [|apply utf8_not_common]]].
  - intros s. apply fast_path_returns.
  - intros [Hd|(s & Hd & Hl)]; unfold decode_with_fallback, try_utf8;
      rewrite Hd; cbn [raise_outcome bind]; [|rewrite Hl]; reflexivity.
Qed.

Lemma fast_path_contract_witness :
  py_decode (recorded cjk_observations) "utf-8" (encoded rt_utf8)
  = Decoded (text rt_utf8) /\
  _is_likely_text (text rt_utf8) = Ok true /\
  decode_with_fallback (py_decode (recorded cjk_observations))
    (encoded rt_utf8) = Ok (Some (text rt_utf8)).
Proof.
  split; [reflexivity|split; [reflexivity|]].
  exact (proj1 (fast_path_contract (py_decode (recorded cjk_observations))
                  (recorded cjk_observations) (encoded rt_utf8))
           (text rt_utf8) eq_refl eq_refl).
Defined.

Lemma decode_with_fallback_first_accepted_witness :
  utf8_known (py_decode (recorded cjk_observations)) /\
  (decode_with_fallback (py_decode (recorded cjk_observations))
     bin_jpeg = Ok None <->
   forall e, In e candidates ->
   forall s, ~ accepted (py_decode (recorded cjk_observations)) e
                 bin_jpeg s).
Proof.
  split; [apply py_decode_utf8_known|].
  exact (proj1 (proj2 (proj2
           (decode_with_fallback_first_accepted
              (py_decode (recorded cjk_observations))
              (py_decode_utf8_known (recorded cjk_observations))
              bin_jpeg)))).
Defined.

Lemma decode_failures_recovered_witness :
  utf8_known (py_decode (recorded cjk_observations)) /\
  exists r, decode_with_fallback (py_decode (recorded cjk_observations))
              bin_jpeg = Ok r.
Proof.
  split; [apply py_decode_utf8_known|].
  exact (proj1 (proj2 (proj2 (proj2
           (decode_failures_recovered
              (py_decode (recorded cjk_observations))
              (py_decode_utf8_known (recorded cjk_observations))
              bin_jpeg))))).
Defined.

Lemma none_only_if_latin1_rejected_witness :
  utf8_known (py_decode (recorded cjk_observations)) /\
  (forall content,
     py_decode (recorded cjk_observations) "latin-1" content
     = Decoded (latin1_decode content)) /\
  (decode_with_fallback (py_decode (recorded cjk_observations)) bin_jpeg
   = Ok None ->
   bin_jpeg <> [] /\
   (_is_likely_text (latin1_decode bin_jpeg) = Ok false \/
    _is_likely_misencoded_asian_text (latin1_decode bin_jpeg) "latin-1"
    = Ok true)).
Proof.
  split; [apply py_decode_utf8_known|].
  split; [apply py_decode_latin1|].
  exact (proj1 (proj2 (proj2
           (none_only_if_latin1_rejected
              (py_decode (recorded cjk_observations))
              (py_decode_utf8_known (recorded cjk_observations))
              (py_decode_latin1 (recorded cjk_observations))
              bin_jpeg)))).
Defined.

Ltac on_recorded Hobs :=
  first [ rewrite (py_decode_covered _ _ _ _ Hobs) by reflexivity
        | rewrite (engine_on_covered _ _ _ Hobs) by reflexivity ];
  vm_compute; reflexivity.

(** C6, as the code has it.  Encoding then running the engine gives the
    plaintext back for every UTF-8 plaintext that passes the plausibility
    filter, and for the six documented inputs: ASCII text in UTF-8, CP1252
    text with the trademark sign, Shift-JIS Japanese, EUC-KR Korean, Big5
    Traditional Chinese and CP1251 Cyrillic. *)
Theorem roundtrip_documented (cjk : string -> bytes -> decode_outcome)
    (Hobs : agrees cjk cjk_observations) :
  (forall s content,
     utf8_encode s = Some content ->
     _is_likely_text s = Ok true ->
     decode_with_fallback (py_decode cjk) content = Ok (Some s)) /\
  utf8_encode (text rt_utf8) = Some (encoded rt_utf8) /\
  Forall (fun v =>
            py_decode cjk (encoding v) (encoded v) = Decoded (text v) /\
            decode_with_fallback (py_decode cjk) (encoded v)
            = Ok (Some (text v)))
    [rt_utf8; rt_cp1252; rt_shift_jis; rt_euc_kr; rt_big5; rt_cp1251].
Proof.
  split; [|split; [reflexivity|]].
  - intros s content He Hl.
    apply fast_path_returns; [|exact Hl].
    change (utf8_decode content = Decoded s).
    apply utf8_decode_encode, He.
  - repeat constructor; on_recorded Hobs.
Qed.

Lemma roundtrip_documented_witness :
  agrees (recorded cjk_observations) cjk_observations /\
  decode_with_fallback (py_decode (recorded cjk_observations))
    (encoded rt_utf8) = Ok (Some (text rt_utf8)).
Proof.
  split; [exact agrees_recorded|].
  exact (proj1 (roundtrip_documented (recorded cjk_observations)
                  agrees_recorded)
           (text rt_utf8) (encoded rt_utf8) eq_refl eq_refl).
Defined.

(** C6, as the specification has it, fails: the UTF-8 encoding of the one
    character U+0000 comes back as [None], and the CP1251 encoding of the
    Cyrillic word of [cx_cp1251] comes back as three ideographs, EUC-KR
    being tried first. *)
Lemma roundtrip_counterexample :
  (utf8_encode [0%N] = Some bin_nul /\
   decode_with_fallback (py_decode (recorded cjk_observations)) bin_nul
   = Ok None) /\
  (py_decode (recorded cjk_observations) "cp1251" (encoded cx_cp1251)
   = Decoded (text cx_cp1251) /\
   decode_with_fallback (py_decode (recorded cjk_observations))
     (encoded cx_cp1251) = Ok (Some [0x53A5; 0x5916; 0x5944]%N) /\
   text cx_cp1251 <> [0x53A5; 0x5916; 0x5944]%N).
Proof.
  split; [split; vm_compute; reflexivity|].
  split; [vm_compute; reflexivity|split; [vm_compute; reflexivity|]].
  discriminate.
Qed.

(** Whatever the East Asian codecs answer, the engine does not give U+0000
    back. *)
Lemma control_text_not_returned cjk :
  decode_with_fallback (py_decode cjk) bin_nul <> Ok (Some [0%N]).
Proof.
  intros H.
  apply (decode_with_fallback_plausible (py_decode cjk)
           (py_decode_utf8_known cjk)) in H.
  discriminate.
Qed.

(** C7.  A buffer at least 70% of whose code points are control characters
    under every candidate that decodes it gives [None]; so do the four
    documented binary buffers. *)
Theorem binary_buffers_rejected (cjk : string -> bytes -> decode_outcome)
    (Hobs : agrees cjk cjk_observations) :
  (forall decode content,
     utf8_known decode ->
     (forall e s, In e candidates -> decode e content = Decoded s ->
                  s <> [] /\ len s < max_len /\
                  7 * len s <= 10 * count_if is_control s) ->
     decode_with_fallback decode content = Ok None) /\
  Forall (fun content =>
            decode_with_fallback (py_decode cjk) content = Ok None)
    [bin_bom_nulls; bin_nulls; bin_low_controls; bin_jpeg].
Proof.
  split.
  - intros decode content Hk H.
    apply (proj1 (proj2 (proj2
             (first_accepted_spec decode Hk content)))).
    intros e Hin s (Hd & Hl & _).
    destruct (H e s Hin Hd) as (Hne & Hlen & Hc).
    rewrite (is_likely_text_exact s Hne Hlen) in Hl.
    assert (0 < len s).
    { pose proof (len_nonneg s).
      destruct (Z.eq_dec (len s) 0) as [E|E]; [|lia].
      apply len_zero in E. contradiction. }
    assert (E : (10 * count_if is_control s <=? 3 * len s) = false)
      by (apply Z.leb_gt; lia).
    rewrite E in Hl. discriminate.
  - repeat constructor; on_recorded Hobs.
Qed.

Lemma binary_buffers_rejected_witness :
  agrees (recorded cjk_observations) cjk_observations /\
  Forall (fun content =>
            decode_with_fallback (py_decode (recorded cjk_observations))
              content = Ok None)
    [bin_bom_nulls; bin_nulls; bin_low_controls; bin_jpeg].
Proof.
  split; [exact agrees_recorded|].
  exact (proj2 (binary_buffers_rejected (recorded cjk_observations)
                  agrees_recorded)).
Defined.

(** C8.  On the four documented misdetections (Chinese in GBK, Chinese in
    GB2312, accented Western text in ISO-8859-1, Central European text in
    ISO-8859-2) the engine returns a string, not empty, other than the
    plaintext. *)
Theorem misdetected_samples (cjk : string -> bytes -> decode_outcome)
    (Hobs : agrees cjk cjk_observations) :
  Forall (fun v =>
            py_decode cjk (encoding v) (encoded v) = Decoded (text v) /\
            exists r,
              decode_with_fallback (py_decode cjk) (encoded v) = Ok (Some r) /\
              r <> [] /\ r <> text v)
    [md_gbk; md_gb2312; md_latin1; md_latin2].
Proof.
  repeat (apply Forall_cons || apply Forall_nil);
    (split; [on_recorded Hobs|]);
    rewrite (engine_on_covered _ _ _ Hobs) by reflexivity;
    eexists; (split; [vm_compute; reflexivity|split; discriminate]).
Qed.

Lemma misdetected_samples_witness :
  agrees (recorded cjk_observations) cjk_observations /\
  Forall (fun v =>
            py_decode (recorded cjk_observations) (encoding v) (encoded v)
            = Decoded (text v) /\
            exists r,
              decode_with_fallback (py_decode (recorded cjk_observations))
                (encoded v) = Ok (Some r) /\
              r <> [] /\ r <> text v)
    [md_gbk; md_gb2312; md_latin1; md_latin2].
Proof.
  split; [exact agrees_recorded|].
  exact (misdetected_samples (recorded cjk_observations) agrees_recorded).
Defined.

(** * Further results on the engine

    ** Counting through the codecs *)

Lemma is_control_high n : (32 <= n)%N -> is_control n = false.
Proof.
  intros H. unfold is_control, ord.
  destruct (N.ltb_spec n 32); [lia|reflexivity].
Qed.

Lemma control_bytes_cons b content :
  control_bytes (b :: content)
  = (if is_control (Byte.to_N b) then 1 else 0) + control_bytes content.
Proof. reflexivity. Qed.

Lemma len_latin1 content : len (latin1_decode content) = len content.
Proof. unfold len, latin1_decode. rewrite length_map. reflexivity. Qed.

(** The plausibility filter sees a string through two numbers only. *)
Lemma is_likely_text_by_counts s t :
  len s = len t -> count_if is_control s = count_if is_control t ->
  _is_likely_text s = _is_likely_text t.
Proof.
  intros Hl Hc. destruct s as [|a s], t as [|b t]; [reflexivity| | |].
  - rewrite len_cons in Hl. pose proof (len_nonneg t). cbv [len] in Hl.
    cbn in Hl. lia.
  - rewrite len_cons in Hl. pose proof (len_nonneg s). cbv [len] in Hl.
    cbn in Hl. lia.
  - unfold _is_likely_text. rewrite Hl, Hc. reflexivity.
Qed.

Lemma prepend_decoded c o s :
  prepend c o = Decoded s -> exists s', o = Decoded s' /\ s = c :: s'.
Proof.
  destruct o as [s'| |]; cbn [prepend]; intros H; try discriminate.
  injection H as <-. exists s'. split; reflexivity.
Qed.

Lemma charmap_decode_counts table
    (Htable : forall b c, charmap_lookup table b = Some c ->
                          is_control c = is_control (Byte.to_N b)) :
  forall content s,
    charmap_decode table content = Decoded s ->
    len s = len content /\ count_if is_control s = control_bytes content.
Proof.
  induction content as [|b rest IH]; intros s H; cbn [charmap_decode] in H.
  - injection H as <-. split; reflexivity.
  - destruct (charmap_lookup table b) as [c|] eqn:E; [|discriminate].
    apply prepend_decoded in H. destruct H as (s' & Hs' & ->).
    destruct (IH s' Hs') as (Hl & Hc).
    rewrite !len_cons, control_bytes_cons. cbn [count_if].
    rewrite (Htable b c E), Hl, Hc. split; reflexivity.
Qed.

Lemma charmap_decode_total table :
  forall content,
    (forall b, In b content -> charmap_lookup table b <> None) ->
    exists s, charmap_decode table content = Decoded s.
Proof.
  induction content as [|b rest IH]; intros H; cbn [charmap_decode].
  - exists []. reflexivity.
  - destruct (charmap_lookup table b) as [c|] eqn:E;
      [|exfalso; apply (H b (or_introl eq_refl) E)].
    destruct IH as (s & ->); [intros b' Hb'; apply H; right; exact Hb'|].
    exists (c :: s). reflexivity.
Qed.

Lemma charmap_decode_known table content :
  charmap_decode table content <> UnknownEncoding.
Proof.
  induction content as [|b rest IH]; cbn [charmap_decode]; [discriminate|].
  destruct (charmap_lookup table b); [|discriminate].
  intros H. apply prepend_known in H. contradiction.
Qed.

Lemma iso8859_2_lookup b :
  exists c, charmap_lookup iso8859_2_table b = Some c /\
            is_control c = is_control (Byte.to_N b).
Proof. destruct b; eexists; split; reflexivity. Qed.

Lemma cp1251_lookup_controls b c :
  charmap_lookup cp1251_table b = Some c ->
  is_control c = is_control (Byte.to_N b).
Proof.
  destruct b; intros H; vm_compute in H; try discriminate;
    injection H as <-; reflexivity.
Qed.

Lemma cp1252_lookup_controls b c :
  charmap_lookup cp1252_table b = Some c ->
  is_control c = is_control (Byte.to_N b).
Proof.
  destruct b; intros H; vm_compute in H; try discriminate;
    injection H as <-; reflexivity.
Qed.

Lemma cp1251_lookup_defined b :
  b <> Byte.x98 -> charmap_lookup cp1251_table b <> None.
Proof. destruct b; intros H; try discriminate. contradiction. Qed.

Lemma is_continuation_range n :
  is_continuation n = true -> (128 <= n <= 191)%N.
Proof.
  unfold is_continuation. rewrite andb_true_iff, !N.leb_le. trivial.
Qed.

(** UTF-8 decoding keeps the control characters and does not lengthen. *)
Lemma utf8_decode_counts_upto n : forall content s,
  (List.length content <= n)%nat ->
  utf8_decode content = Decoded s ->
  count_if is_control s = control_bytes content /\ len s <= len content.
Proof.
  induction n as [|n IH]; intros content s Hlen H.
  - destruct content; [|cbn in Hlen; lia].
    injection H as <-. split; [reflexivity|cbv; discriminate].
  - destruct content as [|b0 r0]; [injection H as <-; split;
                                    [reflexivity|cbv; discriminate]|].
    cbn [List.length] in Hlen. cbn [utf8_decode] in H. cbv zeta in H.
    rewrite control_bytes_cons, len_cons.
    destruct (N.ltb_spec (Byte.to_N b0) 128) as [A|A].
    { apply prepend_decoded in H. destruct H as (s' & Hs' & ->).
      destruct (IH r0 s' ltac:(lia) Hs') as (Hc & Hl).
      cbn [count_if]. rewrite len_cons, Hc. split; [reflexivity|lia]. }
    rewrite (is_control_high (Byte.to_N b0)) by lia.
    destruct (N.ltb_spec (Byte.to_N b0) 194) as [B|B]; [discriminate|].
    destruct (N.ltb_spec (Byte.to_N b0) 224) as [C|C].
    { destruct r0 as [|b1 r1]; [discriminate|]. cbn [List.length] in Hlen.
      destruct (is_continuation (Byte.to_N b1)) eqn:E1; [|discriminate].
      apply is_continuation_range in E1.
      apply prepend_decoded in H. destruct H as (s' & Hs' & ->).
      destruct (IH r1 s' ltac:(lia) Hs') as (Hc & Hl).
      rewrite control_bytes_cons, !len_cons. cbn [count_if].
      rewrite (is_control_high (Byte.to_N b1)) by lia.
      rewrite is_control_high by lia. rewrite Hc. split; lia. }
    destruct (N.ltb_spec (Byte.to_N b0) 240) as [D|D].
    { destruct r0 as [|b1 [|b2 r2]]; try discriminate.
      cbn [List.length] in Hlen.
      destruct (_ && _) eqn:E; [|discriminate].
      apply andb_true_iff in E. destruct E as [E E2].
      apply andb_true_iff in E. destruct E as [Elo Ehi].
      apply is_continuation_range in E2.
      apply N.leb_le in Elo.
      assert (Hb1 : (128 <= Byte.to_N b1)%N)
        by (destruct (Byte.to_N b0 =? 224)%N; lia).
      assert (Hcp : (32 <= (Byte.to_N b0 - 224) * 4096
                           + (Byte.to_N b1 - 128) * 64
                           + (Byte.to_N b2 - 128))%N).
      { destruct (N.eqb_spec (Byte.to_N b0) 224); lia. }
      apply prepend_decoded in H. destruct H as (s' & Hs' & ->).
      destruct (IH r2 s' ltac:(lia) Hs') as (Hc & Hl).
      rewrite !control_bytes_cons, !len_cons. cbn [count_if].
      rewrite (is_control_high (Byte.to_N b1)) by lia.
      rewrite (is_control_high (Byte.to_N b2)) by lia.
      rewrite (is_control_high _ Hcp). rewrite Hc. split; lia. }
    destruct (N.ltb_spec (Byte.to_N b0) 245) as [F|F]; [|discriminate].
    destruct r0 as [|b1 [|b2 [|b3 r3]]]; try discriminate.
    cbn [List.length] in Hlen.
    destruct (_ && _) eqn:E; [|discriminate].
    apply andb_true_iff in E. destruct E as [E E3].
    apply andb_true_iff in E. destruct E as [E E2].
    apply andb_true_iff in E. destruct E as [Elo Ehi].
    apply is_continuation_range in E2. apply is_continuation_range in E3.
    apply N.leb_le in Elo.
    assert (Hb1 : (128 <= Byte.to_N b1)%N)
      by (destruct (Byte.to_N b0 =? 240)%N; lia).
    assert (Hcp : (32 <= (Byte.to_N b0 - 240) * 262144
                         + (Byte.to_N b1 - 128) * 4096
                         + (Byte.to_N b2 - 128) * 64
                         + (Byte.to_N b3 - 128))%N).
    { destruct (N.eqb_spec (Byte.to_N b0) 240); lia. }
    apply prepend_decoded in H. destruct H as (s' & Hs' & ->).
    destruct (IH r3 s' ltac:(lia) Hs') as (Hc & Hl).
    rewrite !control_bytes_cons, !len_cons. cbn [count_if].
    rewrite (is_control_high (Byte.to_N b1)) by lia.
    rewrite (is_control_high (Byte.to_N b2)) by lia.
    rewrite (is_control_high (Byte.to_N b3)) by lia.
    rewrite (is_control_high _ Hcp). rewrite Hc. split; lia.
Qed.

Lemma utf8_decode_counts content s :
  utf8_decode content = Decoded s ->
  count_if is_control s = control_bytes content /\ len s <= len content.
Proof. apply (utf8_decode_counts_upto (List.length content)). lia. Qed.

Lemma utf8_decode_ascii content :
  forallb is_ascii_byte content = true ->
  utf8_decode content = Decoded (latin1_decode content).
Proof.
  induction content as [|b rest IH]; intros H; [reflexivity|].
  cbn [forallb] in H. apply andb_true_iff in H. destruct H as [Hb Hrest].
  cbn [utf8_decode]. cbv zeta. unfold is_ascii_byte in Hb. rewrite Hb.
  rewrite (IH Hrest). reflexivity.
Qed.

(** Every candidate's decoding of a buffer has the control bytes of the
    buffer and at most its length. *)
Lemma py_decode_counts cjk (Hcjk : keeps_controls cjk) e content s :
  In e candidates -> py_decode cjk e content = Decoded s ->
  count_if is_control s = control_bytes content /\ len s <= len content.
Proof.
  intros Hin H.
  assert (Hcm : forall table,
             (forall b c, charmap_lookup table b = Some c ->
                          is_control c = is_control (Byte.to_N b)) ->
             charmap_decode table content = Decoded s ->
             count_if is_control s = control_bytes content /\
             len s <= len content).
  { intros table Ht Hd.
    destruct (charmap_decode_counts table Ht content s Hd) as (Hl & Hc).
    split; [exact Hc|lia]. }
  cbn in Hin.
  destruct Hin as [<-|[<-|[<-|[<-|[<-|[<-|[<-|[<-|[<-|[<-|[]]]]]]]]]]].
  - apply utf8_decode_counts. exact H.
  - apply (Hcjk "shift_jis"); [cbn; tauto|exact H].
  - apply (Hcjk "euc-kr"); [cbn; tauto|exact H].
  - apply (Hcjk "big5"); [cbn; tauto|exact H].
  - apply (Hcjk "gbk"); [cbn; tauto|exact H].
  - apply (Hcjk "gb2312"); [cbn; tauto|exact H].
  - apply (Hcm cp1251_table cp1251_lookup_controls). exact H.
  - apply (Hcm iso8859_2_table); [|exact H].
    intros b c Hb. destruct (iso8859_2_lookup b) as (c' & Hc' & Hctl).
    congruence.
  - apply (Hcm cp1252_table cp1252_lookup_controls). exact H.
  - change (Decoded (latin1_decode content) = Decoded s) in H.
    injection H as <-. rewrite len_latin1. split; [reflexivity|lia].
Qed.

(** ** What the order of the candidates entails *)

Lemma try_encoding_plain decode e content :
  (forall s, _is_likely_misencoded_asian_text s e = Ok false) ->
  (forall s, _is_likely_misencoded_cross_asian s e = Ok false) ->
  try_encoding decode e content
  = match decode e content with
    | Decoded s => l <- _is_likely_text s ;;
                   Ok (if (l : bool) then Return s else Next)
    | _ => Ok Next
    end.
Proof.
  intros Hw Hx. unfold try_encoding.
  destruct (decode e content) as [s| |]; cbn [raise_outcome bind];
    try reflexivity.
  destruct (is_likely_text_total s) as [l Hl]. rewrite Hl. cbn [bind].
  destruct l; cbn [negb]; [|reflexivity].
  rewrite Hw. cbn [bind]. rewrite Hx. reflexivity.
Qed.

Lemma try_encoding_implausible decode e content :
  (forall s, decode e content = Decoded s -> _is_likely_text s = Ok false) ->
  try_encoding decode e content = Ok Next.
Proof.
  intros H. unfold try_encoding.
  destruct (decode e content) as [s| |]; cbn [raise_outcome bind];
    try reflexivity.
  rewrite (H s eq_refl). reflexivity.
Qed.

Lemma western_off_cp1251 s :
  _is_likely_misencoded_asian_text s "cp1251" = Ok false.
Proof. reflexivity. Qed.

Lemma western_off_iso8859_2 s :
  _is_likely_misencoded_asian_text s "iso-8859-2" = Ok false.
Proof. reflexivity. Qed.

Lemma cross_off_cp1251 s :
  _is_likely_misencoded_cross_asian s "cp1251" = Ok false.
Proof.
  unfold _is_likely_misencoded_cross_asian. destruct (len s <=? 3); reflexivity.
Qed.

Lemma cross_off_iso8859_2 s :
  _is_likely_misencoded_cross_asian s "iso-8859-2" = Ok false.
Proof.
  unfold _is_likely_misencoded_cross_asian. destruct (len s <=? 3); reflexivity.
Qed.

Lemma for_encodings_app decode content : forall before after,
  for_encodings decode (before ++ after)%list content
  = (r <- for_encodings decode before content ;;
     match r with
     | Some s => Ok (Some s)
     | None => for_encodings decode after content
     end).
Proof.
  induction before as [|e before IH]; intros after; [reflexivity|].
  cbn [app for_encodings].
  destruct (try_encoding decode e content) as [[s|]|x]; cbn [bind];
    [reflexivity|apply IH|reflexivity].
Qed.

(** Single-byte decodings of one buffer are equally plausible. *)
Lemma bytewise_equally_plausible content s t :
  len s = len content -> count_if is_control s = control_bytes content ->
  len t = len content -> count_if is_control t = control_bytes content ->
  _is_likely_text s = _is_likely_text t.
Proof. intros. apply is_likely_text_by_counts; congruence. Qed.

Lemma cp1252_text_counts cjk content s :
  py_decode cjk "cp1252" content = Decoded s ->
  len s = len content /\ count_if is_control s = control_bytes content.
Proof.
  apply (charmap_decode_counts cp1252_table cp1252_lookup_controls).
Qed.

Lemma iso8859_2_text cjk content :
  exists s, py_decode cjk "iso-8859-2" content = Decoded s /\
            len s = len content /\
            count_if is_control s = control_bytes content.
Proof.
  destruct (charmap_decode_total iso8859_2_table content) as (s & Hs).
  { intros b _ E. destruct (iso8859_2_lookup b) as (c & Hc & _). congruence. }
  exists s. split; [exact Hs|].
  apply (charmap_decode_counts iso8859_2_table); [|exact Hs].
  intros b c Hb. destruct (iso8859_2_lookup b) as (c' & Hc' & Hctl).
  congruence.
Qed.

Lemma cp1251_text cjk content :
  ~ In Byte.x98 content ->
  exists s, py_decode cjk "cp1251" content = Decoded s /\
            len s = len content /\
            count_if is_control s = control_bytes content.
Proof.
  intros Hno.
  destruct (charmap_decode_total cp1251_table content) as (s & Hs).
  { intros b Hb. apply cp1251_lookup_defined. intros ->. contradiction. }
  exists s. split; [exact Hs|].
  apply (charmap_decode_counts cp1251_table cp1251_lookup_controls).
  exact Hs.
Qed.

(** After an implausible single-byte decoding, cp1252 and latin-1 go the
    same way. *)
Lemma western_pair_skipped cjk content s :
  len s = len content -> count_if is_control s = control_bytes content ->
  _is_likely_text s = Ok false ->
  for_encodings (py_decode cjk) ["cp1252"; "latin-1"] content = Ok None.
Proof.
  intros Hl Hc Hs. cbn [for_encodings].
  rewrite try_encoding_implausible; cbn [bind].
  - rewrite try_encoding_implausible; [reflexivity|].
    intros t Ht. change (Decoded (latin1_decode content) = Decoded t) in Ht.
    injection Ht as <-. rewrite <- Hs.
    apply bytewise_equally_plausible with (content := content);
      try assumption; [apply len_latin1|reflexivity].
  - intros t Ht. apply cp1252_text_counts in Ht. destruct Ht as (Hl' & Hc').
    rewrite <- Hs.
    apply bytewise_equally_plausible with (content := content); assumption.
Qed.

Lemma iso8859_2_tail cjk content :
  for_encodings (py_decode cjk) ["iso-8859-2"; "cp1252"; "latin-1"] content
  = for_encodings (py_decode cjk) ["iso-8859-2"] content.
Proof.
  destruct (iso8859_2_text cjk content) as (s & Hs & Hl & Hc).
  cbn [for_encodings].
  rewrite (try_encoding_plain (py_decode cjk) "iso-8859-2" content
             western_off_iso8859_2 cross_off_iso8859_2), Hs.
  destruct (is_likely_text_total s) as [[|] Hp]; rewrite Hp; cbn [bind];
    [reflexivity|].
  exact (western_pair_skipped cjk content s Hl Hc Hp).
Qed.

Lemma loop_without_western_pair cjk content :
  for_encodings (py_decode cjk) common_encodings content
  = for_encodings (py_decode cjk)
      ["shift_jis"; "euc-kr"; "big5"; "gbk"; "gb2312"; "cp1251"; "iso-8859-2"]
      content.
Proof.
  change common_encodings
    with (["shift_jis"; "euc-kr"; "big5"; "gbk"; "gb2312"; "cp1251"]
          ++ ["iso-8859-2"; "cp1252"; "latin-1"])%list.
  change ["shift_jis"; "euc-kr"; "big5"; "gbk"; "gb2312"; "cp1251"; "iso-8859-2"]
    with (["shift_jis"; "euc-kr"; "big5"; "gbk"; "gb2312"; "cp1251"]
          ++ ["iso-8859-2"])%list.
  rewrite !for_encodings_app, iso8859_2_tail. reflexivity.
Qed.

(** X1.  cp1252 and latin-1 never provide the result: iso-8859-2 decodes
    every buffer, no mismatch heuristic applies to it, and the plausibility
    filter cannot tell single-byte decodings of one buffer apart.  The loop
    over the nine candidates is the loop over the first seven. *)
Theorem cp1252_latin1_never_reached
    (cjk : string -> bytes -> decode_outcome) (content : bytes) :
  for_encodings (py_decode cjk) common_encodings content
  = for_encodings (py_decode cjk)
      ["shift_jis"; "euc-kr"; "big5"; "gbk"; "gb2312"; "cp1251"; "iso-8859-2"]
      content.
Proof. exact (loop_without_western_pair cjk content). Qed.

Lemma cp1251_tail cjk content :
  ~ In Byte.x98 content ->
  for_encodings (py_decode cjk) ["cp1251"; "iso-8859-2"] content
  = for_encodings (py_decode cjk) ["cp1251"] content.
Proof.
  intros Hno.
  destruct (cp1251_text cjk content Hno) as (s & Hs & Hl & Hc).
  destruct (iso8859_2_text cjk content) as (t & Ht & Hl' & Hc').
  cbn [for_encodings].
  rewrite (try_encoding_plain (py_decode cjk) "cp1251" content
             western_off_cp1251 cross_off_cp1251), Hs.
  destruct (is_likely_text_total s) as [[|] Hp]; rewrite Hp; cbn [bind];
    [reflexivity|].
  rewrite try_encoding_implausible; [reflexivity|].
  intros t' Ht'. rewrite Ht in Ht'. injection Ht' as <-. rewrite <- Hp.
  apply bytewise_equally_plausible with (content := content); assumption.
Qed.

(** X2.  On a buffer without the byte 0x98 (the only one cp1251 leaves
    undefined) iso-8859-2 is never reached either: the loop is the loop
    over the East Asian codecs and cp1251. *)
Theorem cp1251_shadows_iso8859_2
    (cjk : string -> bytes -> decode_outcome) (content : bytes)
    (Hno98 : ~ In Byte.x98 content) :
  for_encodings (py_decode cjk) common_encodings content
  = for_encodings (py_decode cjk)
      ["shift_jis"; "euc-kr"; "big5"; "gbk"; "gb2312"; "cp1251"] content.
Proof.
  rewrite loop_without_western_pair.
  change ["shift_jis"; "euc-kr"; "big5"; "gbk"; "gb2312"; "cp1251"; "iso-8859-2"]
    with (east_asian ++ ["cp1251"; "iso-8859-2"])%list.
  change ["shift_jis"; "euc-kr"; "big5"; "gbk"; "gb2312"; "cp1251"]
    with (east_asian ++ ["cp1251"])%list.
  rewrite !for_encodings_app, (cp1251_tail cjk content Hno98). reflexivity.
Qed.

Lemma cp1251_shadows_iso8859_2_witness :
  ~ In Byte.x98 (encoded md_latin2) /\
  for_encodings (py_decode (recorded cjk_observations)) common_encodings
    (encoded md_latin2)
  = for_encodings (py_decode (recorded cjk_observations))
      ["shift_jis"; "euc-kr"; "big5"; "gbk"; "gb2312"; "cp1251"]
      (encoded md_latin2).
Proof.
  assert (H : ~ In Byte.x98 (encoded md_latin2))
    by (cbn; intuition discriminate).
  split; [exact H|].
  exact (cp1251_shadows_iso8859_2 (recorded cjk_observations)
           (encoded md_latin2) H).
Defined.

(** ** When a buffer is binary *)

Lemma control_bytes_bounds content : 0 <= control_bytes content <= len content.
Proof.
  unfold control_bytes. rewrite <- len_latin1. apply count_if_bounds.
Qed.

(** Few control characters: plausible. *)
Lemma is_likely_text_few_controls s :
  len s < max_len -> 10 * count_if is_control s <= 3 * len s ->
  _is_likely_text s = Ok true.
Proof.
  intros Hlen H. destruct s as [|c s]; [reflexivity|].
  rewrite is_likely_text_exact; [|discriminate|assumption].
  f_equal. apply Z.leb_le. exact H.
Qed.

(** Many control characters: implausible. *)
Lemma is_likely_text_many_controls s :
  len s < max_len -> 3 * len s < 10 * count_if is_control s ->
  _is_likely_text s = Ok false.
Proof.
  intros Hlen H. destruct s as [|c s]; [cbv in H; discriminate|].
  rewrite is_likely_text_exact; [|discriminate|assumption].
  f_equal. apply Z.leb_gt. exact H.
Qed.

Lemma text_when_few_control_bytes cjk content :
  len content < max_len ->
  10 * control_bytes content <= 3 * len content ->
  exists s, decode_with_fallback (py_decode cjk) content = Ok (Some s).
Proof.
  intros Hlen H.
  destruct (first_accepted_spec (py_decode cjk) (py_decode_utf8_known cjk)
              content) as (_ & _ & Hnone & ([s|] & Hr));
    [exists s; exact Hr|].
  exfalso. rewrite Hnone in Hr.
  destruct (iso8859_2_text cjk content) as (t & Ht & Hl & Hc).
  apply (Hr "iso-8859-2" ltac:(cbn; tauto) t).
  split; [exact Ht|]. split.
  - apply is_likely_text_few_controls; rewrite ?Hl, ?Hc; assumption.
  - intros _. split; [reflexivity|apply cross_off_iso8859_2].
Qed.

(** X3.  A buffer with at most 30% control bytes is never reported as
    binary, whatever the East Asian codecs answer. *)
Theorem few_control_bytes_give_text
    (cjk : string -> bytes -> decode_outcome) (content : bytes)
    (Hlen : len content < max_len)
    (Hfew : 10 * control_bytes content <= 3 * len content) :
  exists s, decode_with_fallback (py_decode cjk) content = Ok (Some s).
Proof. exact (text_when_few_control_bytes cjk content Hlen Hfew). Qed.

Lemma few_control_bytes_give_text_witness :
  len (encoded md_gbk) < max_len /\
  10 * control_bytes (encoded md_gbk) <= 3 * len (encoded md_gbk) /\
  exists s, decode_with_fallback (py_decode (recorded cjk_observations))
              (encoded md_gbk) = Ok (Some s).
Proof.
  split; [reflexivity|]. split; [cbv; discriminate|].
  apply (few_control_bytes_give_text (recorded cjk_observations)
           (encoded md_gbk)); [reflexivity|cbv; discriminate].
Defined.

Lemma none_when_many_control_bytes cjk content :
  keeps_controls cjk -> len content < max_len ->
  3 * len content < 10 * control_bytes content ->
  decode_with_fallback (py_decode cjk) content = Ok None.
Proof.
  intros Hcjk Hlen H.
  apply (first_accepted_spec (py_decode cjk) (py_decode_utf8_known cjk)
           content).
  intros e Hin s (Hd & Hp & _).
  destruct (py_decode_counts cjk Hcjk e content s Hin Hd) as (Hc & Hl).
  rewrite is_likely_text_many_controls in Hp; [discriminate|lia|lia].
Qed.

(** X4.  With East Asian codecs that keep control bytes as they are, the
    engine reports a buffer as binary exactly when more than 30% of its
    bytes are control bytes. *)
Theorem binary_iff_control_density
    (cjk : string -> bytes -> decode_outcome) (content : bytes)
    (Hcjk : keeps_controls cjk) (Hlen : len content < max_len) :
  decode_with_fallback (py_decode cjk) content = Ok None <->
  3 * len content < 10 * control_bytes content.
Proof.
  split.
  - intros Hnone.
    destruct (Z.lt_ge_cases (3 * len content) (10 * control_bytes content))
      as [|Hfew]; [assumption|].
    destruct (text_when_few_control_bytes cjk content Hlen Hfew) as (s & Hs).
    congruence.
  - apply none_when_many_control_bytes; assumption.
Qed.

Lemma recorded_decoded_in observations e content s :
  recorded observations e content = Decoded s ->
  In (e, content, Decoded s) observations.
Proof.
  induction observations as [|[[e' b'] o'] rest IH]; cbn [recorded];
    [discriminate|].
  destruct (String.eqb e e' && bytes_eqb content b') eqn:E.
  - apply andb_true_iff in E. destruct E as [E1 E2].
    apply String.eqb_eq in E1. apply bytes_eqb_eq in E2.
    intros ->. left. congruence.
  - intros H. right. apply IH. exact H.
Qed.

Lemma recorded_keeps_controls : keeps_controls (recorded cjk_observations).
Proof.
  intros e content s _ H. apply recorded_decoded_in in H.
  assert (Hall : forallb
                   (fun o =>
                      match snd o with
                      | Decoded t =>
                          (count_if is_control t
                           =? control_bytes (snd (fst o)))
                          && (len t <=? len (snd (fst o)))
                      | _ => true
                      end) cjk_observations = true)
    by (vm_compute; reflexivity).
  rewrite forallb_forall in Hall. specialize (Hall _ H).
  cbn [fst snd] in Hall. apply andb_true_iff in Hall.
  destruct Hall as [H1 H2]. split; [apply Z.eqb_eq|apply Z.leb_le]; assumption.
Qed.

Lemma binary_iff_control_density_witness :
  keeps_controls (recorded cjk_observations) /\
  len bin_jpeg < max_len /\
  (decode_with_fallback (py_decode (recorded cjk_observations)) bin_jpeg
   = Ok None <->
   3 * len bin_jpeg < 10 * control_bytes bin_jpeg).
Proof.
  split; [exact recorded_keeps_controls|]. split; [reflexivity|].
  exact (binary_iff_control_density (recorded cjk_observations) bin_jpeg
           recorded_keeps_controls eq_refl).
Defined.

(** X5.  Text the engine returns is the decoding of the whole buffer under
    one of the ten candidates, and control characters make up at most 30%
    of it. *)
Theorem returned_text_is_plausible
    (decode : string -> bytes -> decode_outcome) (Hutf8 : utf8_known decode)
    (content : bytes) (s : str)
    (Hret : decode_with_fallback decode content = Ok (Some s))
    (Hlen : len s < max_len) :
  (exists e, In e candidates /\ decode e content = Decoded s) /\
  10 * count_if is_control s <= 3 * len s.
Proof.
  apply (first_accepted_spec decode Hutf8 content) in Hret.
  destruct Hret as (tried & e & rest & Hc & (Hd & Hp & _) & _).
  split.
  - exists e. split; [|exact Hd]. rewrite Hc. apply in_or_app. right. left.
    reflexivity.
  - destruct s as [|c s]; [cbv; discriminate|].
    rewrite is_likely_text_exact in Hp; [|discriminate|assumption].
    injection Hp as Hp. apply Z.leb_le. exact Hp.
Qed.

Lemma returned_text_is_plausible_witness :
  utf8_known (py_decode (recorded cjk_observations)) /\
  decode_with_fallback (py_decode (recorded cjk_observations))
    (encoded md_latin1) = Ok (Some [72; 1081; 108; 108; 111; 32; 87; 1094;
                                    114; 108; 100]%N) /\
  10 * count_if is_control [72; 1081; 108; 108; 111; 32; 87; 1094;
                            114; 108; 100]%N
  <= 3 * len [72; 1081; 108; 108; 111; 32; 87; 1094; 114; 108; 100]%N.
Proof.
  split; [apply py_decode_utf8_known|]. split; [vm_compute; reflexivity|].
  apply (returned_text_is_plausible (py_decode (recorded cjk_observations))
           (py_decode_utf8_known (recorded cjk_observations))
           (encoded md_latin1));
    [vm_compute; reflexivity|reflexivity].
Defined.

(** X6.  A buffer of ASCII bytes, at most 30% of them control bytes, comes
    back byte for byte, whatever the East Asian codecs answer. *)
Theorem ascii_text_returned_unchanged
    (cjk : string -> bytes -> decode_outcome) (content : bytes)
    (Hascii : forallb is_ascii_byte content = true)
    (Hlen : len content < max_len)
    (Hfew : 10 * control_bytes content <= 3 * len content) :
  decode_with_fallback (py_decode cjk) content
  = Ok (Some (latin1_decode content)).
Proof.
  apply fast_path_returns.
  - change (utf8_decode content = Decoded (latin1_decode content)).
    apply utf8_decode_ascii. exact Hascii.
  - apply is_likely_text_few_controls; rewrite ?len_latin1; assumption.
Qed.

Lemma ascii_text_returned_unchanged_witness :
  forallb is_ascii_byte (encoded rt_utf8) = true /\
  len (encoded rt_utf8) < max_len /\
  10 * control_bytes (encoded rt_utf8) <= 3 * len (encoded rt_utf8) /\
  decode_with_fallback (py_decode (recorded cjk_observations))
    (encoded rt_utf8) = Ok (Some (latin1_decode (encoded rt_utf8))).
Proof.
  split; [reflexivity|]. split; [reflexivity|]. split; [cbv; discriminate|].
  apply (ascii_text_returned_unchanged (recorded cjk_observations)
           (encoded rt_utf8)); [reflexivity|reflexivity|cbv; discriminate].
Defined.

(** ** The heuristics look at no order *)

Lemma count_if_permutation p s t :
  Permutation s t -> count_if p s = count_if p t.
Proof.
  induction 1 as [|x s t _ IH|x y s|s t u _ IH1 _ IH2]; cbn [count_if];
    [reflexivity|rewrite IH; reflexivity|lia|congruence].
Qed.

Lemma len_permutation (s t : str) : Permutation s t -> len s = len t.
Proof. intros H. unfold len. rewrite (Permutation_length H). reflexivity. Qed.

(** X7.  The three heuristics are distributional: rearranging the code
    points of a string changes none of their verdicts. *)
Theorem heuristics_ignore_order (s t : str) (encoding : string)
    (Hperm : Permutation s t) :
  _is_likely_text s = _is_likely_text t /\
  _is_likely_misencoded_asian_text s encoding
  = _is_likely_misencoded_asian_text t encoding /\
  _is_likely_misencoded_cross_asian s encoding
  = _is_likely_misencoded_cross_asian t encoding.
Proof.
  pose proof (len_permutation s t Hperm) as Hl.
  pose proof (fun p => count_if_permutation p s t Hperm) as Hc.
  split; [|split].
  - apply is_likely_text_by_counts; [exact Hl|apply Hc].
  - unfold _is_likely_misencoded_asian_text. rewrite Hl, !Hc. reflexivity.
  - unfold _is_likely_misencoded_cross_asian, cross_asian_pattern2.
    rewrite Hl, !Hc. reflexivity.
Qed.

Lemma heuristics_ignore_order_witness :
  Permutation [0xFF96; 0x41; 0x7C17; 0x42; 0x43]%N
              [0x41; 0x42; 0x43; 0x7C17; 0xFF96]%N /\
  _is_likely_misencoded_cross_asian
    [0xFF96; 0x41; 0x7C17; 0x42; 0x43]%N "shift_jis"
  = _is_likely_misencoded_cross_asian
      [0x41; 0x42; 0x43; 0x7C17; 0xFF96]%N "shift_jis".
Proof.
  assert (H : Permutation [0xFF96; 0x41; 0x7C17; 0x42; 0x43]%N
                          [0x41; 0x42; 0x43; 0x7C17; 0xFF96]%N).
  { apply Permutation_cons_app with (l1 := [0x41; 0x42; 0x43; 0x7C17]%N)
                                    (l2 := []).
    cbn [app].
    apply perm_skip.
    apply Permutation_cons_app with (l1 := [0x42; 0x43]%N) (l2 := []).
    reflexivity. }
  split; [exact H|].
  exact (proj2 (proj2 (heuristics_ignore_order _ _ "shift_jis" H))).
Defined.

(** * Further results on the sampler and the views

    ** Strings and dicts *)

Lemma str_eqb_eq (a b : str) : str_eqb a b = true <-> a = b.
Proof.
  revert b. induction a as [|c a IH]; intros [|d b]; cbn [str_eqb];
    try (split; [discriminate|discriminate]); [tauto|].
  rewrite andb_true_iff, N.eqb_eq, IH. split.
  - intros [-> ->]. reflexivity.
  - intros [= -> ->]. split; reflexivity.
Qed.

Lemma str_eqb_refl (a : str) : str_eqb a a = true.
Proof. apply str_eqb_eq. reflexivity. Qed.



(** ** The sampler of traces *)

Lemma health_path (path : pyval) :
  truthy path && eq_str path (str_of "/_health/") = true
  <-> path = PyStr (str_of "/_health/").
Proof.
  split.
  - intros H. apply andb_true_iff in H. destruct H as [_ H].
    destruct path; cbn [eq_str] in H; try discriminate.
    apply str_eqb_eq in H. congruence.
  - intros ->. reflexivity.
Qed.

(** X8.  The sampler drops a trace (rate 0) exactly when the context is a
    dict whose ["wsgi_environ"] is a dict whose ["PATH_INFO"] is the string
    ["/_health/"].  It fails, with [AttributeError], exactly when the
    context, or an entry ["wsgi_environ"] that is there, is no dict; every
    other trace is kept (rate 1). *)
Theorem traces_sampler_drops_health_only (sampling_context : pyval) :
  (traces_sampler sampling_context = Ok 0 <->
   exists d wsgi_environ,
     sampling_context = PyDict d /\
     dict_get d (str_of "wsgi_environ") = Some (PyDict wsgi_environ) /\
     dict_get wsgi_environ (str_of "PATH_INFO")
     = Some (PyStr (str_of "/_health/"))) /\
  (traces_sampler sampling_context = Raise AttributeError <->
   (forall d, sampling_context <> PyDict d) \/
   exists d v,
     sampling_context = PyDict d /\
     dict_get d (str_of "wsgi_environ") = Some v /\
     forall wsgi_environ, v <> PyDict wsgi_environ) /\
  (traces_sampler sampling_context = Ok 0 \/
   traces_sampler sampling_context = Ok 1 \/
   traces_sampler sampling_context = Raise AttributeError).
Proof.
  unfold traces_sampler.
  destruct sampling_context as [| | | | | |d];
    try solve
      [cbn [get bind]; split; [|split];
       [split; [discriminate|intros (d & e & H & _); discriminate]
       |split; [intros _; left; intros d; discriminate|reflexivity]
       |right; right; reflexivity]].
  cbn [get].
  destruct (dict_get d (str_of "wsgi_environ")) as [v|] eqn:Hv; cbn [bind].
  - destruct v as [| | | | | |environ];
      try solve
        [cbn [get bind]; split; [|split];
         [split; [discriminate
                 |intros (d' & e & [= <-] & H & _); rewrite Hv in H;
                  discriminate]
         |split; [intros _; right; exists d; eexists;
                  split; [reflexivity
                         |split; [exact Hv|intros ?; discriminate]]
                 |reflexivity]
         |right; right; reflexivity]].
    cbn [get].
    destruct (dict_get environ (str_of "PATH_INFO")) as [path|] eqn:Hp;
      cbn [bind].
    + destruct (truthy path && eq_str path (str_of "/_health/")) eqn:E.
      * apply health_path in E. subst path.
        split; [|split].
        -- split; [intros _|reflexivity].
           exists d, environ. auto.
        -- split; [discriminate|].
           intros [H|(d' & v & [= <-] & H & Hn)];
             [exfalso; exact (H d eq_refl)|].
           rewrite Hv in H. injection H as <-.
           exfalso. exact (Hn environ eq_refl).
        -- left. reflexivity.
      * split; [|split].
        -- split; [discriminate|].
           intros (d' & e & [= <-] & H & H').
           rewrite Hv in H. injection H as <-. rewrite Hp in H'.
           injection H' as ->. discriminate.
        -- split; [discriminate|].
           intros [H|(d' & v & [= <-] & H & Hn)];
             [exfalso; exact (H d eq_refl)|].
           rewrite Hv in H. injection H as <-.
           exfalso. exact (Hn environ eq_refl).
        -- right. left. reflexivity.
    + cbn [truthy andb]. split; [|split].
      * split; [discriminate|].
        intros (d' & e & [= <-] & H & H').
        rewrite Hv in H. injection H as <-. rewrite Hp in H'. discriminate.
      * split; [discriminate|].
        intros [H|(d' & v & [= <-] & H & Hn)];
          [exfalso; exact (H d eq_refl)|].
        rewrite Hv in H. injection H as <-.
        exfalso. exact (Hn environ eq_refl).
      * right. left. reflexivity.
  - cbn [get dict_get bind truthy andb]. split; [|split].
    + split; [discriminate|].
      intros (d' & e & [= <-] & H & _). rewrite Hv in H. discriminate.
    + split; [discriminate|].
      intros [H|(d' & v & [= <-] & H & _)];
        [exfalso; exact (H d eq_refl)|].
      rewrite Hv in H. discriminate.
    + right. left. reflexivity.
Qed.

(** ** The front page *)








(** ** The releases of a project *)

Section Sorting.

Variable K : Type.
Variable lt : K -> K -> bool.
Variable key : str -> K.

Hypothesis lt_asym : forall a b, lt a b = true -> lt b a = false.
Hypothesis lt_trans :
  forall a b c, lt a b = false -> lt b c = false -> lt a c = false.

(** [a] may come before [b]: it is not the older one. *)
Let not_older (a b : str) : Prop := lt (key a) (key b) = false.

Lemma insert_reverse_perm (v : str) (l : list str) :
  Permutation (insert_reverse lt key v l) (v :: l).
Proof.
  induction l as [|u l IH]; cbn [insert_reverse]; [reflexivity|].
  destruct (lt (key v) (key u)); [|reflexivity].
  rewrite IH. apply perm_swap.
Qed.

Lemma sorted_reverse_perm (l : list str) :
  Permutation (sorted_reverse lt key l) l.
Proof.
  induction l as [|v l IH]; cbn [sorted_reverse fold_right]; [reflexivity|].
  rewrite insert_reverse_perm. apply perm_skip. exact IH.
Qed.

Lemma insert_reverse_sorted (v : str) (l : list str) :
  StronglySorted not_older l ->
  StronglySorted not_older (insert_reverse lt key v l).
Proof.
  induction 1 as [|u l Hl IH Hu]; cbn [insert_reverse].
  - constructor; constructor.
  - destruct (lt (key v) (key u)) eqn:E.
    + constructor; [exact IH|].
      apply (Permutation_Forall (Permutation_sym (insert_reverse_perm v l))).
      constructor; [exact (lt_asym _ _ E)|exact Hu].
    + constructor; [constructor; assumption|].
      constructor; [exact E|].
      apply (Forall_impl _ (P := not_older u)); [|exact Hu].
      intros x Hx. exact (lt_trans _ _ _ E Hx).
Qed.

Lemma sorted_reverse_sorted (l : list str) :
  StronglySorted not_older (sorted_reverse lt key l).
Proof.
  induction l as [|v l IH]; cbn [sorted_reverse fold_right].
  - constructor.
  - apply insert_reverse_sorted. exact IH.
Qed.

Lemma sorted_items (f : str -> pyval) (l : list str) :
  StronglySorted not_older l ->
  StronglySorted (fun a b : str * pyval => not_older (fst a) (fst b))
    (map (fun v => (v, f v)) l).
Proof.
  induction 1 as [|u l Hl IH Hu]; cbn [map]; constructor; [exact IH|].
  apply Forall_map. exact Hu.
Qed.

End Sorting.

(** Looking every key up gives the dict back. *)
Lemma items_of_keys (d : list (str * pyval)) :
  NoDup (map fst d) -> map (fun k => (k, item d k)) (map fst d) = d.
Proof.
  induction d as [|[k v] d IH]; cbn [map fst]; [reflexivity|].
  intros H. inversion H as [|? ? Hk Hd]; subst.
  f_equal.
  - unfold item. cbn [dict_get]. rewrite str_eqb_refl. reflexivity.
  - rewrite <- (IH Hd) at 2. apply map_ext_in.
    intros k' Hin. f_equal. unfold item. cbn [dict_get].
    destruct (str_eqb k k') eqn:E; [|reflexivity].
    apply str_eqb_eq in E. subst k'. contradiction.
Qed.

(** X10.  For a project under its canonical name that PyPI knows (status
    200), the page of releases shows every release of the answer once, with
    the data the answer gives it, and newest first: no release comes before
    one whose parsed version is greater.  The versions are compared as the
    code does, by [<] on what [parse] returns, which is taken to be a strict
    weak order. *)
Theorem versions_newest_first (w : collaborators) (project_name : str)
    (Hname : canonicalize_name w project_name = project_name)
    (Hstatus :
       status_code w
         (str_of "https://pypi.org/pypi/" ++ project_name
            ++ str_of "/json")%list = 200)
    (Hkeys :
       NoDup
         (map fst
            (releases_of w
               (str_of "https://pypi.org/pypi/" ++ project_name
                  ++ str_of "/json")%list)))
    (Hasym : forall a b, version_lt w a b = true -> version_lt w b a = false)
    (Htrans :
       forall a b c,
         version_lt w a b = false -> version_lt w b c = false ->
         version_lt w a c = false) :
  exists sorted_releases,
    versions w project_name
    = render_template "releases.html"
        [("releases", PyDict sorted_releases);
         ("h2", PyStr project_name);
         ("h2_link", PyStr (str_of "/project/" ++ project_name)%list);
         ("h2_paren", PyStr (str_of "View this project on PyPI"));
         ("h2_paren_link",
          PyStr (str_of "https://pypi.org/project/" ++ project_name)%list)] /\
    Permutation sorted_releases
      (releases_of w
         (str_of "https://pypi.org/pypi/" ++ project_name
            ++ str_of "/json")%list) /\
    StronglySorted
      (fun a b =>
         version_lt w (parse w (fst a)) (parse w (fst b)) = false)
      sorted_releases.
Proof.
  set (url := (str_of "https://pypi.org/pypi/" ++ project_name
                 ++ str_of "/json")%list) in *.
  eexists. split; [|split].
  - unfold versions. rewrite Hname, str_eqb_refl. cbn [negb].
    fold url. rewrite Hstatus. cbn [Z.eqb Pos.eqb negb]. reflexivity.
  - rewrite <- (items_of_keys (releases_of w url) Hkeys) at 2.
    apply Permutation_map. apply sorted_reverse_perm.
  - apply sorted_items. apply sorted_reverse_sorted; assumption.
Qed.

Lemma versions_newest_first_witness :
  exists sorted_releases,
    versions (example_world PyNone) (str_of "foo")
    = render_template "releases.html"
        [("releases", PyDict sorted_releases);
         ("h2", PyStr (str_of "foo"));
         ("h2_link", PyStr (str_of "/project/" ++ str_of "foo")%list);
         ("h2_paren", PyStr (str_of "View this project on PyPI"));
         ("h2_paren_link",
          PyStr (str_of "https://pypi.org/project/" ++ str_of "foo")%list)] /\
    Permutation sorted_releases
      (releases_of (example_world PyNone)
         (str_of "https://pypi.org/pypi/" ++ str_of "foo"
            ++ str_of "/json")%list) /\
    StronglySorted
      (fun a b =>
         version_lt (example_world PyNone) (parse (example_world PyNone) (fst a))
           (parse (example_world PyNone) (fst b)) = false)
      sorted_releases.
Proof.
  apply (versions_newest_first (example_world PyNone) (str_of "foo")).
  - reflexivity.
  - reflexivity.
  - vm_compute. repeat constructor; cbn; intuition discriminate.
  - cbn. intros a b H. apply Z.ltb_lt in H. apply Z.ltb_ge. lia.
  - cbn. intros a b c H1 H2. apply Z.ltb_ge in H1, H2. apply Z.ltb_ge. lia.
Defined.

(** ** The extension of a path *)

Lemma split_cons (sep : codepoint) (s : str) :
  exists piece pieces, split sep s = piece :: pieces.
Proof.
  destruct s as [|c s]; cbn [split]; [eauto|].
  destruct (c =? sep)%N; [eauto|].
  destruct (split sep s); eauto.
Qed.

Lemma split_one (sep : codepoint) (s piece : str) :
  split sep s = [piece] -> piece = s /\ ~ In sep s.
Proof.
  revert piece. induction s as [|c s IH]; intros piece; cbn [split].
  - intros [= <-]. split; [reflexivity|intros []].
  - destruct (split_cons sep s) as (p & ps & Hs).
    destruct (c =? sep)%N eqn:E; rewrite Hs.
    + discriminate.
    + intros [= <- ->]. destruct (IH p Hs) as [-> Hn].
      apply N.eqb_neq in E. split; [reflexivity|].
      intros [H|H]; [congruence|contradiction].
Qed.

Lemma split_no_sep (sep : codepoint) (s : str) :
  ~ In sep s -> split sep s = [s].
Proof.
  induction s as [|c s IH]; cbn [split In]; [reflexivity|].
  intros H. destruct (c =? sep)%N eqn:E.
  - apply N.eqb_eq in E. tauto.
  - rewrite IH by tauto. reflexivity.
Qed.

Lemma file_extension_no_dot (filepath : str) :
  ~ In 46%N filepath -> file_extension filepath = filepath.
Proof.
  intros H. unfold file_extension. rewrite split_no_sep by exact H.
  reflexivity.
Qed.

Lemma last_cons_cons {A : Type} (a b : A) (l : list A) (d : A) :
  last (a :: b :: l) d = last (b :: l) d.
Proof. reflexivity. Qed.

Lemma file_extension_after_dot (stem e : str) :
  ~ In 46%N e -> file_extension (stem ++ 46%N :: e)%list = e.
Proof.
  intros He. unfold file_extension.
  induction stem as [|c stem IH]; cbn [app split].
  - rewrite N.eqb_refl, split_no_sep by exact He. reflexivity.
  - destruct (split_cons 46%N (stem ++ 46%N :: e)%list) as (p & ps & Hs).
    rewrite Hs in *.
    destruct (c =? 46)%N.
    + destruct ps; exact IH.
    + destruct ps as [|q ps].
      * apply split_one in Hs. exfalso. apply (proj2 Hs).
        apply in_or_app. right. left. reflexivity.
      * rewrite last_cons_cons. rewrite last_cons_cons in IH. exact IH.
Qed.

Lemma file_extension_spec (filepath : str) :
  ~ In 46%N (file_extension filepath) /\
  (filepath = file_extension filepath \/
   exists stem, filepath = (stem ++ 46%N :: file_extension filepath)%list).
Proof.
  unfold file_extension.
  induction filepath as [|c s (Hn & IH)]; cbn [split].
  - split; [intros []|left; reflexivity].
  - destruct (split_cons 46%N s) as (p & ps & Hs). rewrite Hs in *.
    destruct (c =? 46)%N eqn:E.
    + apply N.eqb_eq in E. subst c. cbv iota.
      rewrite last_cons_cons. split; [exact Hn|]. right.
      destruct IH as [IH|(stem & IH)].
      * exists []. cbn [app]. f_equal. exact IH.
      * exists (46%N :: stem). cbn [app]. f_equal. exact IH.
    + apply N.eqb_neq in E. cbv iota. destruct ps as [|q ps].
      * apply split_one in Hs. destruct Hs as [-> Hs].
        cbn [last] in *. split; [|left; reflexivity].
        intros [H|H]; [congruence|contradiction].
      * rewrite last_cons_cons in *. split; [exact Hn|]. right.
        destruct IH as [IH|(stem & IH)].
        -- exfalso. rewrite <- IH in Hn.
           rewrite (split_no_sep _ _ Hn) in Hs. discriminate.
        -- exists (c :: stem). cbn [app]. f_equal. exact IH.
Qed.

(** X11.  A path is shown as bytecode exactly when it is ["pyc"] or
    ["pyo"], or ends with a dot followed by one of them: the extension is
    what follows the last dot, and the whole path when it has no dot. *)
Theorem bytecode_by_suffix (filepath : str) :
  is_bytecode filepath = true <->
  exists e,
    In e [str_of "pyc"; str_of "pyo"] /\
    (filepath = e \/ exists stem, filepath = (stem ++ str_of "." ++ e)%list).
Proof.
  unfold is_bytecode. cbn [str_in]. rewrite orb_false_r, orb_true_iff.
  rewrite !str_eqb_eq. split.
  - intros H. exists (file_extension filepath). split.
    + cbn [In]. destruct H as [H|H]; rewrite H; auto.
    + exact (proj2 (file_extension_spec filepath)).
  - intros (e & He & H).
    assert (Hn : ~ In 46%N e).
    { destruct He as [<-|[<-|[]]]; vm_compute; intuition discriminate. }
    assert (Hx : file_extension filepath = e).
    { destruct H as [->|(stem & ->)].
      - apply file_extension_no_dot. exact Hn.
      - apply (file_extension_after_dot stem e Hn). }
    rewrite Hx. destruct He as [<-|[<-|[]]]; auto.
Qed.

(** ** A file of a distribution *)

(** X12.  A file that is found, is no bytecode by its name and has at most
    30% control bytes is shown as text, whatever the East Asian codecs make
    of it: the page is [code.html], its [code] is what the engine decoded
    and its [name] the extension of the path. *)
Theorem file_text_is_shown (w : collaborators)
    (cjk : string -> bytes -> decode_outcome)
    (request_url project_name version first second rest distname filepath
      : str)
    (dist : Dist w) (content_bytes : bytes)
    (Hcodec : decode w = py_decode cjk)
    (Hname : canonicalize_name w project_name = project_name)
    (Hdist : _get_dist w first second rest distname = Returns (Some dist))
    (Hread : contents_of w dist filepath = Returns (PyBytes content_bytes))
    (Hext : is_bytecode filepath = false)
    (Hlen : len content_bytes < max_len)
    (Hfew : 10 * control_bytes content_bytes <= 3 * len content_bytes) :
  exists decoded_contents context,
    decode_with_fallback (py_decode cjk) content_bytes
    = Ok (Some decoded_contents) /\
    file w request_url project_name version first second rest distname
      filepath
    = Returns (render_template "code.html" context) /\
    param context "code" = Some (PyStr decoded_contents) /\
    param context "name" = Some (PyStr (file_extension filepath)).
Proof.
  destruct (text_when_few_control_bytes cjk content_bytes Hlen Hfew)
    as (s & Hs).
  exists s. eexists. split; [exact Hs|].
  unfold file.
  rewrite Hname, str_eqb_refl, Hdist, Hread, Hext, Hcodec, Hs.
  cbn [negb]. split; [reflexivity|]. split; reflexivity.
Qed.

Lemma file_text_is_shown_witness :
  exists decoded_contents context,
    decode_with_fallback (py_decode (recorded cjk_observations))
      (encoded md_gbk)
    = Ok (Some decoded_contents) /\
    file (example_world (PyBytes (encoded md_gbk))) []
      (str_of "foo") (str_of "1.0") (str_of "a") (str_of "b") (str_of "c")
      (str_of "foo-1.0.tar.gz") (str_of "foo/README.txt")
    = Returns (render_template "code.html" context) /\
    param context "code" = Some (PyStr decoded_contents) /\
    param context "name"
    = Some (PyStr (file_extension (str_of "foo/README.txt"))).
Proof.
  apply (file_text_is_shown (example_world (PyBytes (encoded md_gbk)))
           (recorded cjk_observations) [] (str_of "foo") (str_of "1.0")
           (str_of "a") (str_of "b") (str_of "c") (str_of "foo-1.0.tar.gz")
           (str_of "foo/README.txt") tt (encoded md_gbk)).
  - reflexivity.
  - reflexivity.
  - reflexivity.
  - reflexivity.
  - vm_compute. reflexivity.
  - reflexivity.
  - cbv. discriminate.
Defined.

(** X13.  With East Asian codecs that keep control bytes as they are, the
    view answers "Binary files are not supported." in one case only: the
    project name is canonical, the path names no bytecode, the file is
    found with bytes as its contents, and more than 30% of them are control
    bytes.  In that case it always does. *)
Theorem file_binary_notice_iff (w : collaborators)
    (cjk : string -> bytes -> decode_outcome)
    (request_url project_name version first second rest distname filepath
      : str)
    (Hcodec : decode w = py_decode cjk)
    (Hcjk : keeps_controls cjk)
    (Hlen :
       forall dist content_bytes,
         contents_of w dist filepath = Returns (PyBytes content_bytes) ->
         len content_bytes < max_len) :
  file w request_url project_name version first second rest distname filepath
  = Returns (body binary_notice)
  <->
  canonicalize_name w project_name = project_name /\
  is_bytecode filepath = false /\
  exists dist content_bytes,
    _get_dist w first second rest distname = Returns (Some dist) /\
    contents_of w dist filepath = Returns (PyBytes content_bytes) /\
    3 * len content_bytes < 10 * control_bytes content_bytes.
Proof.
  unfold file. rewrite Hcodec. split.
  - destruct (str_eqb project_name (canonicalize_name w project_name))
      eqn:Hname; cbn [negb]; [|discriminate].
    apply str_eqb_eq in Hname.
    destruct (_get_dist w first second rest distname) as [[dist|]|r]
      eqn:Hdist; [| |discriminate].
    2: { intros H. exfalso. revert H. vm_compute. discriminate. }
    destruct (contents_of w dist filepath) as [contents|r] eqn:Hread.
    2: { destruct r; discriminate. }
    destruct (is_bytecode filepath) eqn:Hext; [discriminate|].
    destruct contents as [| | | |b| |]; try discriminate.
    destruct (decode_with_fallback (py_decode cjk) b) as [[s|]|e] eqn:Hr;
      try discriminate.
    intros _. split; [congruence|]. split; [reflexivity|].
    exists dist, b. split; [reflexivity|]. split; [exact Hread|].
    destruct (Z.lt_ge_cases (3 * len b) (10 * control_bytes b))
      as [|Hfew]; [assumption|].
    destruct (text_when_few_control_bytes cjk b (Hlen dist b Hread) Hfew)
      as (s & Hs).
    congruence.
  - intros (Hname & Hext & dist & b & Hdist & Hread & Hmany).
    rewrite Hname, str_eqb_refl, Hdist, Hread, Hext.
    rewrite (none_when_many_control_bytes cjk b Hcjk (Hlen dist b Hread)
               Hmany).
    reflexivity.
Qed.

Lemma file_binary_notice_iff_witness :
  file (example_world (PyBytes bin_jpeg)) []
    (str_of "foo") (str_of "1.0") (str_of "a") (str_of "b") (str_of "c")
    (str_of "foo-1.0.tar.gz") (str_of "foo/logo.jpg")
  = Returns (body binary_notice)
  <->
  canonicalize_name (example_world (PyBytes bin_jpeg)) (str_of "foo")
  = str_of "foo" /\
  is_bytecode (str_of "foo/logo.jpg") = false /\
  exists dist content_bytes,
    _get_dist (example_world (PyBytes bin_jpeg)) (str_of "a") (str_of "b")
      (str_of "c") (str_of "foo-1.0.tar.gz") = Returns (Some dist) /\
    contents_of (example_world (PyBytes bin_jpeg)) dist
      (str_of "foo/logo.jpg") = Returns (PyBytes content_bytes) /\
    3 * len content_bytes < 10 * control_bytes content_bytes.
Proof.
  apply (file_binary_notice_iff (example_world (PyBytes bin_jpeg))
           (recorded cjk_observations) [] (str_of "foo") (str_of "1.0")
           (str_of "a") (str_of "b") (str_of "c") (str_of "foo-1.0.tar.gz")
           (str_of "foo/logo.jpg")).
  - reflexivity.
  - exact recorded_keeps_controls.
  - intros dist content_bytes H. injection H as <-. reflexivity.
Defined.

(** ** When the views fail *)




